(** * The conductor manager of ironic: a shallow embedding

    This development embeds [ironic/conductor/manager.py] (class
    [ConductorManager]) and states the behaviour of its RPC methods
    [update_node], [change_node_power_state], [validate_vendor_action],
    [do_vendor_action], [do_node_deploy] and [do_node_tear_down].

    The methods are effectful: they read and write node rows through the
    database API, call the node's driver, and raise exceptions.  They are
    embedded in a state-and-exception monad over a [world] holding the node
    table and the log of the external calls made so far. *)

From stdpp Require Import base decidable countable gmap strings list.

Local Open Scope string_scope.

(** ** [ironic.common.states] *)

Module states.

(** Modelled from the spec: the constants of [ironic/common/states.py].
    A state is a Python string or [None]; the test suite fixes
    [NOSTATE = None], the other constants are pairwise distinct strings. *)
Definition state : Type := option string.

Definition NOSTATE : state := None.
Definition ACTIVE : state := Some "active".
Definition DEPLOYING : state := Some "deploying".
Definition DEPLOYFAIL : state := Some "deploy failed".
Definition DEPLOYDONE : state := Some "deploy complete".
Definition DELETING : state := Some "deleting".
Definition DELETED : state := Some "deleted".
Definition ERROR : state := Some "error".
Definition POWER_ON : state := Some "power on".
Definition POWER_OFF : state := Some "power off".

(** [str(state)], as used by the [%s] conversions of the messages. *)
Definition str (s : state) : string := default "None" s.

End states.

Import states.

(** ** [ironic.common.exception] *)

(** Modelled from the spec: the exception classes of
    [ironic/common/exception.py] that the manager raises or that the test
    suite expects, and Python's [AttributeError]. *)
Inductive exn : Type :=
  | IronicException (message : string)
  | InvalidParameterValue (message : string)
  | InstanceDeployFailure (message : string)
  | NodeInWrongPowerState (node : string) (pstate : state)
  | UnsupportedDriverExtension (driver node extension : string)
  | NodeNotFound (node : string)
  | NodeLocked (node : string) (host : string)
  | DriverNotFound (driver_name : string)
  | AttributeError (message : string).

(** [str(e)] for the [%s] conversions of [last_error].  The message
    templates of the classes are not in the sources; the statements below
    depend on [str(e)] being a string only. *)
Definition exn_str (e : exn) : string :=
  match e with
  | IronicException m | InvalidParameterValue m
  | InstanceDeployFailure m | AttributeError m => m
  | NodeInWrongPowerState n s =>
      "Can not change instance association while node " ++ n
        ++ " is in power state " ++ states.str s ++ "."
  | UnsupportedDriverExtension d n x =>
      "Driver " ++ d ++ " does not support " ++ x ++ "."
  | NodeNotFound n => "Node " ++ n ++ " could not be found."
  | NodeLocked n h => "Node " ++ n ++ " is locked by host " ++ h ++ "."
  | DriverNotFound d => "Failed to load driver " ++ d ++ "."
  end.

(** ** Node rows and node objects *)

(** The columns of a node row that the conductor reads or writes. *)
Record row : Type := Row {
  driver : string;
  driver_info : gmap string string;
  power_state : state;
  target_power_state : state;
  provision_state : state;
  target_provision_state : state;
  instance_uuid : option string;
  last_error : option string;
  reservation : option string;
  extra : gmap string string
}.

Inductive field : Type :=
  | F_driver | F_driver_info | F_power_state | F_target_power_state
  | F_provision_state | F_target_provision_state | F_instance_uuid
  | F_last_error | F_reservation | F_extra.

#[global] Instance field_eq_dec : EqDecision field.
Proof. solve_decision. Defined.

Definition field_index (f : field) : nat :=
  match f with
  | F_driver => 0 | F_driver_info => 1 | F_power_state => 2
  | F_target_power_state => 3 | F_provision_state => 4
  | F_target_provision_state => 5 | F_instance_uuid => 6
  | F_last_error => 7 | F_reservation => 8 | F_extra => 9
  end.

Definition field_of_index (n : nat) : field :=
  match n with
  | 0 => F_driver | 1 => F_driver_info | 2 => F_power_state
  | 3 => F_target_power_state | 4 => F_provision_state
  | 5 => F_target_provision_state | 6 => F_instance_uuid
  | 7 => F_last_error | 8 => F_reservation | _ => F_extra
  end.

#[global] Instance field_countable : Countable field.
Proof.
  apply (inj_countable' field_index field_of_index).
  intros f. destruct f; reflexivity.
Defined.

(** Modelled from the spec: the node object of [ironic/objects/node.py],
    "a node record carrying pending field changes plus the set of fields
    that changed".  [changed] is the object's [_changed_fields]. *)
Record Node : Type := MkNode {
  uuid : string;
  fields : row;
  changed : gset field
}.

Definition obj_what_changed (o : Node) : gset field := changed o.

Definition obj_reset_changes (o : Node) : Node :=
  {| uuid := uuid o; fields := fields o; changed := ∅ |}.

(** A row with one column replaced. *)
Definition with_power_state (v : state) (r : row) : row :=
  Row (driver r) (driver_info r) v (target_power_state r)
    (provision_state r) (target_provision_state r) (instance_uuid r)
    (last_error r) (reservation r) (extra r).

Definition with_target_power_state (v : state) (r : row) : row :=
  Row (driver r) (driver_info r) (power_state r) v
    (provision_state r) (target_provision_state r) (instance_uuid r)
    (last_error r) (reservation r) (extra r).

Definition with_provision_state (v : state) (r : row) : row :=
  Row (driver r) (driver_info r) (power_state r) (target_power_state r)
    v (target_provision_state r) (instance_uuid r)
    (last_error r) (reservation r) (extra r).

Definition with_target_provision_state (v : state) (r : row) : row :=
  Row (driver r) (driver_info r) (power_state r) (target_power_state r)
    (provision_state r) v (instance_uuid r)
    (last_error r) (reservation r) (extra r).

Definition with_instance_uuid (v : option string) (r : row) : row :=
  Row (driver r) (driver_info r) (power_state r) (target_power_state r)
    (provision_state r) (target_provision_state r) v
    (last_error r) (reservation r) (extra r).

Definition with_last_error (v : option string) (r : row) : row :=
  Row (driver r) (driver_info r) (power_state r) (target_power_state r)
    (provision_state r) (target_provision_state r) (instance_uuid r)
    v (reservation r) (extra r).

Definition with_reservation (v : option string) (r : row) : row :=
  Row (driver r) (driver_info r) (power_state r) (target_power_state r)
    (provision_state r) (target_provision_state r) (instance_uuid r)
    (last_error r) v (extra r).

(** [o[name] = value]: the setter stores the value and records the field
    in [_changed_fields]. *)
Definition setitem (f : field) (update : row → row) (o : Node) : Node :=
  {| uuid := uuid o;
     fields := update (fields o);
     changed := {[f]} ∪ changed o |}.

Definition setitem_power_state (v : state) : Node → Node :=
  setitem F_power_state (with_power_state v).

Definition setitem_target_power_state (v : state) : Node → Node :=
  setitem F_target_power_state (with_target_power_state v).

Definition setitem_provision_state (v : state) : Node → Node :=
  setitem F_provision_state (with_provision_state v).

Definition setitem_target_provision_state (v : state) : Node → Node :=
  setitem F_target_provision_state (with_target_provision_state v).

Definition setitem_instance_uuid (v : option string) : Node → Node :=
  setitem F_instance_uuid (with_instance_uuid v).

Definition setitem_last_error (v : option string) : Node → Node :=
  setitem F_last_error (with_last_error v).

(** The row after [dbapi.update_node(uuid, updates)], where [updates] maps
    every changed field of the object to the object's value. *)
Definition pick {A : Type} (f : field) (o : Node) (get : row → A) (r : row) : A :=
  if decide (f ∈ changed o) then get (fields o) else get r.

Definition apply_updates (o : Node) (r : row) : row :=
  {| driver := pick F_driver o driver r;
     driver_info := pick F_driver_info o driver_info r;
     power_state := pick F_power_state o power_state r;
     target_power_state := pick F_target_power_state o target_power_state r;
     provision_state := pick F_provision_state o provision_state r;
     target_provision_state :=
       pick F_target_provision_state o target_provision_state r;
     instance_uuid := pick F_instance_uuid o instance_uuid r;
     last_error := pick F_last_error o last_error r;
     reservation := pick F_reservation o reservation r;
     extra := pick F_extra o extra r |}.

(** ** Drivers *)

(** What a call returns to its caller: a value, or a raised exception. *)
Inductive outcome (A : Type) : Type :=
  | Return (a : A)
  | Raise (e : exn).
Arguments Return {A} a.
Arguments Raise {A} e.

(** The capability interfaces of a driver bundle.  The concrete drivers are
    external to the conductor; a method is a function of its arguments that
    returns or raises.  The [task] argument of the Python methods carries
    the same node and driver and is left out. *)
Module Power.
Record interface : Type := {
  validate : Node → outcome unit;
  get_power_state : Node → outcome state;
  set_power_state : Node → state → outcome unit
}.
End Power.

Module Deploy.
Record interface : Type := {
  validate : Node → outcome unit;
  deploy : Node → outcome state;
  tear_down : Node → outcome state
}.
End Deploy.

Module Vendor.
Record interface : Type := {
  validate : Node → string → gmap string string → outcome string;
  vendor_passthru : Node → string → gmap string string → outcome unit
}.
End Vendor.

(** [vendor] is [None] for a driver without the vendor extension. *)
Record Driver : Type := {
  power : Power.interface;
  deploy : Deploy.interface;
  vendor : option Vendor.interface
}.

(** ** The world: node table and log of external calls *)

Inductive call : Type :=
  | db_reserve_node (host node_id : string)
  | db_release_node (host node_id : string)
  | db_update_node (node_id : string)
  | power_validate (node_id : string)
  | power_get_power_state (node_id : string)
  | power_set_power_state (node_id : string) (pstate : state)
  | deploy_validate (node_id : string)
  | deploy_deploy (node_id : string)
  | deploy_tear_down (node_id : string)
  | vendor_validate (node_id method : string)
  | vendor_vendor_passthru (node_id method : string).

Record world : Type := World {
  db : gmap string row;
  calls : list call
}.

Definition log (c : call) (w : world) : world :=
  {| db := db w; calls := calls w ++ [c] |}.

Definition store (k : string) (r : row) (w : world) : world :=
  {| db := <[k := r]> (db w); calls := calls w |}.

(** ** The monad of conductor code *)

Definition M (A : Type) : Type := world → outcome A * world.

#[global] Instance M_ret : MRet M := λ A a w, (Return a, w).

#[global] Instance M_bind : MBind M := λ A B k m w,
  match m w with
  | (Return a, w') => k a w'
  | (Raise e, w') => (Raise e, w')
  end.

Definition raise {A : Type} (e : exn) : M A := λ w, (Raise e, w).

(** [try: m] with the exception, if any, handed to the code that follows. *)
Definition try {A : Type} (m : M A) : M (outcome A) := λ w,
  match m w with
  | (r, w') => (Return r, w')
  end.

(** The end of a [try] statement whose handler re-raises
    ([excutils.save_and_reraise_exception]). *)
Definition reraise {A : Type} (r : outcome A) : M A :=
  match r with
  | Return a => mret a
  | Raise e => raise e
  end.

(** An effect on the world that cannot fail. *)
Definition modify (f : world → world) : M unit := λ w, (Return tt, f w).

(** A call into a driver: logged, then its outcome. *)
Definition invoke {A : Type} (c : call) (r : outcome A) : M A :=
  modify (log c);; reraise r.

(** ** [ironic.db.api] *)

Section Conductor.

(** [CONF.host] and the drivers loaded by the driver factory. *)
Context (host : string) (drivers : gmap string Driver).

(** Modelled from the spec: the Persistence Gateway.  [get_node] fails
    with [NodeNotFound] on a missing row. *)
Definition get_node (node_id : string) : M row := λ w,
  match db w !! node_id with
  | Some r => (Return r, w)
  | None => (Raise (NodeNotFound node_id), w)
  end.

(** Modelled from the spec: [reserve_node] sets [reservation = holder]
    where [reservation] is null and fails with [NodeLocked] otherwise. *)
Definition reserve_node (node_id : string) : M row :=
  r ← get_node node_id;
  match reservation r with
  | Some holder => raise (NodeLocked node_id holder)
  | None =>
      let r' := with_reservation (Some host) r in
      modify (store node_id r');;
      modify (log (db_reserve_node host node_id));;
      mret r'
  end.

(** Modelled from the spec: [release_node] clears [reservation] only
    where it equals the holder. *)
Definition release_node (node_id : string) : M unit :=
  r ← try (get_node node_id);
  match r with
  | Return r =>
      if decide (reservation r = Some host)
      then modify (store node_id (with_reservation None r))
      else mret tt
  | Raise _ => mret tt
  end;;
  modify (log (db_release_node host node_id)).

(** Modelled from the spec: [update_node_fields], reached through
    [Node.save]: "persist remaining changed fields". *)
Definition save (o : Node) : M Node :=
  r ← get_node (uuid o);
  modify (store (uuid o) (apply_updates o r));;
  modify (log (db_update_node (uuid o)));;
  mret (obj_reset_changes o).

(** ** [ironic.conductor.task_manager] *)

Record Task : Type := {
  task_node : Node;
  task_driver : Driver
}.

Definition get_driver (name : string) : M Driver :=
  match drivers !! name with
  | Some d => mret d
  | None => raise (DriverNotFound name)
  end.

(** Modelled from the spec: [task_manager.acquire] for one node.  Load
    the node, reserving it unless [shared]; resolve the driver from
    [driver_name] if supplied, else from the node; a failure releases the
    reservation taken. *)
Definition acquire (node_id : string) (shared : bool)
    (driver_name : option string) : M Task :=
  r ← (if shared then get_node node_id else reserve_node node_id);
  d ← try (get_driver (default (driver r) driver_name));
  match d with
  | Return d =>
      mret {| task_node := {| uuid := node_id; fields := r; changed := ∅ |};
              task_driver := d |}
  | Raise e =>
      (if shared then mret tt else release_node node_id);;
      raise e
  end.

(** [with task_manager.acquire(...) as task: body]: the reservation is
    released on every exit path. *)
Definition with_acquire {A : Type} (node_id : string) (shared : bool)
    (driver_name : option string) (body : Task → M A) : M A :=
  task ← acquire node_id shared driver_name;
  r ← try (body task);
  (if shared then mret tt else release_node node_id);;
  reraise r.

(** ** [ironic.conductor.manager.ConductorManager] *)

(** [get_node_power_state] (manager.py:104-111): a shared task, the
    driver's [get_power_state], nothing saved. *)
Definition get_node_power_state (node_id : string) : M state :=
  with_acquire node_id true None (λ task,
    let node := task_node task in
    let driver := task_driver task in
    invoke (power_get_power_state (uuid node))
      (Power.get_power_state (power driver) node)).

(** [update_node] (manager.py:113-151).  The delta is tested for
    [power_state] before the task is acquired; inside the task, a delta
    with [instance_uuid] has the driver validate and probe the node, the
    probed state being assigned to [node_obj['power_state']]; then
    [node_obj.save] and [return node_obj]. *)
Definition update_node (node_obj : Node) : M Node :=
  let node_id := uuid node_obj in
  let delta := obj_what_changed node_obj in
  if decide (F_power_state ∈ delta) then
    raise (IronicException
             "Invalid method call: update_node can not change node state.")
  else
    let driver_name :=
      if decide (F_driver ∈ delta)
      then Some (driver (fields node_obj)) else None in
    with_acquire node_id false driver_name (λ task,
      node_obj ←
        (if decide (F_instance_uuid ∈ delta) then
           invoke (power_validate (uuid node_obj))
             (Power.validate (power (task_driver task)) node_obj);;
           pstate ← invoke (power_get_power_state (uuid node_obj))
             (Power.get_power_state (power (task_driver task)) node_obj);
           let node_obj := setitem_power_state pstate node_obj in
           if decide (power_state (fields node_obj) ≠ POWER_OFF) then
             raise (NodeInWrongPowerState node_id
                      (power_state (fields node_obj)))
           else mret node_obj
         else mret node_obj);
      (* update any remaining parameters, then save *)
      save node_obj).

Definition power_failure (new_state : state) (e : exn) : string :=
  "Failed to change power state to '" ++ states.str new_state
    ++ "'. Error: " ++ exn_str e.

(** [change_node_power_state] (manager.py:153-225).  [node] is
    [task.node].  The first [try] covers [validate] and [get_power_state];
    its handler sets [last_error], saves and re-raises.  The second covers
    [set_power_state]: [except] sets [last_error], [else] sets
    [power_state], [finally] clears [target_power_state] and saves. *)
Definition change_node_power_state (node_obj : Node) (new_state : state)
    : M unit :=
  let node_id := uuid node_obj in
  with_acquire node_id false None (λ task,
    let node := task_node task in
    r ← try (invoke (power_validate (uuid node))
               (Power.validate (power (task_driver task)) node);;
             invoke (power_get_power_state (uuid node))
               (Power.get_power_state (power (task_driver task)) node));
    match r with
    | Raise e =>
        let node :=
          setitem_last_error (Some (power_failure new_state e)) node in
        save node;;
        raise e
    | Return curr_state =>
        if decide (curr_state = new_state) then
          (* already in the requested state: clear last_error, return *)
          let node := setitem_last_error None node in
          save node;;
          mret tt
        else
          (* expose that work is in progress *)
          let node := setitem_target_power_state new_state node in
          let node := setitem_last_error None node in
          node ← save node;
          (* take power action *)
          r ← try (invoke (power_set_power_state (uuid node) new_state)
                     (Power.set_power_state (power (task_driver task))
                        node new_state));
          let node :=
            match r with
            | Raise e =>
                setitem_last_error (Some (power_failure new_state e)) node
            | Return _ => setitem_power_state new_state node
            end in
          (* finally *)
          let node := setitem_target_power_state NOSTATE node in
          save node;;
          reraise r
    end).

(** [validate_vendor_action] (manager.py:235-248):
    [if getattr(task.driver, 'vendor', None)], else
    [UnsupportedDriverExtension]. *)
Definition validate_vendor_action (node_id driver_method : string)
    (info : gmap string string) : M string :=
  with_acquire node_id true None (λ task,
    match vendor (task_driver task) with
    | Some ext =>
        invoke (vendor_validate (uuid (task_node task)) driver_method)
          (Vendor.validate ext (task_node task) driver_method info)
    | None =>
        raise (UnsupportedDriverExtension
                 (driver (fields (task_node task))) node_id
                 "vendor passthru")
    end).

(** [do_vendor_action] (manager.py:250-255):
    [task.driver.vendor.vendor_passthru(...)] with no test of
    [task.driver.vendor]; on a driver whose [vendor] is [None] the
    attribute lookup raises Python's [AttributeError]. *)
Definition do_vendor_action (node_id driver_method : string)
    (info : gmap string string) : M unit :=
  with_acquire node_id true None (λ task,
    match vendor (task_driver task) with
    | Some ext =>
        invoke (vendor_vendor_passthru (uuid (task_node task)) driver_method)
          (Vendor.vendor_passthru ext (task_node task) driver_method info)
    | None =>
        raise (AttributeError
                 "'NoneType' object has no attribute 'vendor_passthru'")
    end).

(** [do_node_deploy] (manager.py:257-306).  Two [try] statements with
    [except] (re-raising), [else] and [finally: node.save(context)]; the
    first around [deploy.validate], the second around [deploy.deploy]. *)
Definition do_node_deploy (node_obj : Node) : M unit :=
  let node_id := uuid node_obj in
  with_acquire node_id false None (λ task,
    let node := task_node task in
    if decide (provision_state (fields node) ≠ NOSTATE) then
      raise (InstanceDeployFailure
               ("RPC do_node_deploy called for " ++ node_id
                  ++ ", but provision state is already "
                  ++ states.str (provision_state (fields node)) ++ "."))
    else
      r ← try (invoke (deploy_validate (uuid node))
                 (Deploy.validate (deploy (task_driver task)) node));
      let node :=
        match r with
        | Raise e =>
            setitem_last_error
              (Some ("Failed to validate deploy info. Error: " ++ exn_str e))
              node
        | Return _ =>
            (* set target state to expose that work is in progress *)
            let node := setitem_provision_state DEPLOYING node in
            let node := setitem_target_provision_state DEPLOYDONE node in
            setitem_last_error None node
        end in
      node ← save node;
      reraise r;;
      r ← try (invoke (deploy_deploy (uuid node))
                 (Deploy.deploy (deploy (task_driver task)) node));
      let node :=
        match r with
        | Raise e =>
            let node :=
              setitem_last_error
                (Some ("Failed to deploy. Error: " ++ exn_str e)) node in
            let node := setitem_provision_state ERROR node in
            setitem_target_provision_state NOSTATE node
        | Return new_state =>
            if decide (new_state = DEPLOYDONE) then
              let node := setitem_target_provision_state NOSTATE node in
              setitem_provision_state ACTIVE node
            else setitem_provision_state new_state node
        end in
      save node;;
      reraise r;;
      mret tt).

(** [do_node_tear_down] (manager.py:308-360): as [do_node_deploy], with
    its own precondition, in-progress pair and terminal state. *)
Definition do_node_tear_down (node_obj : Node) : M unit :=
  let node_id := uuid node_obj in
  with_acquire node_id false None (λ task,
    let node := task_node task in
    if decide (provision_state (fields node) ∉ [ACTIVE; DEPLOYFAIL; ERROR])
    then
      raise (InstanceDeployFailure
               ("RCP do_node_tear_down not allowed for node " ++ node_id
                  ++ " in state "
                  ++ states.str (provision_state (fields node))))
    else
      r ← try (invoke (deploy_validate (uuid node))
                 (Deploy.validate (deploy (task_driver task)) node));
      let node :=
        match r with
        | Raise e =>
            setitem_last_error
              (Some ("Failed to validate info for teardown. Error: "
                       ++ exn_str e))
              node
        | Return _ =>
            (* set target state to expose that work is in progress *)
            let node := setitem_provision_state DELETING node in
            let node := setitem_target_provision_state DELETED node in
            setitem_last_error None node
        end in
      node ← save node;
      reraise r;;
      r ← try (invoke (deploy_tear_down (uuid node))
                 (Deploy.tear_down (deploy (task_driver task)) node));
      let node :=
        match r with
        | Raise e =>
            let node :=
              setitem_last_error
                (Some ("Failed to tear down. Error: " ++ exn_str e)) node in
            let node := setitem_provision_state ERROR node in
            setitem_target_provision_state NOSTATE node
        | Return new_state =>
            if decide (new_state = DELETED) then
              let node := setitem_target_provision_state NOSTATE node in
              setitem_provision_state NOSTATE node
            else setitem_provision_state new_state node
        end in
      save node;;
      reraise r;;
      mret tt).

End Conductor.

(** ** Notions used by the statements *)

Section Statements.

Context (host : string).

(** The node object of a task that reserved row [r]: loaded by
    [reserve_node], so it carries the reservation and no pending change. *)
Definition reserved (node_id : string) (r : row) : Node :=
  {| uuid := node_id;
     fields := with_reservation (Some host) r;
     changed := ∅ |}.

(** The node object handed to [deploy] or [tear_down]: the reserved node
    after the in-progress pair was set and saved. *)
Definition in_progress (node_id : string) (r : row)
    (pstate target : state) : Node :=
  obj_reset_changes
    (setitem_last_error None
       (setitem_target_provision_state target
          (setitem_provision_state pstate (reserved node_id r)))).

(** The node object handed to [set_power_state]: the reserved node after
    the target was set and saved. *)
Definition power_pending (node_id : string) (r : row) (new_state : state)
    : Node :=
  obj_reset_changes
    (setitem_last_error None
       (setitem_target_power_state new_state (reserved node_id r))).

(** The world once a task on [node_id] has released its reservation. *)
Definition released (node_id : string) (w : world) : world :=
  (release_node host node_id w).2.

(** The driver name [update_node] passes to [task_manager.acquire]. *)
Definition requested_driver (node_obj : Node) : option string :=
  if decide (F_driver ∈ obj_what_changed node_obj)
  then Some (driver (fields node_obj)) else None.

End Statements.

(** A column of the stored row of a node, if the node exists. *)
Definition stored {A : Type} (get : row → A) (node_id : string) (w : world)
    : option A :=
  get <$> db w !! node_id.

(** ** Fixtures, after [ironic/tests/conductor/test_manager.py] *)

Module fixtures.

(** A power interface whose [get_power_state] is patched to return
    [live] and whose [set_power_state] has outcome [set]. *)
Definition FakePower (live : state) (set : outcome unit) : Power.interface :=
  {| Power.validate := λ _, Return tt;
     Power.get_power_state := λ _, Return live;
     Power.set_power_state := λ _ _, set |}.

Definition FakeDeploy (validated : outcome unit) (result : outcome state)
    : Deploy.interface :=
  {| Deploy.validate := λ _, validated;
     Deploy.deploy := λ _, result;
     Deploy.tear_down := λ _, result |}.

Definition FakeVendor : Vendor.interface :=
  {| Vendor.validate := λ _ method _,
       if decide (method = "foo") then Return "True"
       else Raise (InvalidParameterValue "Unsupported method.");
     Vendor.vendor_passthru := λ _ _ _, Return tt |}.

Definition FakeDriver (p : Power.interface) (d : Deploy.interface)
    (v : option Vendor.interface) : Driver :=
  {| power := p; deploy := d; vendor := v |}.

(** [utils.get_test_node(driver='fake', ...)]. *)
Definition get_test_node (pstate target_pstate provision : state)
    (holder : option string) : row :=
  {| driver := "fake"; driver_info := ∅;
     power_state := pstate; target_power_state := target_pstate;
     provision_state := provision; target_provision_state := NOSTATE;
     instance_uuid := None; last_error := None;
     reservation := holder; extra := {["test" := "one"]} |}.

Definition node_id : string := "1be26c0b-03f2-4d2e-ae87-c02d7f33c123".

Definition create_node (r : row) : world :=
  {| db := {[node_id := r]}; calls := [] |}.

(** [objects.Node.get_by_uuid]: the stored row, with no pending change. *)
Definition get_by_uuid (r : row) : Node :=
  {| uuid := node_id; fields := r; changed := ∅ |}.

Definition loaded (d : Driver) : gmap string Driver := {["fake" := d]}.

(** [ConductorManager('test-host', 'test-topic')]. *)
Definition test_host : string := "test-host".

(** The fake driver with [get_power_state] patched to return [live]. *)
Definition fake (live : state) : Driver :=
  FakeDriver (FakePower live (Return tt))
    (FakeDeploy (Return tt) (Return DEPLOYDONE)) (Some FakeVendor).

(** [self.driver.vendor = None]. *)
Definition fake_without_vendor : Driver :=
  FakeDriver (FakePower NOSTATE (Return tt))
    (FakeDeploy (Return tt) (Return DEPLOYDONE)) None.

(** The fake driver with [deploy.validate] raising. *)
Definition fake_invalid_deploy : Driver :=
  FakeDriver (FakePower NOSTATE (Return tt))
    (FakeDeploy (Raise (InvalidParameterValue "wrong deploy info"))
       (Return DEPLOYDONE))
    (Some FakeVendor).

(** The fake driver with [set_power_state] raising. *)
Definition fake_set_power_failure (live : state) : Driver :=
  FakeDriver (FakePower live (Raise (IronicException "An unknown exception occurred.")))
    (FakeDeploy (Return tt) (Return DEPLOYDONE)) (Some FakeVendor).

(** [test_associate_node_valid_state] and
    [test_associate_node_invalid_state]: the node as created, and the
    node object with [instance_uuid] set. *)
Definition unassociated (pstate : state) : row :=
  get_test_node pstate NOSTATE NOSTATE None.

Definition associating (pstate : state) : Node :=
  setitem_instance_uuid (Some "fake-uuid") (get_by_uuid (unassociated pstate)).

(** The world that [test_associate_node_valid_state] reads back. *)
Definition associated : world :=
  {| db := {[node_id :=
               with_power_state POWER_OFF
                 (with_instance_uuid (Some "fake-uuid")
                    (unassociated NOSTATE))]};
     calls := [db_reserve_node test_host node_id;
               power_validate node_id;
               power_get_power_state node_id;
               db_update_node node_id;
               db_release_node test_host node_id] |}.

(** [test_change_node_power_state_already_being_processed]: a conductor
    died during a power-off and left [target_power_state] set. *)
Definition interrupted_power_off : row :=
  get_test_node POWER_ON POWER_OFF NOSTATE None.

(** [test_change_node_power_state_in_same_state]. *)
Definition erred_before : row :=
  with_last_error (Some "anything but None")
    (get_test_node POWER_ON NOSTATE NOSTATE None).

(** [test_do_node_deploy_partial_ok]: [deploy] returns [DEPLOYING]. *)
Definition fake_partial_deploy : Driver :=
  FakeDriver (FakePower NOSTATE (Return tt))
    (FakeDeploy (Return tt) (Return DEPLOYING)) (Some FakeVendor).

(** A node whose deployment is under way. *)
Definition deploying : row :=
  get_test_node NOSTATE NOSTATE DEPLOYING None.

(** [test_change_node_power_state_already_locked]. *)
Definition locked_elsewhere : row :=
  get_test_node POWER_ON NOSTATE NOSTATE (Some "other-host").

End fixtures.

(** ** Notions used by the further properties *)

(** What a run on node [node_id] may touch: no row of another node, and
    the reservation of its own node is as it was found. *)
Definition footprint (node_id : string) (w w' : world) : Prop :=
  (∀ k, k ≠ node_id → db w' !! k = db w !! k)
  ∧ stored reservation node_id w' = stored reservation node_id w.

(** The calls logged between world [w] and a later world [w']. *)
Definition new_calls (w w' : world) : list call :=
  drop (length (calls w)) (calls w').

(** The row of a node whose deployment completed. *)
Definition deployed (r : row) : row :=
  with_provision_state ACTIVE
    (with_target_provision_state NOSTATE (with_last_error None r)).

(** The row of a node whose deployment, or tear down, failed in the
    driver with message [message]. *)
Definition errored (message : string) (r : row) : row :=
  with_provision_state ERROR
    (with_target_provision_state NOSTATE (with_last_error (Some message) r)).

Definition with_driver (v : string) (r : row) : row :=
  Row v (driver_info r) (power_state r) (target_power_state r)
    (provision_state r) (target_provision_state r) (instance_uuid r)
    (last_error r) (reservation r) (extra r).


(** ** More fixtures, after [ironic/tests/conductor/test_manager.py] *)

Module scenarios.

Import fixtures.

(** [test_change_node_power_state_invalid_driver_info]: [power.validate]
    is patched to raise. *)
Definition fake_invalid_power : Driver :=
  FakeDriver
    {| Power.validate := λ _,
         Raise (InvalidParameterValue "wrong power driver info");
       Power.get_power_state := λ _, Return POWER_ON;
       Power.set_power_state := λ _ _, Return tt |}
    (FakeDeploy (Return tt) (Return DEPLOYDONE)) (Some FakeVendor).

(** [test_do_node_deploy_driver_raises_error] and
    [test_do_node_tear_down_driver_raises_error]. *)
Definition fake_deploy_failure : Driver :=
  FakeDriver (FakePower NOSTATE (Return tt))
    (FakeDeploy (Return tt) (Raise (InstanceDeployFailure "test")))
    (Some FakeVendor).

(** [test_do_node_tear_down_ok] and [test_do_node_tear_down_partial_ok]:
    [tear_down] returns [result]. *)
Definition fake_tear_down (result : state) : Driver :=
  FakeDriver (FakePower NOSTATE (Return tt))
    (FakeDeploy (Return tt) (Return result)) (Some FakeVendor).

(** A driver that deploys with [DEPLOYDONE] and tears down with
    [DELETED]. *)
Definition fake_provisioning : Driver :=
  FakeDriver (FakePower NOSTATE (Return tt))
    {| Deploy.validate := λ _, Return tt;
       Deploy.deploy := λ _, Return DEPLOYDONE;
       Deploy.tear_down := λ _, Return DELETED |}
    (Some FakeVendor).

(** A driver whose deployment fails and whose tear down succeeds. *)
Definition fake_recovering : Driver :=
  FakeDriver (FakePower NOSTATE (Return tt))
    {| Deploy.validate := λ _, Return tt;
       Deploy.deploy := λ _, Raise (InstanceDeployFailure "test");
       Deploy.tear_down := λ _, Return DELETED |}
    (Some FakeVendor).

(** [utils.get_test_node(driver='fake', provision_state=states.ACTIVE)]. *)
Definition active : row := get_test_node NOSTATE NOSTATE ACTIVE None.


(** [test_update_node_invalid_driver]: [node['driver'] = 'wrong-driver']. *)
Definition redriven : Node :=
  setitem F_driver (with_driver "wrong-driver")
    (get_by_uuid (unassociated NOSTATE)).

(** A database with no node. *)
Definition no_node : world := {| db := ∅; calls := [] |}.

End scenarios.

(** ** [ConductorManager.start]: the membership record *)

Module membership.

(** The conductor table: the driver names each registered hostname
    loads. *)
Definition table : Type := gmap string (list string).

Inductive error : Type :=
  | ConductorAlreadyRegistered (hostname : string)
  | ConductorNotFound (hostname : string).

(** Modelled from the spec: [register_conductor] inserts the row of a
    hostname, which is unique: a hostname that has a row is
    [ConductorAlreadyRegistered]. *)
Definition register_conductor (hostname : string) (drivers : list string)
    (t : table) : error + table :=
  match t !! hostname with
  | Some _ => inl (ConductorAlreadyRegistered hostname)
  | None => inr (<[hostname := drivers]> t)
  end.

(** Modelled from the spec: [unregister_conductor] deletes the row of a
    hostname, [ConductorNotFound] when there is none. *)
Definition unregister_conductor (hostname : string) (t : table)
    : error + table :=
  match t !! hostname with
  | Some _ => inr (delete hostname t)
  | None => inl (ConductorNotFound hostname)
  end.

(** [ConductorManager.start], with [drivers] the names of the driver
    factory. *)
Definition start (host : string) (drivers : list string) (t : table)
    : error + table :=
  match register_conductor host drivers t with
  | inr t => inr t
  | inl (ConductorAlreadyRegistered _) =>
      match unregister_conductor host t with
      | inr t => register_conductor host drivers t
      | inl e => inl e
      end
  | inl e => inl e
  end.

End membership.

(** ** [ironic.conductor.rpcapi]: the client side of the conductor RPC API *)

Module rpc.

(** The values carried by a message or by a reply. *)
Inductive value : Type :=
  | VNone
  | VStr (s : string)
  | VState (s : state)
  | VNode (o : Node)
  | VInfo (i : gmap string string).

(** [make_msg(method, **kwargs)]. *)
Record message : Type := Message {
  method : string;
  args : list (string * value)
}.

Definition make_msg (method : string) (kwargs : list (string * value))
    : message :=
  {| method := method; args := kwargs |}.

Definition kwarg (name : string) (kwargs : list (string * value))
    : option value :=
  snd <$> find (λ kv, bool_decide (kv.1 = name)) kwargs.

(** A reply is the handler's return value. *)
Definition replying {A : Type} (wrap : A → value) (m : M A) : M value :=
  a ← m; mret (wrap a).

Section Transport.

Context (host : string) (drivers : gmap string Driver).

(** Modelled from the spec: the server side of the transport, "an explicit
    dispatch table from message-name to handler".  A message is bound
    to the method of [ConductorManager] of that name, its keyword
    arguments to the parameters of the method by their names; [None] when
    there is no such method or a parameter has no argument. *)
Definition dispatch (msg : message) : option (M value) :=
  let arg name := kwarg name (args msg) in
  if decide (method msg = "get_node_power_state") then
    match arg "node_id" with
    | Some (VStr node_id) =>
        Some (replying VState (get_node_power_state host drivers node_id))
    | _ => None
    end
  else if decide (method msg = "update_node") then
    match arg "node_obj" with
    | Some (VNode node_obj) =>
        Some (replying VNode (update_node host drivers node_obj))
    | _ => None
    end
  else if decide (method msg = "change_node_power_state") then
    match arg "node_obj", arg "new_state" with
    | Some (VNode node_obj), Some (VState new_state) =>
        Some (replying (λ _, VNone)
                (change_node_power_state host drivers node_obj new_state))
    | _, _ => None
    end
  else if decide (method msg = "validate_vendor_action") then
    match arg "node_id", arg "driver_method", arg "info" with
    | Some (VStr node_id), Some (VStr driver_method), Some (VInfo info) =>
        Some (replying VStr
                (validate_vendor_action host drivers node_id driver_method
                   info))
    | _, _, _ => None
    end
  else if decide (method msg = "do_vendor_action") then
    match arg "node_id", arg "driver_method", arg "info" with
    | Some (VStr node_id), Some (VStr driver_method), Some (VInfo info) =>
        Some (replying (λ _, VNone)
                (do_vendor_action host drivers node_id driver_method info))
    | _, _, _ => None
    end
  else if decide (method msg = "do_node_deploy") then
    match arg "node_obj" with
    | Some (VNode node_obj) =>
        Some (replying (λ _, VNone) (do_node_deploy host drivers node_obj))
    | _ => None
    end
  else if decide (method msg = "do_node_tear_down") then
    match arg "node_obj" with
    | Some (VNode node_obj) =>
        Some (replying (λ _, VNone) (do_node_tear_down host drivers node_obj))
    | _ => None
    end
  else None.

(** Modelled from the spec: "[call] waits for a response; [cast] is
    fire-and-forget".  [call] gives the handler's reply, or its exception
    (the exception modules of the conductor are allowed to be
    deserialized); a message no handler is bound to is an
    [AttributeError] of the dispatcher.  [cast] gives nothing back, not
    even the handler's exception; the handler is run to completion at
    the point of the cast. *)
Definition call (msg : message) : M value :=
  match dispatch msg with
  | Some handler => handler
  | None => raise (AttributeError "No such RPC function")
  end.

Definition cast (msg : message) : M unit :=
  try (call msg);;
  mret tt.

(** The methods of [ConductorAPI]. *)
Definition get_node_power_state (node_id : string) : M value :=
  call (make_msg "get_node_power_state" [("node_id", VStr node_id)]).

Definition update_node (node_obj : Node) : M value :=
  call (make_msg "update_node" [("node_obj", VNode node_obj)]).

Definition change_node_power_state (node_obj : Node) (new_state : state)
    : M unit :=
  cast (make_msg "change_node_power_state"
          [("node_obj", VNode node_obj); ("new_state", VState new_state)]).

Definition vendor_passthru (node_id driver_method : string)
    (info : gmap string string) : M value :=
  driver_data ← call (make_msg "validate_vendor_action"
                        [("node_id", VStr node_id);
                         ("driver_method", VStr driver_method);
                         ("info", VInfo info)]);
  (* this method can do nothing if 'driver_method' intended only
     for obtain 'driver_data' *)
  cast (make_msg "do_vendor_action"
          [("node_id", VStr node_id);
           ("driver_method", VStr driver_method);
           ("info", VInfo info)]);;
  mret driver_data.

Definition do_node_deploy (node_obj : Node) : M unit :=
  cast (make_msg "do_node_deploy" [("node_obj", VNode node_obj)]).

Definition do_node_tear_down (node_obj : Node) : M unit :=
  cast (make_msg "do_node_tear_down" [("node_obj", VNode node_obj)]).

End Transport.

End rpc.

(** ** [ironic.api.controllers.v1.chassis]: the chassis controller *)

Module chassis.

(** The value of a chassis field: [None], a text, an integer, or the
    [extra] dictionary of texts and integers. *)
Inductive json : Type :=
  | JNull
  | JText (s : string)
  | JInt (n : Z)
  | JDict (d : gmap string (string + Z)).

#[global] Instance json_eq_dec : EqDecision json.
Proof. solve_decision. Defined.

(** Modelled from the spec: the chassis object of
    [ironic/objects/chassis.py], as the node object: the fields that are
    set, and the names of the fields assigned since the object was
    loaded. *)
Record Chassis : Type := {
  attrs : gmap string json;
  changes : gset string
}.

(** [chassis.as_dict()]: the fields that are set. *)
Definition as_dict (chassis : Chassis) : gmap string json := attrs chassis.

(** [chassis[key]]; [None] stands for the exception of a field that is
    not set. *)
Definition getitem (chassis : Chassis) (key : string) : option json :=
  attrs chassis !! key.

(** [chassis[key] = value]. *)
Definition setitem (chassis : Chassis) (key : string) (value : json)
    : Chassis :=
  {| attrs := <[key := value]> (attrs chassis);
     changes := {[key]} ∪ changes chassis |}.

(** The keys [ChassisController.patch] skips. *)
Definition internal : list string := ["id"; "updated_at"; "created_at"].

(** The body of the loop of [ChassisController.patch] for one [key] of
    [defaults], on the patched document and the chassis object; [None]
    stands for the exception of a failed lookup ([chassis[key]], then
    [patched_chassis[key]]). *)
Definition merge_key (chassis_dict : gmap string json) (key : string)
    (dflt : json) (st : gmap string json * Chassis)
    : option (gmap string json * Chassis) :=
  let '(patched_chassis, chassis) := st in
  if decide (key ∈ internal) then Some st
  else
    let patched_chassis :=
      if decide (is_Some (chassis_dict !! key)
                 ∧ patched_chassis !! key = None)
      then <[key := dflt]> patched_chassis
      else patched_chassis in
    current ← getitem chassis key;
    patched ← patched_chassis !! key;
    Some (patched_chassis,
          if decide (current ≠ patched) then setitem chassis key patched
          else chassis).

(** [for key in defaults: ...]; [defaults] is the dictionary's items in
    the order of the iteration. *)
Fixpoint merge (chassis_dict : gmap string json)
    (defaults : list (string * json)) (st : gmap string json * Chassis)
    : option (gmap string json * Chassis) :=
  match defaults with
  | [] => Some st
  | (key, dflt) :: defaults =>
      st ← merge_key chassis_dict key dflt st;
      merge chassis_dict defaults st
  end.

(** [ChassisController.patch] from the patched document on: the chassis
    object handed to [save]. *)
Definition patch_fields (defaults : list (string * json))
    (chassis : Chassis) (patched_chassis : gmap string json)
    : option Chassis :=
  snd <$> merge (as_dict chassis) defaults (patched_chassis, chassis).

(** The default the loop uses for [key]: that of the first item of
    [defaults] for it, none for an internal key. *)
Fixpoint default_of (defaults : list (string * json)) (key : string)
    : option json :=
  match defaults with
  | [] => None
  | (k, dflt) :: defaults =>
      if decide (k = key ∧ key ∉ internal) then Some dflt
      else default_of defaults key
  end.

(** Every key of [defaults] the loop looks at is set on the chassis, as
    after [objects.Chassis.get_by_uuid]. *)
Definition fields_set (defaults : list (string * json)) (chassis : Chassis)
    : Prop :=
  Forall (λ item, item.1 ∈ internal ∨ is_Some (attrs chassis !! item.1))
    defaults.

(** [str.split(sep)]: the first piece and the others. *)
Fixpoint pieces (sep : Ascii.ascii) (s : string) : string * list string :=
  match s with
  | EmptyString => (EmptyString, [])
  | String c s =>
      let '(piece, others) := pieces sep s in
      if decide (c = sep) then (EmptyString, piece :: others)
      else (String c piece, others)
  end.

Definition split (sep : Ascii.ascii) (s : string) : list string :=
  let '(piece, others) := pieces sep s in piece :: others.

(** [sep] does not occur in [s]. *)
Fixpoint free_of (sep : Ascii.ascii) (s : string) : bool :=
  match s with
  | EmptyString => true
  | String c s => bool_decide (c ≠ sep) && free_of sep s
  end.

Inductive error : Type :=
  | IndexError
  | HTTPNotFound.

(** The character of the string ["/"]. *)
Definition slash : Ascii.ascii :=
  match "/" with
  | String c _ => c
  | EmptyString => Ascii.zero
  end.

(** [path.split('/')[:-1][-1]]; [None] stands for the [IndexError] of
    an empty list. *)
Definition parent (path : string) : option string :=
  last (removelast (split slash path)).

(** [ChassisController.detail] on the request path [path]; [listing]
    is what the rest of the method returns once the guard has passed. *)
Definition detail {A : Type} (path : string) (listing : A) : error + A :=
  match parent path with
  | None => inl IndexError
  | Some parent =>
      if decide (parent ≠ "chassis") then inl HTTPNotFound
      else inr listing
  end.

End chassis.

(** A chassis as [objects.Chassis.get_by_uuid] loads it, the defaults of
    its fields, and documents a patch leaves. *)
Module chassis_samples.

Import chassis.

Definition defaults : list (string * json) :=
  [("id", JNull); ("uuid", JNull); ("extra", JNull);
   ("description", JNull); ("created_at", JNull); ("updated_at", JNull)].

Definition loaded : Chassis :=
  {| attrs :=
       list_to_map
         [("id", JInt 42);
          ("uuid", JText "e74c40e0-d825-11e2-a28f-0800200c9a66");
          ("extra", JDict {["foo" := inl "bar"]});
          ("description", JText "data-center-1-chassis");
          ("created_at", JNull); ("updated_at", JNull)];
     changes := ∅ |}.

(** After [replace /description], [remove /extra], [replace /id] and
    [add /colour]. *)
Definition patched : gmap string json :=
  <["colour" := JText "red"]>
    (<["id" := JInt 7]>
       (<["description" := JText "new-description"]>
          (delete "extra" (as_dict loaded)))).

(** After [replace /id] and [add /colour] only. *)
Definition renumbered : gmap string json :=
  <["colour" := JText "red"]> (<["id" := JInt 7]> (as_dict loaded)).

End chassis_samples.

(** * Verification *)

(** ** Running monadic code *)

Lemma run_bind {A B : Type} (m : M A) (k : A → M B) (w : world) :
  (m ≫= k) w =
  match m w with
  | (Return a, w') => k a w'
  | (Raise e, w') => (Raise e, w')
  end.
Proof. reflexivity. Qed.

Lemma run_try {A : Type} (m : M A) (w : world) :
  try m w = (Return (m w).1, (m w).2).
Proof. unfold try. destruct (m w). reflexivity. Qed.

Lemma run_invoke {A : Type} (c : call) (r : outcome A) (w : world) :
  invoke c r w = (r, log c w).
Proof. destruct r; reflexivity. Qed.

Lemma run_get_node (w : world) (node_id : string) (r : row) :
  db w !! node_id = Some r → get_node node_id w = (Return r, w).
Proof. intros E. unfold get_node. rewrite E. reflexivity. Qed.

Lemma run_save (o : Node) (w : world) (r : row) :
  db w !! uuid o = Some r →
  save o w =
    (Return (obj_reset_changes o),
     log (db_update_node (uuid o)) (store (uuid o) (apply_updates o r) w)).
Proof.
  intros E. unfold save. rewrite run_bind, (run_get_node _ _ _ E).
  reflexivity.
Qed.

(** ** Rows under [save] and under the reservation primitives *)

Lemma pick_changed {A : Type} (f : field) (o : Node) (get : row → A) (r : row) :
  f ∈ changed o → pick f o get r = get (fields o).
Proof. intros H. unfold pick. rewrite decide_True; done. Qed.

Lemma pick_unchanged {A : Type} (f : field) (o : Node) (get : row → A) (r : row) :
  f ∉ changed o → pick f o get r = get r.
Proof. intros H. unfold pick. rewrite decide_False; done. Qed.

Lemma with_reservation_release (h : option string) (r : row) :
  reservation r = None → with_reservation None (with_reservation h r) = r.
Proof. destruct r; simpl; intros ->; reflexivity. Qed.


Lemma run_release_node (host : string) (w : world) (node_id : string) (r : row) :
  db w !! node_id = Some r → reservation r = Some host →
  release_node host node_id w =
    (Return tt,
     log (db_release_node host node_id)
       (store node_id (with_reservation None r) w)).
Proof.
  intros E Hres. unfold release_node.
  rewrite run_bind, run_try, (run_get_node _ _ _ E). simpl.
  rewrite decide_True by assumption. reflexivity.
Qed.

Lemma run_release_node_foreign (host : string) (w : world) (node_id : string)
    (r : row) :
  db w !! node_id = Some r → reservation r ≠ Some host →
  release_node host node_id w = (Return tt, log (db_release_node host node_id) w).
Proof.
  intros E Hres. unfold release_node.
  rewrite run_bind, run_try, (run_get_node _ _ _ E). simpl.
  rewrite decide_False by assumption. reflexivity.
Qed.

(** [release_node] cannot fail. *)
Lemma run_release (host : string) (node_id : string) (w : world) :
  release_node host node_id w = (Return tt, released host node_id w).
Proof.
  unfold released, release_node. rewrite run_bind, run_try. simpl.
  destruct (get_node node_id w) as [[r|e] w1]; simpl.
  - destruct (decide (reservation r = Some host)); reflexivity.
  - reflexivity.
Qed.

Lemma released_reserved (host : string) (node_id : string) (w : world) (r : row) :
  db w !! node_id = Some r → reservation r = Some host →
  released host node_id w =
    log (db_release_node host node_id)
      (store node_id (with_reservation None r) w).
Proof.
  intros E Hres. unfold released.
  rewrite (run_release_node _ _ _ _ E Hres). reflexivity.
Qed.

Lemma released_calls (host : string) (node_id : string) (w : world) :
  calls (released host node_id w)
  = (calls w ++ [db_release_node host node_id])%list.
Proof.
  unfold released, release_node. rewrite run_bind, run_try. simpl.
  destruct (get_node node_id w) as [[r|e] w1] eqn:G; simpl;
    unfold get_node in G; destruct (db w !! node_id); simplify_eq;
    try destruct (decide (reservation _ = Some host)); reflexivity.
Qed.

(** Releasing touches no column but [reservation]. *)
Lemma released_stored {A : Type} (get : row → A) (host : string)
    (node_id : string) (w : world) :
  (∀ h r, get (with_reservation h r) = get r) →
  stored get node_id (released host node_id w) = stored get node_id w.
Proof.
  intros Hget. unfold released, release_node, stored.
  rewrite run_bind, run_try. simpl. unfold get_node.
  destruct (db w !! node_id) as [r|] eqn:E; simpl.
  - destruct (decide (reservation r = Some host)); simpl.
    + rewrite lookup_insert_eq. simpl. rewrite Hget. reflexivity.
    + rewrite E. reflexivity.
  - rewrite E. reflexivity.
Qed.

(** Reserving and releasing with no write in between restores the table. *)
Lemma release_restores (db0 : gmap string row) (node_id : string)
    (h : option string) (r : row) :
  db0 !! node_id = Some r → reservation r = None →
  <[node_id := with_reservation None (with_reservation h r)]>
    (<[node_id := with_reservation h r]> db0) = db0.
Proof.
  intros E Hres. rewrite insert_insert_eq, with_reservation_release by exact Hres.
  apply insert_id, E.
Qed.

(** ** Pending changes of a node object *)

Lemma changed_setitem (f g : field) (update : row → row) (o : Node) :
  f ∈ changed (setitem g update o) ↔ f = g ∨ f ∈ changed o.
Proof.
  unfold setitem. simpl. rewrite elem_of_union, elem_of_singleton. tauto.
Qed.

(** ** The task manager *)

Section TaskManager.

Context (host : string) (drivers : gmap string Driver).

Lemma run_acquire_exclusive w node_id driver_name r d :
  db w !! node_id = Some r → reservation r = None →
  drivers !! default (driver r) driver_name = Some d →
  acquire host drivers node_id false driver_name w =
    (Return {| task_node := reserved host node_id r; task_driver := d |},
     log (db_reserve_node host node_id)
       (store node_id (with_reservation (Some host) r) w)).
Proof.
  intros E Hres Hd. unfold acquire, reserve_node.
  rewrite !run_bind, (run_get_node _ _ _ E), Hres. simpl.
  unfold get_driver. rewrite run_bind, run_try, Hd. reflexivity.
Qed.

Lemma run_acquire_shared w node_id r d :
  db w !! node_id = Some r → drivers !! driver r = Some d →
  acquire host drivers node_id true None w =
    (Return {| task_node := {| uuid := node_id; fields := r; changed := ∅ |};
               task_driver := d |}, w).
Proof.
  intros E Hd. unfold acquire.
  rewrite run_bind, (run_get_node _ _ _ E).
  unfold get_driver. rewrite run_bind, run_try. simpl. rewrite Hd.
  reflexivity.
Qed.

(** An exclusive task on a locked node is refused and writes nothing. *)
Lemma run_acquire_locked w node_id driver_name r holder :
  db w !! node_id = Some r → reservation r = Some holder →
  acquire host drivers node_id false driver_name w =
    (Raise (NodeLocked node_id holder), w).
Proof.
  intros E Hres. unfold acquire, reserve_node.
  rewrite !run_bind, (run_get_node _ _ _ E), Hres. reflexivity.
Qed.

Lemma run_with_acquire_locked {A : Type} (body : Task → M A)
    w node_id driver_name r holder :
  db w !! node_id = Some r → reservation r = Some holder →
  with_acquire host drivers node_id false driver_name body w =
    (Raise (NodeLocked node_id holder), w).
Proof.
  intros E Hres. unfold with_acquire.
  rewrite run_bind, (run_acquire_locked _ _ _ _ _ E Hres). reflexivity.
Qed.

(** The body of [with acquire(shared=False)] runs on the reserved node;
    the task ends with the body's outcome, after [release_node]. *)
Lemma run_with_acquire {A : Type} (body : Task → M A)
    w node_id driver_name r d after w2 :
  db w !! node_id = Some r → reservation r = None →
  drivers !! default (driver r) driver_name = Some d →
  body {| task_node := reserved host node_id r; task_driver := d |}
    (log (db_reserve_node host node_id)
       (store node_id (with_reservation (Some host) r) w)) = (after, w2) →
  with_acquire host drivers node_id false driver_name body w =
    (after, released host node_id w2).
Proof.
  intros E Hres Hd Hbody. unfold with_acquire.
  rewrite run_bind, (run_acquire_exclusive _ _ _ _ _ E Hres Hd).
  rewrite run_bind, run_try, Hbody. simpl.
  rewrite run_bind, run_release.
  destruct after; reflexivity.
Qed.

(** When the body leaves the reservation in place, the node is released. *)
Lemma run_with_acquire_exclusive {A : Type} (body : Task → M A)
    w node_id driver_name r d after w2 r2 :
  db w !! node_id = Some r → reservation r = None →
  drivers !! default (driver r) driver_name = Some d →
  body {| task_node := reserved host node_id r; task_driver := d |}
    (log (db_reserve_node host node_id)
       (store node_id (with_reservation (Some host) r) w)) = (after, w2) →
  db w2 !! node_id = Some r2 → reservation r2 = Some host →
  with_acquire host drivers node_id false driver_name body w =
    (after,
     log (db_release_node host node_id)
       (store node_id (with_reservation None r2) w2)).
Proof.
  intros E Hres Hd Hbody E2 Hres2.
  rewrite (run_with_acquire _ _ _ _ _ _ _ _ E Hres Hd Hbody).
  rewrite (released_reserved _ _ _ _ E2 Hres2). reflexivity.
Qed.

(** A task that returned had acquired its node. *)
Lemma with_acquire_returned {A : Type} (body : Task → M A)
    w node_id driver_name a w' :
  with_acquire host drivers node_id false driver_name body w = (Return a, w') →
  ∃ r d w2,
    db w !! node_id = Some r ∧ reservation r = None
    ∧ drivers !! default (driver r) driver_name = Some d
    ∧ body {| task_node := reserved host node_id r; task_driver := d |}
        (log (db_reserve_node host node_id)
           (store node_id (with_reservation (Some host) r) w))
      = (Return a, w2)
    ∧ w' = released host node_id w2.
Proof.
  intros H.
  destruct (db w !! node_id) as [r|] eqn:E.
  - destruct (reservation r) as [holder|] eqn:Hres.
    + rewrite (run_with_acquire_locked _ _ _ _ _ _ E Hres) in H.
      discriminate.
    + destruct (drivers !! default (driver r) driver_name) as [d|] eqn:Hd.
      * destruct (body {| task_node := reserved host node_id r;
                          task_driver := d |}
                    (log (db_reserve_node host node_id)
                       (store node_id (with_reservation (Some host) r) w)))
          as [after w2] eqn:Hbody.
        rewrite (run_with_acquire _ _ _ _ _ _ _ _ E Hres Hd Hbody) in H.
        simplify_eq. exists r, d, w2. done.
      * unfold with_acquire, acquire, reserve_node in H.
        rewrite !run_bind, (run_get_node _ _ _ E), Hres in H. simpl in H.
        unfold get_driver in H. rewrite run_bind, run_try, Hd in H.
        simpl in H. rewrite run_bind, run_release in H. discriminate.
  - unfold with_acquire, acquire, reserve_node, get_node in H.
    rewrite !run_bind, E in H. discriminate.
Qed.

Lemma run_with_acquire_shared {A : Type} (body : Task → M A) w node_id r d :
  db w !! node_id = Some r → drivers !! driver r = Some d →
  with_acquire host drivers node_id true None body w =
    body {| task_node := {| uuid := node_id; fields := r; changed := ∅ |};
            task_driver := d |} w.
Proof.
  intros E Hd. unfold with_acquire.
  rewrite run_bind, (run_acquire_shared _ _ _ _ E Hd).
  rewrite run_bind, run_try. simpl.
  destruct (body _ w) as [[a|e] w']; reflexivity.
Qed.

End TaskManager.

(** ** Symbolic execution of conductor code *)

Ltac run_step :=
  first [ rewrite run_bind | rewrite run_try | rewrite run_invoke
        | erewrite run_save by (simpl; apply lookup_insert_eq) ].

Ltac run := simpl; repeat (run_step; simpl).

(** The body of an exclusive task, then the two facts that let the task
    release the node: its row is there and still reserved. *)
Ltac in_task E Hres Hd :=
  eapply run_with_acquire_exclusive;
  [ exact E | exact Hres | exact Hd
  | simpl task_node; simpl task_driver | | ].

Ltac row_there := simpl; apply lookup_insert_eq.

Ltac picks :=
  simpl;
  repeat (first [ rewrite pick_changed by compute_done
                | rewrite pick_unchanged by compute_done ]; simpl).

Ltac still_reserved := picks; reflexivity.

Ltac log_eq := simpl; rewrite <- ?app_assoc; reflexivity.

Ltac stored_eq :=
  unfold stored; simpl; rewrite lookup_insert_eq; picks; reflexivity.

(** ** [change_node_power_state], path by path *)

Section PowerPaths.

Context (host : string) (drivers : gmap string Driver).
Context (node_obj : Node) (new_state : state) (w : world) (r : row)
        (d : Driver).
Context (Hrow : db w !! uuid node_obj = Some r)
        (Hfree : reservation r = None)
        (Hdrv : drivers !! driver r = Some d).

(** [validate] raised. *)
Lemma power_path_validate_raises e :
  Power.validate (power d) (reserved host (uuid node_obj) r) = Raise e →
  ∃ w',
    change_node_power_state host drivers node_obj new_state w = (Raise e, w')
    ∧ calls w' =
        (calls w ++ [db_reserve_node host (uuid node_obj);
                     power_validate (uuid node_obj);
                     db_update_node (uuid node_obj);
                     db_release_node host (uuid node_obj)])%list
    ∧ stored power_state (uuid node_obj) w' = Some (power_state r)
    ∧ stored target_power_state (uuid node_obj) w'
      = Some (target_power_state r)
    ∧ stored last_error (uuid node_obj) w'
      = Some (Some (power_failure new_state e)).
Proof.
  intros Hv. eexists. split.
  - unfold change_node_power_state. in_task Hrow Hfree Hdrv.
    + run. rewrite Hv. run. reflexivity.
    + row_there.
    + still_reserved.
  - split; [log_eq|]. repeat split; stored_eq.
Qed.

(** [validate] returned, [get_power_state] raised. *)
Lemma power_path_probe_raises e :
  Power.validate (power d) (reserved host (uuid node_obj) r) = Return tt →
  Power.get_power_state (power d) (reserved host (uuid node_obj) r)
    = Raise e →
  ∃ w',
    change_node_power_state host drivers node_obj new_state w = (Raise e, w')
    ∧ calls w' =
        (calls w ++ [db_reserve_node host (uuid node_obj);
                     power_validate (uuid node_obj);
                     power_get_power_state (uuid node_obj);
                     db_update_node (uuid node_obj);
                     db_release_node host (uuid node_obj)])%list
    ∧ stored power_state (uuid node_obj) w' = Some (power_state r)
    ∧ stored target_power_state (uuid node_obj) w'
      = Some (target_power_state r)
    ∧ stored last_error (uuid node_obj) w'
      = Some (Some (power_failure new_state e)).
Proof.
  intros Hv Hg. eexists. split.
  - unfold change_node_power_state. in_task Hrow Hfree Hdrv.
    + run. rewrite Hv. run. rewrite Hg. run. reflexivity.
    + row_there.
    + still_reserved.
  - split; [log_eq|]. repeat split; stored_eq.
Qed.

(** The node is already in the requested state. *)
Lemma power_path_same_state :
  Power.validate (power d) (reserved host (uuid node_obj) r) = Return tt →
  Power.get_power_state (power d) (reserved host (uuid node_obj) r)
    = Return new_state →
  ∃ w',
    change_node_power_state host drivers node_obj new_state w = (Return tt, w')
    ∧ calls w' =
        (calls w ++ [db_reserve_node host (uuid node_obj);
                     power_validate (uuid node_obj);
                     power_get_power_state (uuid node_obj);
                     db_update_node (uuid node_obj);
                     db_release_node host (uuid node_obj)])%list
    ∧ stored power_state (uuid node_obj) w' = Some (power_state r)
    ∧ stored target_power_state (uuid node_obj) w'
      = Some (target_power_state r)
    ∧ stored last_error (uuid node_obj) w' = Some None.
Proof.
  intros Hv Hg. eexists. split.
  - unfold change_node_power_state. in_task Hrow Hfree Hdrv.
    + run. rewrite Hv. run. rewrite Hg. run.
      rewrite decide_True by reflexivity. run. reflexivity.
    + row_there.
    + still_reserved.
  - split; [log_eq|]. repeat split; stored_eq.
Qed.

(** The power action is taken and succeeds. *)
Lemma power_path_set_returns curr_state :
  Power.validate (power d) (reserved host (uuid node_obj) r) = Return tt →
  Power.get_power_state (power d) (reserved host (uuid node_obj) r)
    = Return curr_state →
  curr_state ≠ new_state →
  Power.set_power_state (power d)
    (power_pending host (uuid node_obj) r new_state) new_state = Return tt →
  ∃ w',
    change_node_power_state host drivers node_obj new_state w = (Return tt, w')
    ∧ calls w' =
        (calls w ++ [db_reserve_node host (uuid node_obj);
                     power_validate (uuid node_obj);
                     power_get_power_state (uuid node_obj);
                     db_update_node (uuid node_obj);
                     power_set_power_state (uuid node_obj) new_state;
                     db_update_node (uuid node_obj);
                     db_release_node host (uuid node_obj)])%list
    ∧ stored power_state (uuid node_obj) w' = Some new_state
    ∧ stored target_power_state (uuid node_obj) w' = Some NOSTATE
    ∧ stored last_error (uuid node_obj) w' = Some None.
Proof.
  intros Hv Hg Hne Hs. eexists. split.
  - unfold change_node_power_state. in_task Hrow Hfree Hdrv.
    + run. rewrite Hv. run. rewrite Hg. run.
      rewrite decide_False by exact Hne. run.
      fold (power_pending host (uuid node_obj) r new_state).
      rewrite Hs. run. reflexivity.
    + row_there.
    + still_reserved.
  - split; [log_eq|]. repeat split; stored_eq.
Qed.

(** The power action is taken and raises. *)
Lemma power_path_set_raises curr_state e :
  Power.validate (power d) (reserved host (uuid node_obj) r) = Return tt →
  Power.get_power_state (power d) (reserved host (uuid node_obj) r)
    = Return curr_state →
  curr_state ≠ new_state →
  Power.set_power_state (power d)
    (power_pending host (uuid node_obj) r new_state) new_state = Raise e →
  ∃ w',
    change_node_power_state host drivers node_obj new_state w = (Raise e, w')
    ∧ calls w' =
        (calls w ++ [db_reserve_node host (uuid node_obj);
                     power_validate (uuid node_obj);
                     power_get_power_state (uuid node_obj);
                     db_update_node (uuid node_obj);
                     power_set_power_state (uuid node_obj) new_state;
                     db_update_node (uuid node_obj);
                     db_release_node host (uuid node_obj)])%list
    ∧ stored power_state (uuid node_obj) w' = Some (power_state r)
    ∧ stored target_power_state (uuid node_obj) w' = Some NOSTATE
    ∧ stored last_error (uuid node_obj) w'
      = Some (Some (power_failure new_state e)).
Proof.
  intros Hv Hg Hne Hs. eexists. split.
  - unfold change_node_power_state. in_task Hrow Hfree Hdrv.
    + run. rewrite Hv. run. rewrite Hg. run.
      rewrite decide_False by exact Hne. run.
      fold (power_pending host (uuid node_obj) r new_state).
      rewrite Hs. run. reflexivity.
    + row_there.
    + still_reserved.
  - split; [log_eq|]. repeat split; stored_eq.
Qed.

End PowerPaths.

(** ** [do_node_deploy] and [do_node_tear_down], path by path *)

Section ProvisionPaths.

Context (host : string) (drivers : gmap string Driver).
Context (node_obj : Node) (w : world) (r : row) (d : Driver).
Context (Hrow : db w !! uuid node_obj = Some r)
        (Hfree : reservation r = None)
        (Hdrv : drivers !! driver r = Some d).

(** The precondition on [provision_state] fails: nothing is written and
    no driver method is called. *)
Lemma deploy_path_rejected :
  provision_state r ≠ NOSTATE →
  ∃ message,
    do_node_deploy host drivers node_obj w =
      (Raise (InstanceDeployFailure message),
       {| db := db w;
          calls := calls w ++ [db_reserve_node host (uuid node_obj);
                               db_release_node host (uuid node_obj)] |}).
Proof.
  intros Hp. eexists. unfold do_node_deploy. etransitivity.
  - in_task Hrow Hfree Hdrv;
      [ simpl; rewrite decide_True by exact Hp; reflexivity
      | row_there | reflexivity ].
  - unfold store, log. simpl.
    rewrite (release_restores _ _ _ _ Hrow Hfree), <- app_assoc.
    reflexivity.
Qed.

Lemma tear_down_path_rejected :
  provision_state r ∉ [ACTIVE; DEPLOYFAIL; ERROR] →
  ∃ message,
    do_node_tear_down host drivers node_obj w =
      (Raise (InstanceDeployFailure message),
       {| db := db w;
          calls := calls w ++ [db_reserve_node host (uuid node_obj);
                               db_release_node host (uuid node_obj)] |}).
Proof.
  intros Hp. eexists. unfold do_node_tear_down. etransitivity.
  - in_task Hrow Hfree Hdrv;
      [ simpl; rewrite decide_True by exact Hp; reflexivity
      | row_there | reflexivity ].
  - unfold store, log. simpl.
    rewrite (release_restores _ _ _ _ Hrow Hfree), <- app_assoc.
    reflexivity.
Qed.

(** [deploy.validate] raised. *)
Lemma deploy_path_validate_raises e :
  provision_state r = NOSTATE →
  Deploy.validate (deploy d) (reserved host (uuid node_obj) r) = Raise e →
  ∃ w',
    do_node_deploy host drivers node_obj w = (Raise e, w')
    ∧ calls w' =
        (calls w ++ [db_reserve_node host (uuid node_obj);
                     deploy_validate (uuid node_obj);
                     db_update_node (uuid node_obj);
                     db_release_node host (uuid node_obj)])%list
    ∧ stored provision_state (uuid node_obj) w' = Some (provision_state r)
    ∧ stored target_provision_state (uuid node_obj) w'
      = Some (target_provision_state r)
    ∧ stored last_error (uuid node_obj) w'
      = Some (Some ("Failed to validate deploy info. Error: " ++ exn_str e)).
Proof.
  intros Hp Hv. eexists. split.
  - unfold do_node_deploy. in_task Hrow Hfree Hdrv.
    + simpl. rewrite decide_False by (intros H; exact (H Hp)).
      run. rewrite Hv. run. reflexivity.
    + row_there.
    + still_reserved.
  - split; [log_eq|]. repeat split; stored_eq.
Qed.

Lemma tear_down_path_validate_raises e :
  provision_state r ∈ [ACTIVE; DEPLOYFAIL; ERROR] →
  Deploy.validate (deploy d) (reserved host (uuid node_obj) r) = Raise e →
  ∃ w',
    do_node_tear_down host drivers node_obj w = (Raise e, w')
    ∧ calls w' =
        (calls w ++ [db_reserve_node host (uuid node_obj);
                     deploy_validate (uuid node_obj);
                     db_update_node (uuid node_obj);
                     db_release_node host (uuid node_obj)])%list
    ∧ stored provision_state (uuid node_obj) w' = Some (provision_state r)
    ∧ stored target_provision_state (uuid node_obj) w'
      = Some (target_provision_state r)
    ∧ stored last_error (uuid node_obj) w'
      = Some (Some ("Failed to validate info for teardown. Error: "
                      ++ exn_str e)).
Proof.
  intros Hp Hv. eexists. split.
  - unfold do_node_tear_down. in_task Hrow Hfree Hdrv.
    + simpl. rewrite decide_False by (intros H; exact (H Hp)).
      run. rewrite Hv. run. reflexivity.
    + row_there.
    + still_reserved.
  - split; [log_eq|]. repeat split; stored_eq.
Qed.

(** [deploy] returned a state. *)
Lemma deploy_path_returns new_state :
  provision_state r = NOSTATE →
  Deploy.validate (deploy d) (reserved host (uuid node_obj) r) = Return tt →
  Deploy.deploy (deploy d)
    (in_progress host (uuid node_obj) r DEPLOYING DEPLOYDONE)
    = Return new_state →
  ∃ w',
    do_node_deploy host drivers node_obj w = (Return tt, w')
    ∧ calls w' =
        (calls w ++ [db_reserve_node host (uuid node_obj);
                     deploy_validate (uuid node_obj);
                     db_update_node (uuid node_obj);
                     deploy_deploy (uuid node_obj);
                     db_update_node (uuid node_obj);
                     db_release_node host (uuid node_obj)])%list
    ∧ stored provision_state (uuid node_obj) w'
      = Some (if decide (new_state = DEPLOYDONE) then ACTIVE else new_state)
    ∧ stored target_provision_state (uuid node_obj) w'
      = Some (if decide (new_state = DEPLOYDONE) then NOSTATE else DEPLOYDONE)
    ∧ stored last_error (uuid node_obj) w' = Some None.
Proof.
  intros Hp Hv Hdep.
  destruct (decide (new_state = DEPLOYDONE)) as [Hdone|Hdone].
  - eexists. split.
    + unfold do_node_deploy. in_task Hrow Hfree Hdrv.
      * simpl. rewrite decide_False by (intros H; exact (H Hp)).
        run. rewrite Hv. run.
        fold (in_progress host (uuid node_obj) r DEPLOYING DEPLOYDONE).
        rewrite Hdep. run. rewrite decide_True by exact Hdone.
        run. reflexivity.
      * row_there.
      * still_reserved.
    + split; [log_eq|]. repeat split; stored_eq.
  - eexists. split.
    + unfold do_node_deploy. in_task Hrow Hfree Hdrv.
      * simpl. rewrite decide_False by (intros H; exact (H Hp)).
        run. rewrite Hv. run.
        fold (in_progress host (uuid node_obj) r DEPLOYING DEPLOYDONE).
        rewrite Hdep. run. rewrite decide_False by exact Hdone.
        run. reflexivity.
      * row_there.
      * still_reserved.
    + split; [log_eq|]. repeat split; stored_eq.
Qed.

(** [deploy] raised. *)
Lemma deploy_path_raises e :
  provision_state r = NOSTATE →
  Deploy.validate (deploy d) (reserved host (uuid node_obj) r) = Return tt →
  Deploy.deploy (deploy d)
    (in_progress host (uuid node_obj) r DEPLOYING DEPLOYDONE) = Raise e →
  ∃ w',
    do_node_deploy host drivers node_obj w = (Raise e, w')
    ∧ stored provision_state (uuid node_obj) w' = Some ERROR
    ∧ stored target_provision_state (uuid node_obj) w' = Some NOSTATE
    ∧ stored last_error (uuid node_obj) w'
      = Some (Some ("Failed to deploy. Error: " ++ exn_str e)).
Proof.
  intros Hp Hv Hdep. eexists. split.
  - unfold do_node_deploy. in_task Hrow Hfree Hdrv.
    + simpl. rewrite decide_False by (intros H; exact (H Hp)).
      run. rewrite Hv. run.
      fold (in_progress host (uuid node_obj) r DEPLOYING DEPLOYDONE).
      rewrite Hdep. run. reflexivity.
    + row_there.
    + still_reserved.
  - repeat split; stored_eq.
Qed.

End ProvisionPaths.

(** ** Vendor passthru on a driver without the vendor extension *)

Lemma vendor_without_extension (host : string) (drivers : gmap string Driver)
    (node_id driver_method : string) (info : gmap string string)
    (w : world) (r : row) (d : Driver) :
  db w !! node_id = Some r → drivers !! driver r = Some d → vendor d = None →
  validate_vendor_action host drivers node_id driver_method info w
  = (Raise (UnsupportedDriverExtension (driver r) node_id "vendor passthru"), w)
  ∧ do_vendor_action host drivers node_id driver_method info w
  = (Raise (AttributeError
              "'NoneType' object has no attribute 'vendor_passthru'"), w).
Proof.
  intros E Hd Hv. unfold validate_vendor_action, do_vendor_action.
  rewrite !(run_with_acquire_shared host drivers _ w node_id r d E Hd). simpl.
  rewrite Hv. split; reflexivity.
Qed.

(** ** [update_node], path by path *)

Section UpdatePaths.

Context (host : string) (drivers : gmap string Driver).
Context (node_obj : Node) (w : world) (r : row) (d : Driver).
Context (Hdelta : F_power_state ∉ obj_what_changed node_obj)
        (Hrow : db w !! uuid node_obj = Some r)
        (Hfree : reservation r = None)
        (Hdrv : drivers !! default (driver r) (requested_driver node_obj)
                = Some d).

Ltac in_update :=
  unfold update_node; rewrite decide_False by exact Hdelta;
  etransitivity;
  [ eapply run_with_acquire_exclusive;
    [ exact Hrow | exact Hfree | exact Hdrv
    | simpl task_node; simpl task_driver | | ] | ].

Ltac restored :=
  unfold store, log; simpl;
  rewrite (release_restores _ _ _ _ Hrow Hfree), <- ?app_assoc;
  reflexivity.

(** [power.validate] raised: nothing is written. *)
Lemma update_path_validate_raises e :
  F_instance_uuid ∈ obj_what_changed node_obj →
  Power.validate (power d) node_obj = Raise e →
  update_node host drivers node_obj w =
    (Raise e,
     {| db := db w;
        calls := calls w ++ [db_reserve_node host (uuid node_obj);
                             power_validate (uuid node_obj);
                             db_release_node host (uuid node_obj)] |}).
Proof.
  intros Hi Hv. in_update.
  - rewrite decide_True by exact Hi. run. rewrite Hv. run. reflexivity.
  - row_there.
  - reflexivity.
  - restored.
Qed.

(** [get_power_state] raised: nothing is written. *)
Lemma update_path_probe_raises e :
  F_instance_uuid ∈ obj_what_changed node_obj →
  Power.validate (power d) node_obj = Return tt →
  Power.get_power_state (power d) node_obj = Raise e →
  update_node host drivers node_obj w =
    (Raise e,
     {| db := db w;
        calls := calls w ++ [db_reserve_node host (uuid node_obj);
                             power_validate (uuid node_obj);
                             power_get_power_state (uuid node_obj);
                             db_release_node host (uuid node_obj)] |}).
Proof.
  intros Hi Hv Hg. in_update.
  - rewrite decide_True by exact Hi. run. rewrite Hv. run. rewrite Hg. run.
    reflexivity.
  - row_there.
  - reflexivity.
  - restored.
Qed.

(** The live state is not [POWER_OFF]: nothing is written. *)
Lemma update_path_wrong_power_state pstate :
  F_instance_uuid ∈ obj_what_changed node_obj →
  Power.validate (power d) node_obj = Return tt →
  Power.get_power_state (power d) node_obj = Return pstate →
  pstate ≠ POWER_OFF →
  update_node host drivers node_obj w =
    (Raise (NodeInWrongPowerState (uuid node_obj) pstate),
     {| db := db w;
        calls := calls w ++ [db_reserve_node host (uuid node_obj);
                             power_validate (uuid node_obj);
                             power_get_power_state (uuid node_obj);
                             db_release_node host (uuid node_obj)] |}).
Proof.
  intros Hi Hv Hg Hne. in_update.
  - rewrite decide_True by exact Hi. run. rewrite Hv. run. rewrite Hg. run.
    rewrite decide_True by exact Hne. reflexivity.
  - row_there.
  - reflexivity.
  - restored.
Qed.

(** The live state is [POWER_OFF]: the node object is saved, the probed
    state with it. *)
Lemma update_path_associated :
  F_instance_uuid ∈ obj_what_changed node_obj →
  Power.validate (power d) node_obj = Return tt →
  Power.get_power_state (power d) node_obj = Return POWER_OFF →
  ∃ w',
    update_node host drivers node_obj w =
      (Return (obj_reset_changes (setitem_power_state POWER_OFF node_obj)),
       w')
    ∧ calls w' =
        (calls w ++ [db_reserve_node host (uuid node_obj);
                     power_validate (uuid node_obj);
                     power_get_power_state (uuid node_obj);
                     db_update_node (uuid node_obj);
                     db_release_node host (uuid node_obj)])%list
    ∧ stored power_state (uuid node_obj) w' = Some POWER_OFF.
Proof.
  intros Hi Hv Hg. eexists. split.
  - unfold update_node. rewrite decide_False by exact Hdelta.
    eapply run_with_acquire; [exact Hrow | exact Hfree | exact Hdrv |].
    simpl task_driver.
    rewrite decide_True by exact Hi. run. rewrite Hv. run. rewrite Hg. run.
    reflexivity.
  - split.
    + rewrite released_calls. log_eq.
    + rewrite released_stored by reflexivity.
      unfold stored. simpl. rewrite lookup_insert_eq. simpl.
      rewrite pick_changed; [reflexivity|].
      apply changed_setitem. left. reflexivity.
Qed.

(** [instance_uuid] is not in the delta: the node object is saved. *)
Lemma update_path_plain :
  F_instance_uuid ∉ obj_what_changed node_obj →
  ∃ w',
    update_node host drivers node_obj w =
      (Return (obj_reset_changes node_obj), w')
    ∧ calls w' =
        (calls w ++ [db_reserve_node host (uuid node_obj);
                     db_update_node (uuid node_obj);
                     db_release_node host (uuid node_obj)])%list
    ∧ stored power_state (uuid node_obj) w' = Some (power_state r).
Proof.
  intros Hi. eexists. split.
  - unfold update_node. rewrite decide_False by exact Hdelta.
    eapply run_with_acquire; [exact Hrow | exact Hfree | exact Hdrv |].
    simpl task_driver.
    rewrite decide_False by exact Hi. run. reflexivity.
  - split.
    + rewrite released_calls. log_eq.
    + rewrite released_stored by reflexivity.
      unfold stored. simpl. rewrite lookup_insert_eq. simpl.
      rewrite pick_unchanged by exact Hdelta. reflexivity.
Qed.

End UpdatePaths.

(** [power_state] is in the delta: rejected before any task is acquired. *)
Lemma update_path_rejected (host : string) (drivers : gmap string Driver)
    (node_obj : Node) (w : world) :
  F_power_state ∈ obj_what_changed node_obj →
  update_node host drivers node_obj w =
    (Raise (IronicException
              "Invalid method call: update_node can not change node state."),
     w).
Proof.
  intros H. unfold update_node. rewrite decide_True by exact H. reflexivity.
Qed.

(** * The claims *)

Import fixtures.

Section Claims.

Context (host : string) (drivers : gmap string Driver).

(** ** [update_node] *)

(** C9: a call to [update_node] whose delta contains [power_state] fails
    with [IronicException] ("can not change node state"); the world is
    left as it was: no reservation is taken, no column of the node is
    written, no driver is called. *)
Theorem update_node_rejects_power_state (node_obj : Node) (w : world) :
  F_power_state ∈ obj_what_changed node_obj →
  update_node host drivers node_obj w =
    (Raise (IronicException
              "Invalid method call: update_node can not change node state."),
     w).
Proof. apply update_path_rejected. Qed.

(** C8: in a call to [update_node] whose delta contains [instance_uuid]
    (and not [power_state]) and that acquires its task, [power.validate]
    is called; when it returns, [get_power_state] is probed; and when the
    probed state is not [POWER_OFF] the call fails with
    [NodeInWrongPowerState] for that state and the node table is
    unchanged. *)
Theorem update_node_wrong_power_state (node_obj : Node) (w : world)
    (r : row) (d : Driver) :
  F_power_state ∉ obj_what_changed node_obj →
  F_instance_uuid ∈ obj_what_changed node_obj →
  db w !! uuid node_obj = Some r →
  reservation r = None →
  drivers !! default (driver r) (requested_driver node_obj) = Some d →
  ∃ res w' rest,
    update_node host drivers node_obj w = (res, w')
    ∧ calls w' =
        (calls w ++ db_reserve_node host (uuid node_obj)
                    :: power_validate (uuid node_obj) :: rest)%list
    ∧ (Power.validate (power d) node_obj = Return tt →
       ∃ rest', rest = power_get_power_state (uuid node_obj) :: rest')
    ∧ (∀ pstate,
         Power.validate (power d) node_obj = Return tt →
         Power.get_power_state (power d) node_obj = Return pstate →
         pstate ≠ POWER_OFF →
         res = Raise (NodeInWrongPowerState (uuid node_obj) pstate)
         ∧ db w' = db w).
Proof.
  intros Hdelta Hi Hrow Hfree Hdrv.
  destruct (Power.validate (power d) node_obj) as [[]|e] eqn:Hv.
  - destruct (Power.get_power_state (power d) node_obj) as [pstate|e] eqn:Hg.
    + destruct (decide (pstate = POWER_OFF)) as [->|Hne].
      * destruct (update_path_associated host drivers node_obj w r d
                    Hdelta Hrow Hfree Hdrv Hi Hv Hg) as (w' & Hrun & Hlog & _).
        eexists _, w', _. split; [exact Hrun|]. split; [exact Hlog|].
        split; [eauto|]. intros pstate _ [= <-] Hne. done.
      * eexists _, _, _. split.
        { apply (update_path_wrong_power_state host drivers node_obj w r d
                   Hdelta Hrow Hfree Hdrv pstate Hi Hv Hg Hne). }
        split; [reflexivity|]. split; [eauto|].
        intros pstate' _ [= <-] _. done.
    + eexists _, _, _. split.
      { apply (update_path_probe_raises host drivers node_obj w r d
                 Hdelta Hrow Hfree Hdrv e Hi Hv Hg). }
      split; [reflexivity|]. split; [eauto|]. intros pstate _ [=].
  - eexists _, _, _. split.
    { apply (update_path_validate_raises host drivers node_obj w r d
               Hdelta Hrow Hfree Hdrv e Hi Hv). }
    split; [reflexivity|]. split; intros; discriminate.
Qed.

(** C1, amended: [update_node] never persists a [power_state] supplied by
    its caller: a call that returns had no [power_state] in its delta.
    On return the stored [power_state] is the one stored before when
    [instance_uuid] is not in the delta, and is [POWER_OFF], the state
    probed from the driver, when it is. *)
Theorem update_node_power_state_origin (node_obj : Node) (w : world)
    (saved : Node) (w' : world) :
  update_node host drivers node_obj w = (Return saved, w') →
  (F_power_state ∉ obj_what_changed node_obj)
  ∧ (∃ r, db w !! uuid node_obj = Some r
     ∧ (F_instance_uuid ∉ obj_what_changed node_obj →
        stored power_state (uuid node_obj) w' = Some (power_state r))
     ∧ (F_instance_uuid ∈ obj_what_changed node_obj →
        stored power_state (uuid node_obj) w' = Some POWER_OFF)).
Proof.
  intros Hrun.
  destruct (decide (F_power_state ∈ obj_what_changed node_obj)) as [Hin|Hdelta].
  { rewrite (update_path_rejected _ _ _ _ Hin) in Hrun. discriminate. }
  split; [exact Hdelta|].
  pose proof Hrun as Hacq. unfold update_node in Hacq.
  rewrite decide_False in Hacq by exact Hdelta.
  apply with_acquire_returned in Hacq
    as (r & d & _ & Hrow & Hfree & Hdrv & _ & _).
  exists r. split; [exact Hrow|].
  destruct (decide (F_instance_uuid ∈ obj_what_changed node_obj)) as [Hi|Hi].
  - split; [done|]. intros _.
    destruct (Power.validate (power d) node_obj) as [[]|e] eqn:Hv.
    + destruct (Power.get_power_state (power d) node_obj)
        as [pstate|e] eqn:Hg.
      * destruct (decide (pstate = POWER_OFF)) as [->|Hne].
        -- destruct (update_path_associated host drivers node_obj w r d
                       Hdelta Hrow Hfree Hdrv Hi Hv Hg)
             as (w2 & Hrun2 & _ & Hstored).
           rewrite Hrun2 in Hrun. simplify_eq. exact Hstored.
        -- rewrite (update_path_wrong_power_state host drivers node_obj w r d
                      Hdelta Hrow Hfree Hdrv pstate Hi Hv Hg Hne) in Hrun.
           discriminate.
      * rewrite (update_path_probe_raises host drivers node_obj w r d
                   Hdelta Hrow Hfree Hdrv e Hi Hv Hg) in Hrun.
        discriminate.
    + rewrite (update_path_validate_raises host drivers node_obj w r d
                 Hdelta Hrow Hfree Hdrv e Hi Hv) in Hrun.
      discriminate.
  - split; [|done]. intros _.
    destruct (update_path_plain host drivers node_obj w r d
                Hdelta Hrow Hfree Hdrv Hi) as (w2 & Hrun2 & _ & Hstored).
    rewrite Hrun2 in Hrun. simplify_eq. exact Hstored.
Qed.

(** ** [change_node_power_state] *)

(** C4: when the task is acquired and the state probed from the driver
    equals [new_state], [change_node_power_state] returns; the calls it
    made are the reservation, [validate], [get_power_state], one save and
    the release, so [set_power_state] is not invoked; and the stored
    [last_error] is null. *)
Theorem change_node_power_state_in_same_state (node_obj : Node)
    (new_state : state) (w : world) (r : row) (d : Driver) :
  db w !! uuid node_obj = Some r →
  reservation r = None →
  drivers !! driver r = Some d →
  Power.validate (power d) (reserved host (uuid node_obj) r) = Return tt →
  Power.get_power_state (power d) (reserved host (uuid node_obj) r)
    = Return new_state →
  ∃ w',
    change_node_power_state host drivers node_obj new_state w = (Return tt, w')
    ∧ calls w' =
        (calls w ++ [db_reserve_node host (uuid node_obj);
                     power_validate (uuid node_obj);
                     power_get_power_state (uuid node_obj);
                     db_update_node (uuid node_obj);
                     db_release_node host (uuid node_obj)])%list
    ∧ stored last_error (uuid node_obj) w' = Some None.
Proof.
  intros Hrow Hfree Hdrv Hv Hg.
  destruct (power_path_same_state host drivers node_obj new_state w r d
              Hrow Hfree Hdrv Hv Hg) as (w' & Hrun & Hlog & _ & _ & Herr).
  exists w'. done.
Qed.

(** ** [do_node_deploy] and [do_node_tear_down] *)

(** C5: when [do_node_deploy] has acquired its task on a node in
    [NOSTATE], validated it, and the driver's [deploy] returns a state,
    the call returns; if the state is [DEPLOYDONE] the node is stored with
    [provision_state = ACTIVE], [target_provision_state = NOSTATE] and a
    null [last_error]; otherwise the returned state is stored in
    [provision_state] and [target_provision_state] stays [DEPLOYDONE]. *)
Theorem do_node_deploy_returned_state (node_obj : Node) (w : world)
    (r : row) (d : Driver) (new_state : state) :
  db w !! uuid node_obj = Some r →
  reservation r = None →
  drivers !! driver r = Some d →
  provision_state r = NOSTATE →
  Deploy.validate (deploy d) (reserved host (uuid node_obj) r) = Return tt →
  Deploy.deploy (deploy d)
    (in_progress host (uuid node_obj) r DEPLOYING DEPLOYDONE)
    = Return new_state →
  ∃ w',
    do_node_deploy host drivers node_obj w = (Return tt, w')
    ∧ (new_state = DEPLOYDONE →
       stored provision_state (uuid node_obj) w' = Some ACTIVE
       ∧ stored target_provision_state (uuid node_obj) w' = Some NOSTATE
       ∧ stored last_error (uuid node_obj) w' = Some None)
    ∧ (new_state ≠ DEPLOYDONE →
       stored provision_state (uuid node_obj) w' = Some new_state
       ∧ stored target_provision_state (uuid node_obj) w' = Some DEPLOYDONE).
Proof.
  intros Hrow Hfree Hdrv Hp Hv Hdep.
  destruct (deploy_path_returns host drivers node_obj w r d
              Hrow Hfree Hdrv new_state Hp Hv Hdep)
    as (w' & Hrun & _ & Hprov & Htarget & Herr).
  exists w'. split; [exact Hrun|].
  destruct (decide (new_state = DEPLOYDONE)); split; intros; done.
Qed.

(** C6: once the task is acquired, [do_node_deploy] raises
    [InstanceDeployFailure] whenever the node's [provision_state] is not
    [NOSTATE], and [do_node_tear_down] raises it whenever the node's
    [provision_state] is not one of [ACTIVE], [DEPLOYFAIL], [ERROR]; in
    both cases the only calls made are the reservation and its release
    (no driver method is called) and the node table is unchanged. *)
Theorem provision_state_rejected (node_obj : Node) (w : world)
    (r : row) (d : Driver) :
  db w !! uuid node_obj = Some r →
  reservation r = None →
  drivers !! driver r = Some d →
  (provision_state r ≠ NOSTATE →
   ∃ message,
     do_node_deploy host drivers node_obj w =
       (Raise (InstanceDeployFailure message),
        {| db := db w;
           calls := calls w ++ [db_reserve_node host (uuid node_obj);
                                db_release_node host (uuid node_obj)] |}))
  ∧ (provision_state r ∉ [ACTIVE; DEPLOYFAIL; ERROR] →
     ∃ message,
       do_node_tear_down host drivers node_obj w =
         (Raise (InstanceDeployFailure message),
          {| db := db w;
             calls := calls w ++ [db_reserve_node host (uuid node_obj);
                                  db_release_node host (uuid node_obj)] |})).
Proof.
  intros Hrow Hfree Hdrv. split; intros Hp.
  - exact (deploy_path_rejected host drivers node_obj w r d
             Hrow Hfree Hdrv Hp).
  - exact (tear_down_path_rejected host drivers node_obj w r d
             Hrow Hfree Hdrv Hp).
Qed.

(** C10: in [do_node_deploy] and in [do_node_tear_down], when the task is
    acquired, the precondition holds and [deploy.validate] raises, the
    call raises the same exception; [last_error] is stored non-null;
    the stored [provision_state] and [target_provision_state] are the
    prior ones; and the calls made are the reservation, [validate], one
    save and the release, so [deploy] / [tear_down] is not called. *)
Theorem provision_validate_failure (node_obj : Node) (w : world)
    (r : row) (d : Driver) (e : exn) :
  db w !! uuid node_obj = Some r →
  reservation r = None →
  drivers !! driver r = Some d →
  Deploy.validate (deploy d) (reserved host (uuid node_obj) r) = Raise e →
  (provision_state r = NOSTATE →
   ∃ w' message,
     do_node_deploy host drivers node_obj w = (Raise e, w')
     ∧ calls w' =
         (calls w ++ [db_reserve_node host (uuid node_obj);
                      deploy_validate (uuid node_obj);
                      db_update_node (uuid node_obj);
                      db_release_node host (uuid node_obj)])%list
     ∧ stored last_error (uuid node_obj) w' = Some (Some message)
     ∧ stored provision_state (uuid node_obj) w' = Some (provision_state r)
     ∧ stored target_provision_state (uuid node_obj) w'
       = Some (target_provision_state r))
  ∧ (provision_state r ∈ [ACTIVE; DEPLOYFAIL; ERROR] →
     ∃ w' message,
       do_node_tear_down host drivers node_obj w = (Raise e, w')
       ∧ calls w' =
           (calls w ++ [db_reserve_node host (uuid node_obj);
                        deploy_validate (uuid node_obj);
                        db_update_node (uuid node_obj);
                        db_release_node host (uuid node_obj)])%list
       ∧ stored last_error (uuid node_obj) w' = Some (Some message)
       ∧ stored provision_state (uuid node_obj) w' = Some (provision_state r)
       ∧ stored target_provision_state (uuid node_obj) w'
         = Some (target_provision_state r)).
Proof.
  intros Hrow Hfree Hdrv Hv. split; intros Hp.
  - destruct (deploy_path_validate_raises host drivers node_obj w r d
                Hrow Hfree Hdrv e Hp Hv)
      as (w' & Hrun & Hlog & Hprov & Htarget & Herr).
    exists w'. eexists. done.
  - destruct (tear_down_path_validate_raises host drivers node_obj w r d
                Hrow Hfree Hdrv e Hp Hv)
      as (w' & Hrun & Hlog & Hprov & Htarget & Herr).
    exists w'. eexists. done.
Qed.

End Claims.

(** ** The claims on the scenarios of the test suite *)

(** C9 at [node['power_state'] = POWER_OFF] on a node powered on. *)
Lemma update_node_rejects_power_state_witness :
  F_power_state
    ∈ obj_what_changed
        (setitem_power_state POWER_OFF (get_by_uuid (unassociated POWER_ON)))
  ∧ update_node test_host (loaded (fake POWER_ON))
      (setitem_power_state POWER_OFF (get_by_uuid (unassociated POWER_ON)))
      (create_node (unassociated POWER_ON))
    = (Raise (IronicException
                "Invalid method call: update_node can not change node state."),
       create_node (unassociated POWER_ON)).
Proof.
  assert (H : F_power_state
                ∈ obj_what_changed
                    (setitem_power_state POWER_OFF
                       (get_by_uuid (unassociated POWER_ON))))
    by (vm_compute; reflexivity).
  split; [exact H|].
  exact (update_node_rejects_power_state test_host (loaded (fake POWER_ON))
           _ (create_node (unassociated POWER_ON)) H).
Defined.

(** C8 at [test_associate_node_invalid_state]: the node is powered on. *)
Lemma update_node_wrong_power_state_witness :
  (F_power_state ∉ obj_what_changed (associating POWER_ON))
  ∧ F_instance_uuid ∈ obj_what_changed (associating POWER_ON)
  ∧ db (create_node (unassociated POWER_ON)) !! uuid (associating POWER_ON)
    = Some (unassociated POWER_ON)
  ∧ reservation (unassociated POWER_ON) = None
  ∧ loaded (fake POWER_ON)
      !! default (driver (unassociated POWER_ON))
           (requested_driver (associating POWER_ON))
    = Some (fake POWER_ON)
  ∧ ∃ res w' rest,
      update_node test_host (loaded (fake POWER_ON)) (associating POWER_ON)
        (create_node (unassociated POWER_ON)) = (res, w')
      ∧ calls w' =
          (calls (create_node (unassociated POWER_ON))
             ++ db_reserve_node test_host (uuid (associating POWER_ON))
                :: power_validate (uuid (associating POWER_ON)) :: rest)%list
      ∧ (Power.validate (power (fake POWER_ON)) (associating POWER_ON)
         = Return tt →
         ∃ rest',
           rest = power_get_power_state (uuid (associating POWER_ON)) :: rest')
      ∧ (∀ pstate,
           Power.validate (power (fake POWER_ON)) (associating POWER_ON)
           = Return tt →
           Power.get_power_state (power (fake POWER_ON)) (associating POWER_ON)
           = Return pstate →
           pstate ≠ POWER_OFF →
           res = Raise (NodeInWrongPowerState (uuid (associating POWER_ON))
                          pstate)
           ∧ db w' = db (create_node (unassociated POWER_ON))).
Proof.
  split; [vm_compute; intros H; discriminate H|].
  do 4 (split; [vm_compute; reflexivity|]).
  apply (update_node_wrong_power_state test_host (loaded (fake POWER_ON))
           (associating POWER_ON) (create_node (unassociated POWER_ON))
           (unassociated POWER_ON) (fake POWER_ON)).
  - vm_compute. intros H. discriminate H.
  - vm_compute. reflexivity.
  - vm_compute. reflexivity.
  - reflexivity.
  - vm_compute. reflexivity.
Defined.

(** C1, as stated, fails at [test_associate_node_valid_state]: the node is
    stored with [power_state = NOSTATE], the driver reports [POWER_OFF],
    [update_node] returns and has stored [power_state = POWER_OFF]: the
    stored [power_state] is not the one stored before. *)
Lemma update_node_persists_probed_power_state :
  (update_node test_host (loaded (fake POWER_OFF)) (associating NOSTATE)
     (create_node (unassociated NOSTATE))).1
  = Return (obj_reset_changes
              (setitem_power_state POWER_OFF (associating NOSTATE)))
  ∧ stored power_state node_id (create_node (unassociated NOSTATE))
    = Some NOSTATE
  ∧ stored power_state node_id
      (update_node test_host (loaded (fake POWER_OFF)) (associating NOSTATE)
         (create_node (unassociated NOSTATE))).2
    = Some POWER_OFF
  ∧ stored power_state node_id
      (update_node test_host (loaded (fake POWER_OFF)) (associating NOSTATE)
         (create_node (unassociated NOSTATE))).2
    ≠ stored power_state node_id (create_node (unassociated NOSTATE)).
Proof.
  split; [vm_compute; reflexivity|].
  split; [vm_compute; reflexivity|].
  split; [vm_compute; reflexivity|].
  vm_compute. intros H. discriminate H.
Qed.

(** C1, amended, at [test_associate_node_valid_state]. *)
Lemma update_node_power_state_origin_witness :
  update_node test_host (loaded (fake POWER_OFF)) (associating NOSTATE)
    (create_node (unassociated NOSTATE))
  = (Return (obj_reset_changes
               (setitem_power_state POWER_OFF (associating NOSTATE))),
     associated)
  ∧ (F_power_state ∉ obj_what_changed (associating NOSTATE))
  ∧ (∃ r,
       db (create_node (unassociated NOSTATE)) !! uuid (associating NOSTATE)
       = Some r
       ∧ (F_instance_uuid ∉ obj_what_changed (associating NOSTATE) →
          stored power_state (uuid (associating NOSTATE)) associated
          = Some (power_state r))
       ∧ (F_instance_uuid ∈ obj_what_changed (associating NOSTATE) →
          stored power_state (uuid (associating NOSTATE)) associated
          = Some POWER_OFF)).
Proof.
  split; [vm_compute; reflexivity|].
  apply (update_node_power_state_origin test_host (loaded (fake POWER_OFF))
           (associating NOSTATE) (create_node (unassociated NOSTATE))
           (obj_reset_changes
              (setitem_power_state POWER_OFF (associating NOSTATE)))
           associated).
  vm_compute. reflexivity.
Defined.

(** C2 fails on the short-circuit path at the node of
    [test_change_node_power_state_already_being_processed], once the
    machine is off: the node is stored with [power_state = POWER_ON] and the
    stale [target_power_state = POWER_OFF], the driver reports [POWER_OFF],
    and [change_node_power_state(node, POWER_OFF)] returns with
    [target_power_state] still [POWER_OFF]. *)
Lemma change_node_power_state_stale_target :
  (change_node_power_state test_host (loaded (fake POWER_OFF))
     (get_by_uuid interrupted_power_off) POWER_OFF
     (create_node interrupted_power_off)).1
  = Return tt
  ∧ stored target_power_state node_id
      (change_node_power_state test_host (loaded (fake POWER_OFF))
         (get_by_uuid interrupted_power_off) POWER_OFF
         (create_node interrupted_power_off)).2
    = Some POWER_OFF
  ∧ stored target_power_state node_id
      (change_node_power_state test_host (loaded (fake POWER_OFF))
         (get_by_uuid interrupted_power_off) POWER_OFF
         (create_node interrupted_power_off)).2
    ≠ Some NOSTATE.
Proof.
  split; [vm_compute; reflexivity|].
  split; [vm_compute; reflexivity|].
  vm_compute. intros H. discriminate H.
Qed.

(** C3, as stated, fails at
    [test_change_node_power_state_already_locked]: the node is reserved by
    another conductor, the call raises [NodeLocked], and the stored
    [last_error] is null as before. *)
Lemma change_node_power_state_locked_keeps_last_error :
  change_node_power_state test_host (loaded (fake POWER_ON))
    (get_by_uuid locked_elsewhere) POWER_ON (create_node locked_elsewhere)
  = (Raise (NodeLocked node_id "other-host"), create_node locked_elsewhere)
  ∧ stored last_error node_id (create_node locked_elsewhere) = Some None
  ∧ ¬ (∃ message,
         stored last_error node_id (create_node locked_elsewhere)
         = Some (Some message)).
Proof.
  split; [vm_compute; reflexivity|].
  split; [vm_compute; reflexivity|].
  intros [message H]. vm_compute in H. discriminate H.
Qed.

(** C4 at [test_change_node_power_state_in_same_state]. *)
Lemma change_node_power_state_in_same_state_witness :
  db (create_node erred_before) !! uuid (get_by_uuid erred_before)
  = Some erred_before
  ∧ reservation erred_before = None
  ∧ loaded (fake_set_power_failure POWER_ON) !! driver erred_before
    = Some (fake_set_power_failure POWER_ON)
  ∧ Power.validate (power (fake_set_power_failure POWER_ON))
      (reserved test_host (uuid (get_by_uuid erred_before)) erred_before)
    = Return tt
  ∧ Power.get_power_state (power (fake_set_power_failure POWER_ON))
      (reserved test_host (uuid (get_by_uuid erred_before)) erred_before)
    = Return POWER_ON
  ∧ ∃ w',
      change_node_power_state test_host
        (loaded (fake_set_power_failure POWER_ON))
        (get_by_uuid erred_before) POWER_ON (create_node erred_before)
      = (Return tt, w')
      ∧ calls w' =
          (calls (create_node erred_before)
             ++ [db_reserve_node test_host (uuid (get_by_uuid erred_before));
                 power_validate (uuid (get_by_uuid erred_before));
                 power_get_power_state (uuid (get_by_uuid erred_before));
                 db_update_node (uuid (get_by_uuid erred_before));
                 db_release_node test_host (uuid (get_by_uuid erred_before))])%list
      ∧ stored last_error (uuid (get_by_uuid erred_before)) w' = Some None.
Proof.
  do 5 (split; [vm_compute; reflexivity|]).
  apply (change_node_power_state_in_same_state test_host
           (loaded (fake_set_power_failure POWER_ON))
           (get_by_uuid erred_before) POWER_ON (create_node erred_before)
           erred_before (fake_set_power_failure POWER_ON)).
  - vm_compute. reflexivity.
  - reflexivity.
  - vm_compute. reflexivity.
  - reflexivity.
  - reflexivity.
Defined.

(** C5 at [test_do_node_deploy_partial_ok]. *)
Lemma do_node_deploy_returned_state_witness :
  db (create_node (unassociated NOSTATE))
    !! uuid (get_by_uuid (unassociated NOSTATE))
  = Some (unassociated NOSTATE)
  ∧ reservation (unassociated NOSTATE) = None
  ∧ loaded fake_partial_deploy !! driver (unassociated NOSTATE)
    = Some fake_partial_deploy
  ∧ provision_state (unassociated NOSTATE) = NOSTATE
  ∧ Deploy.validate (deploy fake_partial_deploy)
      (reserved test_host (uuid (get_by_uuid (unassociated NOSTATE)))
         (unassociated NOSTATE))
    = Return tt
  ∧ Deploy.deploy (deploy fake_partial_deploy)
      (in_progress test_host (uuid (get_by_uuid (unassociated NOSTATE)))
         (unassociated NOSTATE) DEPLOYING DEPLOYDONE)
    = Return DEPLOYING
  ∧ ∃ w',
      do_node_deploy test_host (loaded fake_partial_deploy)
        (get_by_uuid (unassociated NOSTATE))
        (create_node (unassociated NOSTATE))
      = (Return tt, w')
      ∧ (DEPLOYING = DEPLOYDONE →
         stored provision_state (uuid (get_by_uuid (unassociated NOSTATE))) w'
         = Some ACTIVE
         ∧ stored target_provision_state
             (uuid (get_by_uuid (unassociated NOSTATE))) w'
           = Some NOSTATE
         ∧ stored last_error (uuid (get_by_uuid (unassociated NOSTATE))) w'
           = Some None)
      ∧ (DEPLOYING ≠ DEPLOYDONE →
         stored provision_state (uuid (get_by_uuid (unassociated NOSTATE))) w'
         = Some DEPLOYING
         ∧ stored target_provision_state
             (uuid (get_by_uuid (unassociated NOSTATE))) w'
           = Some DEPLOYDONE).
Proof.
  do 6 (split; [vm_compute; reflexivity|]).
  apply (do_node_deploy_returned_state test_host (loaded fake_partial_deploy)
           (get_by_uuid (unassociated NOSTATE))
           (create_node (unassociated NOSTATE)) (unassociated NOSTATE)
           fake_partial_deploy DEPLOYING).
  - vm_compute. reflexivity.
  - reflexivity.
  - vm_compute. reflexivity.
  - reflexivity.
  - reflexivity.
  - reflexivity.
Defined.

(** C6 at a node in [DEPLOYING], which neither operation accepts. *)
Lemma provision_state_rejected_witness :
  db (create_node deploying) !! uuid (get_by_uuid deploying) = Some deploying
  ∧ reservation deploying = None
  ∧ loaded (fake NOSTATE) !! driver deploying = Some (fake NOSTATE)
  ∧ (provision_state deploying ≠ NOSTATE →
     ∃ message,
       do_node_deploy test_host (loaded (fake NOSTATE))
         (get_by_uuid deploying) (create_node deploying) =
         (Raise (InstanceDeployFailure message),
          {| db := db (create_node deploying);
             calls :=
               calls (create_node deploying)
                 ++ [db_reserve_node test_host (uuid (get_by_uuid deploying));
                     db_release_node test_host
                       (uuid (get_by_uuid deploying))] |}))
  ∧ (provision_state deploying ∉ [ACTIVE; DEPLOYFAIL; ERROR] →
     ∃ message,
       do_node_tear_down test_host (loaded (fake NOSTATE))
         (get_by_uuid deploying) (create_node deploying) =
         (Raise (InstanceDeployFailure message),
          {| db := db (create_node deploying);
             calls :=
               calls (create_node deploying)
                 ++ [db_reserve_node test_host (uuid (get_by_uuid deploying));
                     db_release_node test_host
                       (uuid (get_by_uuid deploying))] |})).
Proof.
  do 3 (split; [vm_compute; reflexivity|]).
  apply (provision_state_rejected test_host (loaded (fake NOSTATE))
           (get_by_uuid deploying) (create_node deploying) deploying
           (fake NOSTATE)).
  - vm_compute. reflexivity.
  - reflexivity.
  - vm_compute. reflexivity.
Defined.

(** C10 at a node in [NOSTATE] whose deploy info does not validate. *)
Lemma provision_validate_failure_witness :
  db (create_node (unassociated NOSTATE))
    !! uuid (get_by_uuid (unassociated NOSTATE))
  = Some (unassociated NOSTATE)
  ∧ reservation (unassociated NOSTATE) = None
  ∧ loaded fake_invalid_deploy !! driver (unassociated NOSTATE)
    = Some fake_invalid_deploy
  ∧ Deploy.validate (deploy fake_invalid_deploy)
      (reserved test_host (uuid (get_by_uuid (unassociated NOSTATE)))
         (unassociated NOSTATE))
    = Raise (InvalidParameterValue "wrong deploy info")
  ∧ (provision_state (unassociated NOSTATE) = NOSTATE →
     ∃ w' message,
       do_node_deploy test_host (loaded fake_invalid_deploy)
         (get_by_uuid (unassociated NOSTATE))
         (create_node (unassociated NOSTATE))
       = (Raise (InvalidParameterValue "wrong deploy info"), w')
       ∧ calls w' =
           (calls (create_node (unassociated NOSTATE))
              ++ [db_reserve_node test_host
                    (uuid (get_by_uuid (unassociated NOSTATE)));
                  deploy_validate (uuid (get_by_uuid (unassociated NOSTATE)));
                  db_update_node (uuid (get_by_uuid (unassociated NOSTATE)));
                  db_release_node test_host
                    (uuid (get_by_uuid (unassociated NOSTATE)))])%list
       ∧ stored last_error (uuid (get_by_uuid (unassociated NOSTATE))) w'
         = Some (Some message)
       ∧ stored provision_state (uuid (get_by_uuid (unassociated NOSTATE))) w'
         = Some (provision_state (unassociated NOSTATE))
       ∧ stored target_provision_state
           (uuid (get_by_uuid (unassociated NOSTATE))) w'
         = Some (target_provision_state (unassociated NOSTATE)))
  ∧ (provision_state (unassociated NOSTATE) ∈ [ACTIVE; DEPLOYFAIL; ERROR] →
     ∃ w' message,
       do_node_tear_down test_host (loaded fake_invalid_deploy)
         (get_by_uuid (unassociated NOSTATE))
         (create_node (unassociated NOSTATE))
       = (Raise (InvalidParameterValue "wrong deploy info"), w')
       ∧ calls w' =
           (calls (create_node (unassociated NOSTATE))
              ++ [db_reserve_node test_host
                    (uuid (get_by_uuid (unassociated NOSTATE)));
                  deploy_validate (uuid (get_by_uuid (unassociated NOSTATE)));
                  db_update_node (uuid (get_by_uuid (unassociated NOSTATE)));
                  db_release_node test_host
                    (uuid (get_by_uuid (unassociated NOSTATE)))])%list
       ∧ stored last_error (uuid (get_by_uuid (unassociated NOSTATE))) w'
         = Some (Some message)
       ∧ stored provision_state (uuid (get_by_uuid (unassociated NOSTATE))) w'
         = Some (provision_state (unassociated NOSTATE))
       ∧ stored target_provision_state
           (uuid (get_by_uuid (unassociated NOSTATE))) w'
         = Some (target_provision_state (unassociated NOSTATE))).
Proof.
  do 4 (split; [vm_compute; reflexivity|]).
  apply (provision_validate_failure test_host (loaded fake_invalid_deploy)
           (get_by_uuid (unassociated NOSTATE))
           (create_node (unassociated NOSTATE)) (unassociated NOSTATE)
           fake_invalid_deploy (InvalidParameterValue "wrong deploy info")).
  - vm_compute. reflexivity.
  - reflexivity.
  - vm_compute. reflexivity.
  - reflexivity.
Defined.

(** C7 fails for [do_vendor_action] at the driver of
    [test_validate_vendor_action_unsupported], whose [vendor] is [None]:
    [validate_vendor_action] raises [UnsupportedDriverExtension],
    [do_vendor_action] raises [AttributeError]. *)
Lemma do_vendor_action_without_vendor :
  validate_vendor_action test_host (loaded fake_without_vendor) node_id "foo"
    {["bar" := "baz"]} (create_node (unassociated NOSTATE))
  = (Raise (UnsupportedDriverExtension "fake" node_id "vendor passthru"),
     create_node (unassociated NOSTATE))
  ∧ do_vendor_action test_host (loaded fake_without_vendor) node_id "foo"
      {["bar" := "baz"]} (create_node (unassociated NOSTATE))
    = (Raise (AttributeError
                "'NoneType' object has no attribute 'vendor_passthru'"),
       create_node (unassociated NOSTATE)).
Proof.
  apply (vendor_without_extension test_host (loaded fake_without_vendor)
           node_id "foo" {["bar" := "baz"]}
           (create_node (unassociated NOSTATE)) (unassociated NOSTATE)
           fake_without_vendor).
  - vm_compute. reflexivity.
  - vm_compute. reflexivity.
  - reflexivity.
Qed.

(** * Further properties of the conductor manager *)

(** ** Rows, column by column *)

Lemma row_ext (r1 r2 : row) :
  driver r1 = driver r2 → driver_info r1 = driver_info r2 →
  power_state r1 = power_state r2 →
  target_power_state r1 = target_power_state r2 →
  provision_state r1 = provision_state r2 →
  target_provision_state r1 = target_provision_state r2 →
  instance_uuid r1 = instance_uuid r2 → last_error r1 = last_error r2 →
  reservation r1 = reservation r2 → extra r1 = extra r2 →
  r1 = r2.
Proof. destruct r1, r2. simpl. intros. subst. reflexivity. Qed.

(** The row left by a task: columns by columns, through the saves. *)
Ltac row_eq := apply row_ext; picks; done.

Lemma run_ext {A : Type} (a : outcome A) (db1 db2 : gmap string row)
    (calls1 calls2 : list call) :
  db1 = db2 → calls1 = calls2 →
  (a, {| db := db1; calls := calls1 |}) = (a, {| db := db2; calls := calls2 |}).
Proof. intros -> ->. reflexivity. Qed.

Lemma insert_row_eq (k : string) (r1 r2 : row) (m : gmap string row) :
  r1 = r2 → <[k := r1]> m = <[k := r2]> m.
Proof. intros ->. reflexivity. Qed.

(** The world left by a task that wrote row [r'] and logged its calls. *)
Ltac world_eq :=
  unfold store, log; simpl; apply run_ext;
  [ rewrite ?insert_insert_eq; apply insert_row_eq; row_eq
  | rewrite <- ?app_assoc; reflexivity ].

(** ** [change_node_power_state]: the world it leaves *)

Section PowerWorlds.

Context (host : string) (drivers : gmap string Driver).
Context (node_obj : Node) (new_state : state) (w : world) (r : row)
        (d : Driver).
Context (Hrow : db w !! uuid node_obj = Some r)
        (Hfree : reservation r = None)
        (Hdrv : drivers !! driver r = Some d).

Lemma power_world_validate_raises e :
  Power.validate (power d) (reserved host (uuid node_obj) r) = Raise e →
  change_node_power_state host drivers node_obj new_state w =
    (Raise e,
     {| db := <[uuid node_obj :=
                  with_last_error (Some (power_failure new_state e)) r]>
                (db w);
        calls := calls w ++ [db_reserve_node host (uuid node_obj);
                             power_validate (uuid node_obj);
                             db_update_node (uuid node_obj);
                             db_release_node host (uuid node_obj)] |}).
Proof.
  intros H0. unfold change_node_power_state. etransitivity.
  - in_task Hrow Hfree Hdrv;
      [ run; rewrite H0; run; reflexivity
      | row_there | still_reserved ].
  - world_eq.
Qed.

Lemma power_world_probe_raises e :
  Power.validate (power d) (reserved host (uuid node_obj) r) = Return tt →
  Power.get_power_state (power d) (reserved host (uuid node_obj) r)
    = Raise e →
  change_node_power_state host drivers node_obj new_state w =
    (Raise e,
     {| db := <[uuid node_obj :=
                  with_last_error (Some (power_failure new_state e)) r]>
                (db w);
        calls := calls w ++ [db_reserve_node host (uuid node_obj);
                             power_validate (uuid node_obj);
                             power_get_power_state (uuid node_obj);
                             db_update_node (uuid node_obj);
                             db_release_node host (uuid node_obj)] |}).
Proof.
  intros H0 H1. unfold change_node_power_state. etransitivity.
  - in_task Hrow Hfree Hdrv;
      [ run; rewrite H0; run; rewrite H1; run; reflexivity
      | row_there | still_reserved ].
  - world_eq.
Qed.

Lemma power_world_same_state :
  Power.validate (power d) (reserved host (uuid node_obj) r) = Return tt →
  Power.get_power_state (power d) (reserved host (uuid node_obj) r)
    = Return new_state →
  change_node_power_state host drivers node_obj new_state w =
    (Return tt,
     {| db := <[uuid node_obj :=
                  with_last_error None r]>
                (db w);
        calls := calls w ++ [db_reserve_node host (uuid node_obj);
                             power_validate (uuid node_obj);
                             power_get_power_state (uuid node_obj);
                             db_update_node (uuid node_obj);
                             db_release_node host (uuid node_obj)] |}).
Proof.
  intros H0 H1. unfold change_node_power_state. etransitivity.
  - in_task Hrow Hfree Hdrv;
      [ run; rewrite H0; run; rewrite H1; run;
        rewrite decide_True by reflexivity; run; reflexivity
      | row_there | still_reserved ].
  - world_eq.
Qed.

Lemma power_world_set_returns curr_state :
  Power.validate (power d) (reserved host (uuid node_obj) r) = Return tt →
  Power.get_power_state (power d) (reserved host (uuid node_obj) r)
    = Return curr_state →
  curr_state ≠ new_state →
  Power.set_power_state (power d)
    (power_pending host (uuid node_obj) r new_state) new_state = Return tt →
  change_node_power_state host drivers node_obj new_state w =
    (Return tt,
     {| db := <[uuid node_obj :=
                  with_power_state new_state
                    (with_target_power_state NOSTATE
                       (with_last_error None r))]>
                (db w);
        calls := calls w ++ [db_reserve_node host (uuid node_obj);
                             power_validate (uuid node_obj);
                             power_get_power_state (uuid node_obj);
                             db_update_node (uuid node_obj);
                             power_set_power_state (uuid node_obj) new_state;
                             db_update_node (uuid node_obj);
                             db_release_node host (uuid node_obj)] |}).
Proof.
  intros H0 H1 H2 H3. unfold change_node_power_state. etransitivity.
  - in_task Hrow Hfree Hdrv;
      [ run; rewrite H0; run; rewrite H1; run;
        rewrite decide_False by exact H2; run;
        fold (power_pending host (uuid node_obj) r new_state);
        rewrite H3; run; reflexivity
      | row_there | still_reserved ].
  - world_eq.
Qed.

Lemma power_world_set_raises curr_state e :
  Power.validate (power d) (reserved host (uuid node_obj) r) = Return tt →
  Power.get_power_state (power d) (reserved host (uuid node_obj) r)
    = Return curr_state →
  curr_state ≠ new_state →
  Power.set_power_state (power d)
    (power_pending host (uuid node_obj) r new_state) new_state = Raise e →
  change_node_power_state host drivers node_obj new_state w =
    (Raise e,
     {| db := <[uuid node_obj :=
                  with_target_power_state NOSTATE
                    (with_last_error (Some (power_failure new_state e)) r)]>
                (db w);
        calls := calls w ++ [db_reserve_node host (uuid node_obj);
                             power_validate (uuid node_obj);
                             power_get_power_state (uuid node_obj);
                             db_update_node (uuid node_obj);
                             power_set_power_state (uuid node_obj) new_state;
                             db_update_node (uuid node_obj);
                             db_release_node host (uuid node_obj)] |}).
Proof.
  intros H0 H1 H2 H3. unfold change_node_power_state. etransitivity.
  - in_task Hrow Hfree Hdrv;
      [ run; rewrite H0; run; rewrite H1; run;
        rewrite decide_False by exact H2; run;
        fold (power_pending host (uuid node_obj) r new_state);
        rewrite H3; run; reflexivity
      | row_there | still_reserved ].
  - world_eq.
Qed.

(** Every run of [change_node_power_state] in an acquired task is one of
    the five above. *)
Lemma power_world_cases (P : outcome unit * world → Prop) :
  (∀ e,
     Power.validate (power d) (reserved host (uuid node_obj) r) = Raise e →
     P (Raise e,
        {| db := <[uuid node_obj :=
                     with_last_error (Some (power_failure new_state e)) r]>
                   (db w);
           calls := calls w ++ [db_reserve_node host (uuid node_obj);
                                power_validate (uuid node_obj);
                                db_update_node (uuid node_obj);
                                db_release_node host (uuid node_obj)] |})) →
  (∀ e,
     Power.validate (power d) (reserved host (uuid node_obj) r) = Return tt →
     Power.get_power_state (power d) (reserved host (uuid node_obj) r)
       = Raise e →
     P (Raise e,
        {| db := <[uuid node_obj :=
                     with_last_error (Some (power_failure new_state e)) r]>
                   (db w);
           calls := calls w ++ [db_reserve_node host (uuid node_obj);
                                power_validate (uuid node_obj);
                                power_get_power_state (uuid node_obj);
                                db_update_node (uuid node_obj);
                                db_release_node host (uuid node_obj)] |})) →
  (Power.validate (power d) (reserved host (uuid node_obj) r) = Return tt →
     Power.get_power_state (power d) (reserved host (uuid node_obj) r)
       = Return new_state →
     P (Return tt,
        {| db := <[uuid node_obj :=
                     with_last_error None r]>
                   (db w);
           calls := calls w ++ [db_reserve_node host (uuid node_obj);
                                power_validate (uuid node_obj);
                                power_get_power_state (uuid node_obj);
                                db_update_node (uuid node_obj);
                                db_release_node host (uuid node_obj)] |})) →
  (∀ curr_state,
     Power.validate (power d) (reserved host (uuid node_obj) r) = Return tt →
     Power.get_power_state (power d) (reserved host (uuid node_obj) r)
       = Return curr_state →
     curr_state ≠ new_state →
     Power.set_power_state (power d)
       (power_pending host (uuid node_obj) r new_state) new_state = Return tt →
     P (Return tt,
        {| db := <[uuid node_obj :=
                     with_power_state new_state
                    (with_target_power_state NOSTATE
                       (with_last_error None r))]>
                   (db w);
           calls := calls w ++ [db_reserve_node host (uuid node_obj);
                                power_validate (uuid node_obj);
                                power_get_power_state (uuid node_obj);
                                db_update_node (uuid node_obj);
                                power_set_power_state (uuid node_obj) new_state;
                                db_update_node (uuid node_obj);
                                db_release_node host (uuid node_obj)] |})) →
  (∀ curr_state e,
     Power.validate (power d) (reserved host (uuid node_obj) r) = Return tt →
     Power.get_power_state (power d) (reserved host (uuid node_obj) r)
       = Return curr_state →
     curr_state ≠ new_state →
     Power.set_power_state (power d)
       (power_pending host (uuid node_obj) r new_state) new_state = Raise e →
     P (Raise e,
        {| db := <[uuid node_obj :=
                     with_target_power_state NOSTATE
                    (with_last_error (Some (power_failure new_state e)) r)]>
                   (db w);
           calls := calls w ++ [db_reserve_node host (uuid node_obj);
                                power_validate (uuid node_obj);
                                power_get_power_state (uuid node_obj);
                                db_update_node (uuid node_obj);
                                power_set_power_state (uuid node_obj) new_state;
                                db_update_node (uuid node_obj);
                                db_release_node host (uuid node_obj)] |})) →
  P (change_node_power_state host drivers node_obj new_state w).
Proof.
  intros Pvalidate Pprobe Psame Preturns Praises.
  assert (∃ o, Power.validate (power d) (reserved host (uuid node_obj) r) = o)
    as [[[]|e] Hv] by eauto.
  - assert (∃ o, Power.get_power_state (power d)
                   (reserved host (uuid node_obj) r) = o)
      as [[curr_state|e] Hg] by eauto.
    + destruct (decide (curr_state = new_state)) as [->|Hne].
      * rewrite (power_world_same_state Hv Hg). exact (Psame Hv Hg).
      * assert (∃ o, Power.set_power_state (power d)
                       (power_pending host (uuid node_obj) r new_state)
                       new_state = o) as [[[]|e] Hs] by eauto.
        -- rewrite (power_world_set_returns curr_state Hv Hg Hne Hs).
           exact (Preturns curr_state Hv Hg Hne Hs).
        -- rewrite (power_world_set_raises curr_state e Hv Hg Hne Hs).
           exact (Praises curr_state e Hv Hg Hne Hs).
    + rewrite (power_world_probe_raises e Hv Hg). exact (Pprobe e Hv Hg).
  - rewrite (power_world_validate_raises e Hv). exact (Pvalidate e Hv).
Qed.

End PowerWorlds.

(** ** [do_node_deploy] and [do_node_tear_down]: the world they leave *)

Section ProvisionWorlds.

Context (host : string) (drivers : gmap string Driver).
Context (node_obj : Node) (w : world) (r : row)
        (d : Driver).
Context (Hrow : db w !! uuid node_obj = Some r)
        (Hfree : reservation r = None)
        (Hdrv : drivers !! driver r = Some d).

Lemma deploy_world_validate_raises e :
  provision_state r = NOSTATE →
  Deploy.validate (deploy d) (reserved host (uuid node_obj) r) = Raise e →
  do_node_deploy host drivers node_obj w =
    (Raise e,
     {| db := <[uuid node_obj :=
                  with_last_error (Some ("Failed to validate deploy info. Error: " ++ exn_str e)) r]>
                (db w);
        calls := calls w ++ [db_reserve_node host (uuid node_obj);
                             deploy_validate (uuid node_obj);
                             db_update_node (uuid node_obj);
                             db_release_node host (uuid node_obj)] |}).
Proof.
  intros H0 H1. unfold do_node_deploy. etransitivity.
  - in_task Hrow Hfree Hdrv;
      [ simpl; rewrite decide_False by (intros H; exact (H H0));
        run; rewrite H1; run; reflexivity
      | row_there | still_reserved ].
  - world_eq.
Qed.

Lemma deploy_world_done :
  provision_state r = NOSTATE →
  Deploy.validate (deploy d) (reserved host (uuid node_obj) r) = Return tt →
  Deploy.deploy (deploy d)
    (in_progress host (uuid node_obj) r DEPLOYING DEPLOYDONE)
    = Return DEPLOYDONE →
  do_node_deploy host drivers node_obj w =
    (Return tt,
     {| db := <[uuid node_obj :=
                  with_provision_state ACTIVE
                    (with_target_provision_state NOSTATE
                       (with_last_error None r))]>
                (db w);
        calls := calls w ++ [db_reserve_node host (uuid node_obj);
                             deploy_validate (uuid node_obj);
                             db_update_node (uuid node_obj);
                             deploy_deploy (uuid node_obj);
                             db_update_node (uuid node_obj);
                             db_release_node host (uuid node_obj)] |}).
Proof.
  intros H0 H1 H2. unfold do_node_deploy. etransitivity.
  - in_task Hrow Hfree Hdrv;
      [ simpl; rewrite decide_False by (intros H; exact (H H0));
        run; rewrite H1; run;
        fold (in_progress host (uuid node_obj) r DEPLOYING DEPLOYDONE);
        rewrite H2; run; reflexivity
      | row_there | still_reserved ].
  - world_eq.
Qed.

Lemma deploy_world_pending new_state :
  provision_state r = NOSTATE →
  Deploy.validate (deploy d) (reserved host (uuid node_obj) r) = Return tt →
  Deploy.deploy (deploy d)
    (in_progress host (uuid node_obj) r DEPLOYING DEPLOYDONE)
    = Return new_state →
  new_state ≠ DEPLOYDONE →
  do_node_deploy host drivers node_obj w =
    (Return tt,
     {| db := <[uuid node_obj :=
                  with_provision_state new_state
                    (with_target_provision_state DEPLOYDONE
                       (with_last_error None r))]>
                (db w);
        calls := calls w ++ [db_reserve_node host (uuid node_obj);
                             deploy_validate (uuid node_obj);
                             db_update_node (uuid node_obj);
                             deploy_deploy (uuid node_obj);
                             db_update_node (uuid node_obj);
                             db_release_node host (uuid node_obj)] |}).
Proof.
  intros H0 H1 H2 H3. unfold do_node_deploy. etransitivity.
  - in_task Hrow Hfree Hdrv;
      [ simpl; rewrite decide_False by (intros H; exact (H H0));
        run; rewrite H1; run;
        fold (in_progress host (uuid node_obj) r DEPLOYING DEPLOYDONE);
        rewrite H2; run; rewrite decide_False by exact H3; run; reflexivity
      | row_there | still_reserved ].
  - world_eq.
Qed.

Lemma deploy_world_raises e :
  provision_state r = NOSTATE →
  Deploy.validate (deploy d) (reserved host (uuid node_obj) r) = Return tt →
  Deploy.deploy (deploy d)
    (in_progress host (uuid node_obj) r DEPLOYING DEPLOYDONE) = Raise e →
  do_node_deploy host drivers node_obj w =
    (Raise e,
     {| db := <[uuid node_obj :=
                  with_provision_state ERROR
                    (with_target_provision_state NOSTATE
                       (with_last_error (Some ("Failed to deploy. Error: " ++ exn_str e)) r))]>
                (db w);
        calls := calls w ++ [db_reserve_node host (uuid node_obj);
                             deploy_validate (uuid node_obj);
                             db_update_node (uuid node_obj);
                             deploy_deploy (uuid node_obj);
                             db_update_node (uuid node_obj);
                             db_release_node host (uuid node_obj)] |}).
Proof.
  intros H0 H1 H2. unfold do_node_deploy. etransitivity.
  - in_task Hrow Hfree Hdrv;
      [ simpl; rewrite decide_False by (intros H; exact (H H0));
        run; rewrite H1; run;
        fold (in_progress host (uuid node_obj) r DEPLOYING DEPLOYDONE);
        rewrite H2; run; reflexivity
      | row_there | still_reserved ].
  - world_eq.
Qed.

(** Every run of [do_node_deploy] in an acquired task whose precondition holds is
    one of the four above. *)
Lemma deploy_world_cases (P : outcome unit * world → Prop) :
  provision_state r = NOSTATE →
  (∀ e,
     Deploy.validate (deploy d) (reserved host (uuid node_obj) r) = Raise e →
     P (Raise e,
        {| db := <[uuid node_obj :=
                     with_last_error (Some ("Failed to validate deploy info. Error: " ++ exn_str e)) r]>
                   (db w);
           calls := calls w ++ [db_reserve_node host (uuid node_obj);
                                deploy_validate (uuid node_obj);
                                db_update_node (uuid node_obj);
                                db_release_node host (uuid node_obj)] |})) →
  (Deploy.validate (deploy d) (reserved host (uuid node_obj) r) = Return tt →
     Deploy.deploy (deploy d)
       (in_progress host (uuid node_obj) r DEPLOYING DEPLOYDONE)
       = Return DEPLOYDONE →
     P (Return tt,
        {| db := <[uuid node_obj :=
                     with_provision_state ACTIVE
                    (with_target_provision_state NOSTATE
                       (with_last_error None r))]>
                   (db w);
           calls := calls w ++ [db_reserve_node host (uuid node_obj);
                                deploy_validate (uuid node_obj);
                                db_update_node (uuid node_obj);
                                deploy_deploy (uuid node_obj);
                                db_update_node (uuid node_obj);
                                db_release_node host (uuid node_obj)] |})) →
  (∀ new_state,
     Deploy.validate (deploy d) (reserved host (uuid node_obj) r) = Return tt →
     Deploy.deploy (deploy d)
       (in_progress host (uuid node_obj) r DEPLOYING DEPLOYDONE)
       = Return new_state →
     new_state ≠ DEPLOYDONE →
     P (Return tt,
        {| db := <[uuid node_obj :=
                     with_provision_state new_state
                    (with_target_provision_state DEPLOYDONE
                       (with_last_error None r))]>
                   (db w);
           calls := calls w ++ [db_reserve_node host (uuid node_obj);
                                deploy_validate (uuid node_obj);
                                db_update_node (uuid node_obj);
                                deploy_deploy (uuid node_obj);
                                db_update_node (uuid node_obj);
                                db_release_node host (uuid node_obj)] |})) →
  (∀ e,
     Deploy.validate (deploy d) (reserved host (uuid node_obj) r) = Return tt →
     Deploy.deploy (deploy d)
       (in_progress host (uuid node_obj) r DEPLOYING DEPLOYDONE) = Raise e →
     P (Raise e,
        {| db := <[uuid node_obj :=
                     with_provision_state ERROR
                    (with_target_provision_state NOSTATE
                       (with_last_error (Some ("Failed to deploy. Error: " ++ exn_str e)) r))]>
                   (db w);
           calls := calls w ++ [db_reserve_node host (uuid node_obj);
                                deploy_validate (uuid node_obj);
                                db_update_node (uuid node_obj);
                                deploy_deploy (uuid node_obj);
                                db_update_node (uuid node_obj);
                                db_release_node host (uuid node_obj)] |})) →
  P (do_node_deploy host drivers node_obj w).
Proof.
  intros Hp Pvalidate Pdone Ppending Praises.
  assert (∃ o, Deploy.validate (deploy d)
                 (reserved host (uuid node_obj) r) = o)
    as [[[]|e] Hv] by eauto.
  - assert (∃ o, Deploy.deploy (deploy d)
                   (in_progress host (uuid node_obj) r DEPLOYING DEPLOYDONE) = o)
      as [[new_state|e] Hm] by eauto.
    + destruct (decide (new_state = DEPLOYDONE)) as [->|Hne].
      * rewrite (deploy_world_done Hp Hv Hm). exact (Pdone Hv Hm).
      * rewrite (deploy_world_pending new_state Hp Hv Hm Hne).
        exact (Ppending new_state Hv Hm Hne).
    + rewrite (deploy_world_raises e Hp Hv Hm). exact (Praises e Hv Hm).
  - rewrite (deploy_world_validate_raises e Hp Hv). exact (Pvalidate e Hv).
Qed.

Lemma tear_down_world_validate_raises e :
  provision_state r ∈ [ACTIVE; DEPLOYFAIL; ERROR] →
  Deploy.validate (deploy d) (reserved host (uuid node_obj) r) = Raise e →
  do_node_tear_down host drivers node_obj w =
    (Raise e,
     {| db := <[uuid node_obj :=
                  with_last_error (Some ("Failed to validate info for teardown. Error: " ++ exn_str e)) r]>
                (db w);
        calls := calls w ++ [db_reserve_node host (uuid node_obj);
                             deploy_validate (uuid node_obj);
                             db_update_node (uuid node_obj);
                             db_release_node host (uuid node_obj)] |}).
Proof.
  intros H0 H1. unfold do_node_tear_down. etransitivity.
  - in_task Hrow Hfree Hdrv;
      [ simpl; rewrite decide_False by (intros H; exact (H H0));
        run; rewrite H1; run; reflexivity
      | row_there | still_reserved ].
  - world_eq.
Qed.

Lemma tear_down_world_done :
  provision_state r ∈ [ACTIVE; DEPLOYFAIL; ERROR] →
  Deploy.validate (deploy d) (reserved host (uuid node_obj) r) = Return tt →
  Deploy.tear_down (deploy d)
    (in_progress host (uuid node_obj) r DELETING DELETED)
    = Return DELETED →
  do_node_tear_down host drivers node_obj w =
    (Return tt,
     {| db := <[uuid node_obj :=
                  with_provision_state NOSTATE
                    (with_target_provision_state NOSTATE
                       (with_last_error None r))]>
                (db w);
        calls := calls w ++ [db_reserve_node host (uuid node_obj);
                             deploy_validate (uuid node_obj);
                             db_update_node (uuid node_obj);
                             deploy_tear_down (uuid node_obj);
                             db_update_node (uuid node_obj);
                             db_release_node host (uuid node_obj)] |}).
Proof.
  intros H0 H1 H2. unfold do_node_tear_down. etransitivity.
  - in_task Hrow Hfree Hdrv;
      [ simpl; rewrite decide_False by (intros H; exact (H H0));
        run; rewrite H1; run;
        fold (in_progress host (uuid node_obj) r DELETING DELETED);
        rewrite H2; run; reflexivity
      | row_there | still_reserved ].
  - world_eq.
Qed.

Lemma tear_down_world_pending new_state :
  provision_state r ∈ [ACTIVE; DEPLOYFAIL; ERROR] →
  Deploy.validate (deploy d) (reserved host (uuid node_obj) r) = Return tt →
  Deploy.tear_down (deploy d)
    (in_progress host (uuid node_obj) r DELETING DELETED)
    = Return new_state →
  new_state ≠ DELETED →
  do_node_tear_down host drivers node_obj w =
    (Return tt,
     {| db := <[uuid node_obj :=
                  with_provision_state new_state
                    (with_target_provision_state DELETED
                       (with_last_error None r))]>
                (db w);
        calls := calls w ++ [db_reserve_node host (uuid node_obj);
                             deploy_validate (uuid node_obj);
                             db_update_node (uuid node_obj);
                             deploy_tear_down (uuid node_obj);
                             db_update_node (uuid node_obj);
                             db_release_node host (uuid node_obj)] |}).
Proof.
  intros H0 H1 H2 H3. unfold do_node_tear_down. etransitivity.
  - in_task Hrow Hfree Hdrv;
      [ simpl; rewrite decide_False by (intros H; exact (H H0));
        run; rewrite H1; run;
        fold (in_progress host (uuid node_obj) r DELETING DELETED);
        rewrite H2; run; rewrite decide_False by exact H3; run; reflexivity
      | row_there | still_reserved ].
  - world_eq.
Qed.

Lemma tear_down_world_raises e :
  provision_state r ∈ [ACTIVE; DEPLOYFAIL; ERROR] →
  Deploy.validate (deploy d) (reserved host (uuid node_obj) r) = Return tt →
  Deploy.tear_down (deploy d)
    (in_progress host (uuid node_obj) r DELETING DELETED) = Raise e →
  do_node_tear_down host drivers node_obj w =
    (Raise e,
     {| db := <[uuid node_obj :=
                  with_provision_state ERROR
                    (with_target_provision_state NOSTATE
                       (with_last_error (Some ("Failed to tear down. Error: " ++ exn_str e)) r))]>
                (db w);
        calls := calls w ++ [db_reserve_node host (uuid node_obj);
                             deploy_validate (uuid node_obj);
                             db_update_node (uuid node_obj);
                             deploy_tear_down (uuid node_obj);
                             db_update_node (uuid node_obj);
                             db_release_node host (uuid node_obj)] |}).
Proof.
  intros H0 H1 H2. unfold do_node_tear_down. etransitivity.
  - in_task Hrow Hfree Hdrv;
      [ simpl; rewrite decide_False by (intros H; exact (H H0));
        run; rewrite H1; run;
        fold (in_progress host (uuid node_obj) r DELETING DELETED);
        rewrite H2; run; reflexivity
      | row_there | still_reserved ].
  - world_eq.
Qed.

(** Every run of [do_node_tear_down] in an acquired task whose precondition holds is
    one of the four above. *)
Lemma tear_down_world_cases (P : outcome unit * world → Prop) :
  provision_state r ∈ [ACTIVE; DEPLOYFAIL; ERROR] →
  (∀ e,
     Deploy.validate (deploy d) (reserved host (uuid node_obj) r) = Raise e →
     P (Raise e,
        {| db := <[uuid node_obj :=
                     with_last_error (Some ("Failed to validate info for teardown. Error: " ++ exn_str e)) r]>
                   (db w);
           calls := calls w ++ [db_reserve_node host (uuid node_obj);
                                deploy_validate (uuid node_obj);
                                db_update_node (uuid node_obj);
                                db_release_node host (uuid node_obj)] |})) →
  (Deploy.validate (deploy d) (reserved host (uuid node_obj) r) = Return tt →
     Deploy.tear_down (deploy d)
       (in_progress host (uuid node_obj) r DELETING DELETED)
       = Return DELETED →
     P (Return tt,
        {| db := <[uuid node_obj :=
                     with_provision_state NOSTATE
                    (with_target_provision_state NOSTATE
                       (with_last_error None r))]>
                   (db w);
           calls := calls w ++ [db_reserve_node host (uuid node_obj);
                                deploy_validate (uuid node_obj);
                                db_update_node (uuid node_obj);
                                deploy_tear_down (uuid node_obj);
                                db_update_node (uuid node_obj);
                                db_release_node host (uuid node_obj)] |})) →
  (∀ new_state,
     Deploy.validate (deploy d) (reserved host (uuid node_obj) r) = Return tt →
     Deploy.tear_down (deploy d)
       (in_progress host (uuid node_obj) r DELETING DELETED)
       = Return new_state →
     new_state ≠ DELETED →
     P (Return tt,
        {| db := <[uuid node_obj :=
                     with_provision_state new_state
                    (with_target_provision_state DELETED
                       (with_last_error None r))]>
                   (db w);
           calls := calls w ++ [db_reserve_node host (uuid node_obj);
                                deploy_validate (uuid node_obj);
                                db_update_node (uuid node_obj);
                                deploy_tear_down (uuid node_obj);
                                db_update_node (uuid node_obj);
                                db_release_node host (uuid node_obj)] |})) →
  (∀ e,
     Deploy.validate (deploy d) (reserved host (uuid node_obj) r) = Return tt →
     Deploy.tear_down (deploy d)
       (in_progress host (uuid node_obj) r DELETING DELETED) = Raise e →
     P (Raise e,
        {| db := <[uuid node_obj :=
                     with_provision_state ERROR
                    (with_target_provision_state NOSTATE
                       (with_last_error (Some ("Failed to tear down. Error: " ++ exn_str e)) r))]>
                   (db w);
           calls := calls w ++ [db_reserve_node host (uuid node_obj);
                                deploy_validate (uuid node_obj);
                                db_update_node (uuid node_obj);
                                deploy_tear_down (uuid node_obj);
                                db_update_node (uuid node_obj);
                                db_release_node host (uuid node_obj)] |})) →
  P (do_node_tear_down host drivers node_obj w).
Proof.
  intros Hp Pvalidate Pdone Ppending Praises.
  assert (∃ o, Deploy.validate (deploy d)
                 (reserved host (uuid node_obj) r) = o)
    as [[[]|e] Hv] by eauto.
  - assert (∃ o, Deploy.tear_down (deploy d)
                   (in_progress host (uuid node_obj) r DELETING DELETED) = o)
      as [[new_state|e] Hm] by eauto.
    + destruct (decide (new_state = DELETED)) as [->|Hne].
      * rewrite (tear_down_world_done Hp Hv Hm). exact (Pdone Hv Hm).
      * rewrite (tear_down_world_pending new_state Hp Hv Hm Hne).
        exact (Ppending new_state Hv Hm Hne).
    + rewrite (tear_down_world_raises e Hp Hv Hm). exact (Praises e Hv Hm).
  - rewrite (tear_down_world_validate_raises e Hp Hv). exact (Pvalidate e Hv).
Qed.

End ProvisionWorlds.

(** ** Tasks that are not acquired *)

Section Refused.

Context (host : string) (drivers : gmap string Driver).

Lemma run_with_acquire_missing {A : Type} (body : Task → M A) w node_id
    shared driver_name :
  db w !! node_id = None →
  with_acquire host drivers node_id shared driver_name body w =
    (Raise (NodeNotFound node_id), w).
Proof.
  intros E. unfold with_acquire, acquire, reserve_node, get_node.
  destruct shared; rewrite !run_bind, E; reflexivity.
Qed.

Lemma run_with_acquire_no_driver {A : Type} (body : Task → M A) w node_id
    driver_name r :
  db w !! node_id = Some r → reservation r = None →
  drivers !! default (driver r) driver_name = None →
  with_acquire host drivers node_id false driver_name body w =
    (Raise (DriverNotFound (default (driver r) driver_name)),
     {| db := db w;
        calls := calls w ++ [db_reserve_node host node_id;
                             db_release_node host node_id] |}).
Proof.
  intros E Hres Hd. unfold with_acquire, acquire, reserve_node.
  rewrite !run_bind, (run_get_node _ _ _ E), Hres. simpl.
  unfold get_driver. rewrite run_bind, run_try, Hd. simpl.
  rewrite run_bind.
  erewrite run_release_node by (simpl; first [apply lookup_insert_eq | reflexivity]).
  unfold raise, store, log. simpl.
  rewrite (release_restores _ _ _ _ E Hres), <- app_assoc. reflexivity.
Qed.

Lemma run_with_acquire_shared_no_driver {A : Type} (body : Task → M A)
    w node_id r :
  db w !! node_id = Some r → drivers !! driver r = None →
  with_acquire host drivers node_id true None body w =
    (Raise (DriverNotFound (driver r)), w).
Proof.
  intros E Hd. unfold with_acquire, acquire.
  rewrite !run_bind, (run_get_node _ _ _ E).
  unfold get_driver. rewrite run_bind, run_try. simpl. rewrite Hd.
  reflexivity.
Qed.

End Refused.

(** ** Logs and footprints *)

Lemma new_calls_app (w : world) (db' : gmap string row) (l : list call) :
  new_calls w {| db := db'; calls := calls w ++ l |} = l.
Proof. unfold new_calls. simpl. apply drop_app_length. Qed.

Lemma new_calls_none (w : world) : new_calls w w = [].
Proof. unfold new_calls. apply drop_all. Qed.

Lemma footprint_refl (node_id : string) (w : world) : footprint node_id w w.
Proof. split; reflexivity. Qed.

Lemma footprint_same_db (node_id : string) (w : world) (l : list call) :
  footprint node_id w {| db := db w; calls := l |}.
Proof. split; reflexivity. Qed.

(** A task that wrote its own row and left its reservation as it was. *)
Lemma footprint_insert (node_id : string) (w : world) (r r' : row)
    (l : list call) :
  db w !! node_id = Some r → reservation r' = reservation r →
  footprint node_id w {| db := <[node_id := r']> (db w); calls := l |}.
Proof.
  intros Hrow Hres. split.
  - intros k Hk. simpl. apply lookup_insert_ne. congruence.
  - unfold stored. simpl. rewrite lookup_insert_eq, Hrow. simpl.
    rewrite Hres. reflexivity.
Qed.

(** ** Operations whose task is refused *)

Section RefusedOperations.

Context (host : string) (drivers : gmap string Driver).

Lemma change_node_power_state_refused (node_obj : Node) (new_state : state)
    (w : world) :
  (db w !! uuid node_obj = None →
   change_node_power_state host drivers node_obj new_state w
   = (Raise (NodeNotFound (uuid node_obj)), w))
  ∧ (∀ r holder,
       db w !! uuid node_obj = Some r → reservation r = Some holder →
       change_node_power_state host drivers node_obj new_state w
       = (Raise (NodeLocked (uuid node_obj) holder), w))
  ∧ (∀ r,
       db w !! uuid node_obj = Some r → reservation r = None →
       drivers !! driver r = None →
       change_node_power_state host drivers node_obj new_state w
       = (Raise (DriverNotFound (driver r)),
          {| db := db w;
             calls := calls w ++ [db_reserve_node host (uuid node_obj);
                                  db_release_node host (uuid node_obj)] |})).
Proof.
  unfold change_node_power_state. split; [|split]; intros.
  - apply run_with_acquire_missing. assumption.
  - eapply run_with_acquire_locked; eassumption.
  - apply (run_with_acquire_no_driver host drivers _ w _ None r); assumption.
Qed.

Lemma do_node_deploy_refused (node_obj : Node) (w : world) :
  (db w !! uuid node_obj = None →
   do_node_deploy host drivers node_obj w
   = (Raise (NodeNotFound (uuid node_obj)), w))
  ∧ (∀ r holder,
       db w !! uuid node_obj = Some r → reservation r = Some holder →
       do_node_deploy host drivers node_obj w
       = (Raise (NodeLocked (uuid node_obj) holder), w))
  ∧ (∀ r,
       db w !! uuid node_obj = Some r → reservation r = None →
       drivers !! driver r = None →
       do_node_deploy host drivers node_obj w
       = (Raise (DriverNotFound (driver r)),
          {| db := db w;
             calls := calls w ++ [db_reserve_node host (uuid node_obj);
                                  db_release_node host (uuid node_obj)] |})).
Proof.
  unfold do_node_deploy. split; [|split]; intros.
  - apply run_with_acquire_missing. assumption.
  - eapply run_with_acquire_locked; eassumption.
  - apply (run_with_acquire_no_driver host drivers _ w _ None r); assumption.
Qed.

Lemma do_node_tear_down_refused (node_obj : Node) (w : world) :
  (db w !! uuid node_obj = None →
   do_node_tear_down host drivers node_obj w
   = (Raise (NodeNotFound (uuid node_obj)), w))
  ∧ (∀ r holder,
       db w !! uuid node_obj = Some r → reservation r = Some holder →
       do_node_tear_down host drivers node_obj w
       = (Raise (NodeLocked (uuid node_obj) holder), w))
  ∧ (∀ r,
       db w !! uuid node_obj = Some r → reservation r = None →
       drivers !! driver r = None →
       do_node_tear_down host drivers node_obj w
       = (Raise (DriverNotFound (driver r)),
          {| db := db w;
             calls := calls w ++ [db_reserve_node host (uuid node_obj);
                                  db_release_node host (uuid node_obj)] |})).
Proof.
  unfold do_node_tear_down. split; [|split]; intros.
  - apply run_with_acquire_missing. assumption.
  - eapply run_with_acquire_locked; eassumption.
  - apply (run_with_acquire_no_driver host drivers _ w _ None r); assumption.
Qed.

Lemma update_node_refused (node_obj : Node) (w : world) :
  F_power_state ∉ obj_what_changed node_obj →
  (db w !! uuid node_obj = None →
   update_node host drivers node_obj w
   = (Raise (NodeNotFound (uuid node_obj)), w))
  ∧ (∀ r holder,
       db w !! uuid node_obj = Some r → reservation r = Some holder →
       update_node host drivers node_obj w
       = (Raise (NodeLocked (uuid node_obj) holder), w))
  ∧ (∀ r,
       db w !! uuid node_obj = Some r → reservation r = None →
       drivers !! default (driver r) (requested_driver node_obj) = None →
       update_node host drivers node_obj w
       = (Raise (DriverNotFound
                   (default (driver r) (requested_driver node_obj))),
          {| db := db w;
             calls := calls w ++ [db_reserve_node host (uuid node_obj);
                                  db_release_node host (uuid node_obj)] |})).
Proof.
  intros Hdelta. unfold update_node. rewrite decide_False by exact Hdelta.
  split; [|split]; intros.
  - apply run_with_acquire_missing. assumption.
  - eapply run_with_acquire_locked; eassumption.
  - apply (run_with_acquire_no_driver host drivers _ w _
             (requested_driver node_obj) r); assumption.
Qed.

End RefusedOperations.

(** ** [update_node]: the world it leaves when it saves *)



Section UpdateWorlds.

Context (host : string) (drivers : gmap string Driver).
Context (node_obj : Node) (w : world) (r : row) (d : Driver).
Context (Hdelta : F_power_state ∉ obj_what_changed node_obj)
        (Hlock : F_reservation ∉ obj_what_changed node_obj)
        (Hrow : db w !! uuid node_obj = Some r)
        (Hfree : reservation r = None)
        (Hdrv : drivers !! default (driver r) (requested_driver node_obj)
                = Some d).



End UpdateWorlds.

(** ** The shared operations *)

Section SharedWorlds.

Context (host : string) (drivers : gmap string Driver).
Context (node_id : string) (w : world) (r : row) (d : Driver).
Context (Hrow : db w !! node_id = Some r)
        (Hdrv : drivers !! driver r = Some d).

Lemma get_node_power_state_world :
  get_node_power_state host drivers node_id w =
    (Power.get_power_state (power d)
       {| uuid := node_id; fields := r; changed := ∅ |},
     {| db := db w; calls := calls w ++ [power_get_power_state node_id] |}).
Proof.
  unfold get_node_power_state.
  rewrite (run_with_acquire_shared host drivers _ w node_id r d Hrow Hdrv).
  simpl. apply run_invoke.
Qed.

Lemma vendor_action_worlds ext driver_method info :
  vendor d = Some ext →
  validate_vendor_action host drivers node_id driver_method info w =
    (Vendor.validate ext {| uuid := node_id; fields := r; changed := ∅ |}
       driver_method info,
     {| db := db w;
        calls := calls w ++ [vendor_validate node_id driver_method] |})
  ∧ do_vendor_action host drivers node_id driver_method info w =
      (Vendor.vendor_passthru ext
         {| uuid := node_id; fields := r; changed := ∅ |} driver_method info,
       {| db := db w;
          calls := calls w ++ [vendor_vendor_passthru node_id driver_method] |}).
Proof.
  intros Hext. unfold validate_vendor_action, do_vendor_action.
  rewrite !(run_with_acquire_shared host drivers _ w node_id r d Hrow Hdrv).
  simpl. rewrite Hext. split; apply run_invoke.
Qed.

End SharedWorlds.

(** ** [change_node_power_state]: every call that fails *)

Section FailedPowerChanges.

Context (host : string) (drivers : gmap string Driver).

(** C3, amended: the task of [change_node_power_state] is acquired when
    the node has a row, the row is not reserved and its driver is loaded.
    For every call that fails, the stored [power_state] is the one stored
    at entry.  When the task was acquired, the call failed because a
    driver call raised, and the stored [last_error] is non-null after the
    call.  When the task was not acquired ([NodeNotFound], [NodeLocked],
    [DriverNotFound]), the call has written nothing: the node table is
    the one at entry, so [last_error] keeps the value it had, which may
    be null. *)
Theorem change_node_power_state_driver_failure (node_obj : Node)
    (new_state : state) (w : world) (e : exn) (w' : world) :
  change_node_power_state host drivers node_obj new_state w = (Raise e, w') →
  stored power_state (uuid node_obj) w' = stored power_state (uuid node_obj) w
  ∧ (∀ r d,
       db w !! uuid node_obj = Some r →
       reservation r = None →
       drivers !! driver r = Some d →
       stored power_state (uuid node_obj) w' = Some (power_state r)
       ∧ ∃ message, stored last_error (uuid node_obj) w' = Some (Some message))
  ∧ (¬ (∃ r d, db w !! uuid node_obj = Some r
               ∧ reservation r = None
               ∧ drivers !! driver r = Some d) →
     db w' = db w).
Proof.
  intros Hrun.
  assert (∀ r d,
            db w !! uuid node_obj = Some r →
            reservation r = None →
            drivers !! driver r = Some d →
            stored power_state (uuid node_obj) w' = Some (power_state r)
            ∧ ∃ message,
                stored last_error (uuid node_obj) w' = Some (Some message))
    as Hacquired.
  { intros r d Hrow Hfree Hdrv.
    destruct (Power.validate (power d) (reserved host (uuid node_obj) r))
      as [[]|e1] eqn:Hv.
    - destruct (Power.get_power_state (power d)
                  (reserved host (uuid node_obj) r))
        as [curr_state|e1] eqn:Hg.
      + destruct (decide (curr_state = new_state)) as [->|Hne].
        * destruct (power_path_same_state host drivers node_obj new_state
                      w r d Hrow Hfree Hdrv Hv Hg) as (w2 & Hrun2 & _).
          rewrite Hrun2 in Hrun. discriminate.
        * destruct (Power.set_power_state (power d)
                      (power_pending host (uuid node_obj) r new_state)
                      new_state) as [[]|e1] eqn:Hs.
          -- destruct (power_path_set_returns host drivers node_obj
                         new_state w r d Hrow Hfree Hdrv curr_state
                         Hv Hg Hne Hs) as (w2 & Hrun2 & _).
             rewrite Hrun2 in Hrun. discriminate.
          -- destruct (power_path_set_raises host drivers node_obj
                         new_state w r d Hrow Hfree Hdrv curr_state e1
                         Hv Hg Hne Hs)
               as (w2 & Hrun2 & _ & Hp & _ & Herr).
             rewrite Hrun2 in Hrun. simplify_eq. eauto.
      + destruct (power_path_probe_raises host drivers node_obj new_state
                    w r d Hrow Hfree Hdrv e1 Hv Hg)
          as (w2 & Hrun2 & _ & Hp & _ & Herr).
        rewrite Hrun2 in Hrun. simplify_eq. eauto.
    - destruct (power_path_validate_raises host drivers node_obj new_state
                  w r d Hrow Hfree Hdrv e1 Hv)
        as (w2 & Hrun2 & _ & Hp & _ & Herr).
      rewrite Hrun2 in Hrun. simplify_eq. eauto. }
  assert ((∃ r d, db w !! uuid node_obj = Some r
                  ∧ reservation r = None
                  ∧ drivers !! driver r = Some d)
          ∨ db w' = db w) as [(r & d & Hrow & Hfree & Hdrv)|Hsame].
  { destruct (change_node_power_state_refused host drivers node_obj
                new_state w) as (Hmissing & Hlocked & Hnodrv).
    destruct (db w !! uuid node_obj) as [r|] eqn:Hrow.
    - destruct (reservation r) as [holder|] eqn:Hres.
      + right. rewrite (Hlocked r holder eq_refl Hres) in Hrun.
        by simplify_eq.
      + destruct (drivers !! driver r) as [d|] eqn:Hdrv.
        * left. by exists r, d.
        * right. rewrite (Hnodrv r eq_refl Hres Hdrv) in Hrun.
          by simplify_eq.
    - right. rewrite (Hmissing eq_refl) in Hrun. by simplify_eq. }
  - destruct (Hacquired r d Hrow Hfree Hdrv) as [Hp Herr].
    split; [|split].
    + rewrite Hp. unfold stored. rewrite Hrow. reflexivity.
    + exact Hacquired.
    + intros Hno. exfalso. apply Hno. by exists r, d.
  - split; [|split].
    + unfold stored. rewrite Hsame. reflexivity.
    + exact Hacquired.
    + intros _. exact Hsame.
Qed.

End FailedPowerChanges.

(** C3, amended, at [test_change_node_power_state_set_power_failure]. *)
Lemma change_node_power_state_driver_failure_witness :
  change_node_power_state test_host
    (loaded (fake_set_power_failure POWER_OFF))
    (get_by_uuid (unassociated POWER_OFF)) POWER_ON
    (create_node (unassociated POWER_OFF))
  = (Raise (IronicException "An unknown exception occurred."),
     (change_node_power_state test_host
        (loaded (fake_set_power_failure POWER_OFF))
        (get_by_uuid (unassociated POWER_OFF)) POWER_ON
        (create_node (unassociated POWER_OFF))).2)
  ∧ stored power_state (uuid (get_by_uuid (unassociated POWER_OFF)))
      (change_node_power_state test_host
         (loaded (fake_set_power_failure POWER_OFF))
         (get_by_uuid (unassociated POWER_OFF)) POWER_ON
         (create_node (unassociated POWER_OFF))).2
    = stored power_state (uuid (get_by_uuid (unassociated POWER_OFF)))
        (create_node (unassociated POWER_OFF))
  ∧ (∀ r d,
       db (create_node (unassociated POWER_OFF))
         !! uuid (get_by_uuid (unassociated POWER_OFF)) = Some r →
       reservation r = None →
       loaded (fake_set_power_failure POWER_OFF) !! driver r = Some d →
       stored power_state (uuid (get_by_uuid (unassociated POWER_OFF)))
         (change_node_power_state test_host
            (loaded (fake_set_power_failure POWER_OFF))
            (get_by_uuid (unassociated POWER_OFF)) POWER_ON
            (create_node (unassociated POWER_OFF))).2
       = Some (power_state r)
       ∧ ∃ message,
           stored last_error (uuid (get_by_uuid (unassociated POWER_OFF)))
             (change_node_power_state test_host
                (loaded (fake_set_power_failure POWER_OFF))
                (get_by_uuid (unassociated POWER_OFF)) POWER_ON
                (create_node (unassociated POWER_OFF))).2
           = Some (Some message))
  ∧ (¬ (∃ r d,
          db (create_node (unassociated POWER_OFF))
            !! uuid (get_by_uuid (unassociated POWER_OFF)) = Some r
          ∧ reservation r = None
          ∧ loaded (fake_set_power_failure POWER_OFF) !! driver r = Some d) →
     db (change_node_power_state test_host
           (loaded (fake_set_power_failure POWER_OFF))
           (get_by_uuid (unassociated POWER_OFF)) POWER_ON
           (create_node (unassociated POWER_OFF))).2
     = db (create_node (unassociated POWER_OFF))).
Proof.
  split; [vm_compute; reflexivity|].
  apply (change_node_power_state_driver_failure test_host
           (loaded (fake_set_power_failure POWER_OFF))
           (get_by_uuid (unassociated POWER_OFF)) POWER_ON
           (create_node (unassociated POWER_OFF))
           (IronicException "An unknown exception occurred.")).
  vm_compute. reflexivity.
Defined.

(** * The client side of the RPC API *)

Section RpcClient.

Context (host : string) (drivers : gmap string Driver).

Lemma run_replying {A : Type} (wrap : A → rpc.value) (m : M A) (w : world) :
  rpc.replying wrap m w =
    (match (m w).1 with
     | Return a => Return (wrap a)
     | Raise e => Raise e
     end, (m w).2).
Proof.
  unfold rpc.replying. rewrite run_bind. destruct (m w) as [[a|e] w'];
    reflexivity.
Qed.

(** A cast gives nothing back, whatever the handler did. *)
Lemma run_cast (msg : rpc.message) (w : world) :
  rpc.cast host drivers msg w = (Return tt, (rpc.call host drivers msg w).2).
Proof.
  unfold rpc.cast. rewrite run_bind, run_try. reflexivity.
Qed.

End RpcClient.

(** * The chassis controller *)

Section ChassisPatch.

Import chassis.

Context (chassis_dict : gmap string json).

(** One iteration on a field that is set: the document has the key, the
    object holds the document's value, and the field is marked when that
    value is not the one it held. *)
Lemma merge_key_set (key : string) (dflt current : json)
    (p : gmap string json) (c : Chassis) :
  key ∉ internal →
  is_Some (chassis_dict !! key) →
  attrs c !! key = Some current →
  let new := default dflt (p !! key) in
  ∃ c',
    merge_key chassis_dict key dflt (p, c) = Some (<[key := new]> p, c')
    ∧ attrs c' = <[key := new]> (attrs c)
    ∧ (∀ k, k ∈ changes c' ↔ k ∈ changes c ∨ (k = key ∧ current ≠ new)).
Proof.
  intros Hint Hdict Hcur new. unfold merge_key.
  rewrite decide_False by done.
  unfold getitem. rewrite Hcur. simpl.
  assert ((if decide (is_Some (chassis_dict !! key) ∧ p !! key = None)
           then <[key := dflt]> p else p) = <[key := new]> p) as ->.
  { subst new. destruct (p !! key) as [v|] eqn:Hp; simpl.
    - rewrite decide_False by (intros [_ ?]; done).
      by rewrite insert_id.
    - by rewrite decide_True. }
  rewrite lookup_insert_eq. simpl.
  destruct (decide (current ≠ new)) as [Hne|Heq].
  - eexists. split; [reflexivity|]. split; [done|].
    intros k. simpl. rewrite elem_of_union, elem_of_singleton.
    split; [intros [->|?]; [right|left]; done|].
    intros [?|[-> _]]; [right|left]; done.
  - apply dec_stable in Heq. subst current.
    eexists. split; [reflexivity|].
    split; [by rewrite insert_id|].
    intros k. split; [by left|]. by intros [?|[_ []]].
Qed.

(** An iteration leaves the fields of the other keys, and of an internal
    key, as they are. *)
Lemma merge_key_other (key k : string) (dflt : json)
    (p p' : gmap string json) (c c' : Chassis) :
  merge_key chassis_dict key dflt (p, c) = Some (p', c') →
  k ∈ internal ∨ k ≠ key →
  attrs c' !! k = attrs c !! k ∧ (k ∈ changes c' ↔ k ∈ changes c).
Proof.
  unfold merge_key. intros Hrun Hk.
  destruct (decide (key ∈ internal)) as [Hint|Hint].
  { by simplify_eq. }
  assert (k ≠ key) as Hne by (destruct Hk; congruence).
  destruct (getitem c key) as [current|]; simpl in Hrun; [|done].
  match type of Hrun with
  | context [ ?q !! key ] =>
      destruct (q !! key) as [patched|]; simpl in Hrun; [|done]
  end.
  destruct (decide (current ≠ patched)); simplify_eq; [|done].
  simpl. rewrite lookup_insert_ne by done.
  rewrite elem_of_union, elem_of_singleton. split; [done|].
  split; [by intros [?|?]|by right].
Qed.

Lemma default_of_cons (key k : string) (dflt : json)
    (defaults : list (string * json)) :
  default_of ((key, dflt) :: defaults) k =
    if decide (key = k ∧ k ∉ internal) then Some dflt
    else default_of defaults k.
Proof. reflexivity. Qed.

Lemma merge_cons (key : string) (dflt : json)
    (defaults : list (string * json)) (st : gmap string json * Chassis) :
  merge chassis_dict ((key, dflt) :: defaults) st =
    merge_key chassis_dict key dflt st ≫= merge chassis_dict defaults.
Proof. reflexivity. Qed.

(** The loop on an object that has every field it looks at. *)
Lemma merge_set (defaults : list (string * json)) :
  ∀ (p : gmap string json) (c : Chassis),
    Forall (λ item, item.1 ∈ internal
                    ∨ (is_Some (chassis_dict !! item.1)
                       ∧ is_Some (attrs c !! item.1))) defaults →
    ∃ p' c',
      merge chassis_dict defaults (p, c) = Some (p', c')
      ∧ (∀ k, attrs c' !! k =
               match default_of defaults k with
               | Some dflt => Some (default dflt (p !! k))
               | None => attrs c !! k
               end)
      ∧ (∀ k, k ∈ changes c'
               ↔ k ∈ changes c ∨ attrs c' !! k ≠ attrs c !! k).
Proof.
  induction defaults as [|[key dflt] defaults IH]; intros p c Hset.
  { exists p, c. split; [done|]. split; [done|].
    intros k. split; [by left|]. by intros [?|?]. }
  apply Forall_cons in Hset as [Hkey Hset]. simpl in Hkey.
  destruct (decide (key ∈ internal)) as [Hint|Hint].
  - destruct (IH p c Hset) as (p' & c' & Hrun & Hval & Hch).
    exists p', c'. split.
    { rewrite merge_cons. unfold merge_key. rewrite decide_True by done.
      exact Hrun. }
    split; [|exact Hch].
    intros k. rewrite default_of_cons, Hval.
    destruct (decide (key = k ∧ k ∉ internal)) as [[-> ?]|]; done.
  - destruct Hkey as [?|[Hdict [current Hcur]]]; [done|].
    destruct (merge_key_set key dflt current p c Hint Hdict Hcur)
      as (c1 & Hstep & Hattrs & Hmark).
    set (new := default dflt (p !! key)) in *.
    destruct (IH (<[key := new]> p) c1) as (p' & c' & Hrun & Hval & Hch).
    { eapply Forall_impl; [exact Hset|]. intros [k d]; simpl.
      intros [?|[? Hk]]; [by left|right]. split; [done|].
      rewrite Hattrs. apply lookup_insert_is_Some'. by right. }
    exists p', c'. split.
    { rewrite merge_cons, Hstep. exact Hrun. }
    assert (∀ k, k ≠ key → attrs c1 !! k = attrs c !! k) as Hother.
    { intros k Hk. rewrite Hattrs. by apply lookup_insert_ne. }
    assert (attrs c1 !! key = Some new) as Hnew.
    { rewrite Hattrs. apply lookup_insert_eq. }
    assert (attrs c' !! key = Some new) as Hkept.
    { rewrite Hval, lookup_insert_eq. simpl.
      by destruct (default_of defaults key). }
    split.
    + intros k. rewrite default_of_cons.
      destruct (decide (key = k ∧ k ∉ internal)) as [[<- _]|Hk].
      * exact Hkept.
      * destruct (decide (k = key)) as [->|Hne].
        { exfalso. apply Hk. done. }
        rewrite Hval, lookup_insert_ne, Hother by done. done.
    + intros k. rewrite Hch, Hmark.
      destruct (decide (k = key)) as [->|Hne].
      * rewrite Hkept, Hnew, Hcur. split.
        { intros [[?|[_ ?]]|?]; [by left|right; congruence|done]. }
        intros [?|?]; [by left; left|].
        left; right. split; [done|congruence].
      * rewrite Hother by done. split.
        { intros [[?|[? _]]|?]; [by left|done|by right]. }
        intros [?|?]; [by left; left|by right].
Qed.

(** The loop, when it ends, on the other fields. *)
Lemma merge_other (defaults : list (string * json)) (k : string) :
  k ∈ internal ∨ k ∉ defaults.*1 →
  ∀ (p p' : gmap string json) (c c' : Chassis),
    merge chassis_dict defaults (p, c) = Some (p', c') →
    attrs c' !! k = attrs c !! k ∧ (k ∈ changes c' ↔ k ∈ changes c).
Proof.
  induction defaults as [|[key dflt] defaults IH]; intros Hk p p' c c' Hrun.
  { by simplify_eq/=. }
  rewrite merge_cons in Hrun.
  destruct (merge_key chassis_dict key dflt (p, c)) as [[p1 c1]|] eqn:Hstep;
    simpl in Hrun; [|done].
  destruct (merge_key_other key k dflt p p1 c c1 Hstep) as [Ha Hc].
  { destruct Hk as [?|Hk]; [by left|right].
    intros ->. apply Hk. simpl. apply list_elem_of_here. }
  destruct (IH) with (p := p1) (p' := p') (c := c1) (c' := c')
    as [Ha' Hc']; [|done|].
  { destruct Hk as [?|Hk]; [by left|right].
    intros Hin. apply Hk. simpl. by apply list_elem_of_further. }
  rewrite Ha', Hc'. done.
Qed.

Lemma default_of_set (defaults : list (string * json)) (c : Chassis)
    (k : string) (dflt : json) :
  fields_set defaults c →
  default_of defaults k = Some dflt →
  is_Some (attrs c !! k).
Proof.
  unfold fields_set.
  induction defaults as [|[key d] defaults IH]; intros Hset Hd; [done|].
  apply Forall_cons in Hset as [Hkey Hset]. simpl in Hkey.
  rewrite default_of_cons in Hd.
  destruct (decide (key = k ∧ k ∉ internal)) as [[-> Hint]|]; [|by apply IH].
  by destruct Hkey.
Qed.

End ChassisPatch.

Section ChassisPatched.

Import chassis.

Lemma fields_set_merge (defaults : list (string * json)) (c : Chassis) :
  fields_set defaults c →
  Forall (λ item, item.1 ∈ internal
                  ∨ (is_Some (as_dict c !! item.1)
                     ∧ is_Some (attrs c !! item.1))) defaults.
Proof.
  unfold fields_set, as_dict. intros Hset.
  eapply Forall_impl; [exact Hset|].
  intros item [?|?]; [by left|by right].
Qed.

Lemma patch_fields_set (defaults : list (string * json)) (c : Chassis)
    (p : gmap string json) :
  fields_set defaults c →
  ∃ c',
    patch_fields defaults c p = Some c'
    ∧ (∀ k, attrs c' !! k =
             match default_of defaults k with
             | Some dflt => Some (default dflt (p !! k))
             | None => attrs c !! k
             end)
    ∧ (∀ k, k ∈ changes c'
             ↔ k ∈ changes c ∨ attrs c' !! k ≠ attrs c !! k).
Proof.
  intros Hset.
  destruct (merge_set (as_dict c) defaults p c (fields_set_merge _ _ Hset))
    as (p' & c' & Hrun & Hval & Hch).
  exists c'. unfold patch_fields. rewrite Hrun. done.
Qed.

End ChassisPatched.

Section ChassisDetail.

Import chassis.

Lemma pieces_app (sep : Ascii.ascii) (a b : string) :
  pieces sep (a +:+ String sep b) =
    ((pieces sep a).1, ((pieces sep a).2 ++ split sep b)%list).
Proof.
  induction a as [|c a IH]; simpl.
  - unfold split. destruct (pieces sep b) as [piece others].
    by rewrite decide_True.
  - rewrite IH. destruct (pieces sep a) as [piece others]. simpl.
    by destruct (decide (c = sep)).
Qed.

Lemma split_app (sep : Ascii.ascii) (a b : string) :
  split sep (a +:+ String sep b) = (split sep a ++ split sep b)%list.
Proof.
  unfold split at 1 2. rewrite pieces_app.
  by destruct (pieces sep a) as [piece others].
Qed.

Lemma split_free_of (sep : Ascii.ascii) (s : string) :
  free_of sep s = true → split sep s = [s].
Proof.
  unfold split. induction s as [|c s IH]; simpl; [done|].
  intros [Hc Hs]%andb_prop. apply bool_decide_eq_true in Hc.
  specialize (IH Hs). destruct (pieces sep s) as [piece others].
  rewrite decide_False by done. by simplify_eq.
Qed.

Lemma parent_path (prefix name leaf : string) :
  free_of slash name = true →
  free_of slash leaf = true →
  parent (prefix +:+ "/" +:+ name +:+ "/" +:+ leaf) = Some name.
Proof.
  intros Hname Hleaf. unfold parent.
  change ("/" +:+ name +:+ "/" +:+ leaf)
    with (String slash (name +:+ String slash leaf)).
  rewrite !split_app, (split_free_of _ _ Hname), (split_free_of _ _ Hleaf).
  rewrite (assoc_L (++)%list), removelast_last.
  apply last_snoc.
Qed.

End ChassisDetail.

(** * Further properties, stated *)

(** A hypothesis at a concrete input, by evaluation. *)
Ltac by_evaluation :=
  first
    [ reflexivity
    | vm_compute; reflexivity
    | vm_compute; let H := fresh in intros H; discriminate H
    | solve [ vm_compute;
              repeat first [ apply list_elem_of_here
                           | apply list_elem_of_further ] ]
    | left; vm_compute; reflexivity
    | right; vm_compute; split; reflexivity
    | apply (bool_decide_unpack _); vm_compute; reflexivity ].

(** A call that is not in a given log. *)
Ltac not_called :=
  let Hin := fresh "Hin" in
  intros Hin;
  repeat (apply elem_of_cons in Hin as [Hin|Hin]; [discriminate Hin|]);
  by apply elem_of_nil in Hin.

Import fixtures.

(** X1: when the task is acquired, the node validates, and the probed state
    differs from [new_state], a [set_power_state] that returns leaves the
    node stored with [power_state = new_state], [target_power_state =
    NOSTATE] and a null [last_error], unreserved; [set_power_state] was
    called once, between two saves. *)
Theorem power_transition_succeeds
    (host : string) (drivers : gmap string Driver)
    (node_obj : Node) (new_state : state) (w : world) (r : row)
    (d : Driver) (curr_state : state) :
  db w !! uuid node_obj = Some r →
  reservation r = None →
  drivers !! driver r = Some d →
  Power.validate (power d) (reserved host (uuid node_obj) r) = Return tt →
  Power.get_power_state (power d) (reserved host (uuid node_obj) r)
    = Return curr_state →
  curr_state ≠ new_state →
  Power.set_power_state (power d)
    (power_pending host (uuid node_obj) r new_state) new_state = Return tt →
  change_node_power_state host drivers node_obj new_state w =
    (Return tt,
     {| db := <[uuid node_obj :=
                  with_power_state new_state
                    (with_target_power_state NOSTATE
                       (with_last_error None r))]>
                (db w);
        calls := calls w ++ [db_reserve_node host (uuid node_obj);
                             power_validate (uuid node_obj);
                             power_get_power_state (uuid node_obj);
                             db_update_node (uuid node_obj);
                             power_set_power_state (uuid node_obj) new_state;
                             db_update_node (uuid node_obj);
                             db_release_node host (uuid node_obj)] |}).
Proof.
  intros Hrow Hfree Hdrv.
  exact (power_world_set_returns host drivers node_obj new_state w r d
           Hrow Hfree Hdrv curr_state).
Qed.

(** X2: in the same situation, a [set_power_state] that raises has its
    exception re-raised; the node is stored with its [power_state] as
    before, [target_power_state = NOSTATE] and the failure message in
    [last_error], unreserved. *)
Theorem power_action_failure
    (host : string) (drivers : gmap string Driver)
    (node_obj : Node) (new_state : state) (w : world) (r : row)
    (d : Driver) (curr_state : state) (e : exn) :
  db w !! uuid node_obj = Some r →
  reservation r = None →
  drivers !! driver r = Some d →
  Power.validate (power d) (reserved host (uuid node_obj) r) = Return tt →
  Power.get_power_state (power d) (reserved host (uuid node_obj) r)
    = Return curr_state →
  curr_state ≠ new_state →
  Power.set_power_state (power d)
    (power_pending host (uuid node_obj) r new_state) new_state = Raise e →
  change_node_power_state host drivers node_obj new_state w =
    (Raise e,
     {| db := <[uuid node_obj :=
                  with_target_power_state NOSTATE
                    (with_last_error (Some (power_failure new_state e)) r)]>
                (db w);
        calls := calls w ++ [db_reserve_node host (uuid node_obj);
                             power_validate (uuid node_obj);
                             power_get_power_state (uuid node_obj);
                             db_update_node (uuid node_obj);
                             power_set_power_state (uuid node_obj) new_state;
                             db_update_node (uuid node_obj);
                             db_release_node host (uuid node_obj)] |}).
Proof.
  intros Hrow Hfree Hdrv.
  exact (power_world_set_raises host drivers node_obj new_state w r d
           Hrow Hfree Hdrv curr_state e).
Qed.

(** X3: when the task is acquired and [power.validate] raises, or
    [get_power_state] raises after it, [change_node_power_state] raises
    the same exception; the only column written is [last_error] (so a
    target left by an earlier call stays), and [set_power_state] is not
    called. *)
Theorem power_probe_failure
    (host : string) (drivers : gmap string Driver)
    (node_obj : Node) (new_state : state) (w : world) (r : row)
    (d : Driver) (e : exn) :
  db w !! uuid node_obj = Some r →
  reservation r = None →
  drivers !! driver r = Some d →
  (Power.validate (power d) (reserved host (uuid node_obj) r) = Raise e
   ∨ Power.validate (power d) (reserved host (uuid node_obj) r) = Return tt
     ∧ Power.get_power_state (power d) (reserved host (uuid node_obj) r) = Raise e) →
  ∃ w',
    change_node_power_state host drivers node_obj new_state w = (Raise e, w')
    ∧ db w' =
        <[uuid node_obj :=
            with_last_error (Some (power_failure new_state e)) r]> (db w)
    ∧ (∀ pstate,
         power_set_power_state (uuid node_obj) pstate ∉ new_calls w w').
Proof.
  intros Hrow Hfree Hdrv [Hv|[Hv Hg]]; eexists.
  - split.
    + exact (power_world_validate_raises host drivers node_obj new_state w r d
               Hrow Hfree Hdrv e Hv).
    + split; [reflexivity|]. intros pstate. rewrite new_calls_app. not_called.
  - split.
    + exact (power_world_probe_raises host drivers node_obj new_state w r d
               Hrow Hfree Hdrv e Hv Hg).
    + split; [reflexivity|]. intros pstate. rewrite new_calls_app. not_called.
Qed.

(** X4: [change_node_power_state] calls the driver's [set_power_state] only
    with [new_state], and only in an acquired task whose node validated
    and whose probed state differs from [new_state]. *)
Theorem set_power_state_discipline
    (host : string) (drivers : gmap string Driver)
    (node_obj : Node) (new_state : state) (w : world) (pstate : state) :
  power_set_power_state (uuid node_obj) pstate
    ∈ new_calls w
        (change_node_power_state host drivers node_obj new_state w).2 →
  pstate = new_state
  ∧ ∃ r d curr_state,
      db w !! uuid node_obj = Some r
      ∧ reservation r = None
      ∧ drivers !! driver r = Some d
      ∧ Power.validate (power d) (reserved host (uuid node_obj) r) = Return tt
      ∧ Power.get_power_state (power d) (reserved host (uuid node_obj) r)
        = Return curr_state
      ∧ curr_state ≠ new_state.
Proof.
  destruct (change_node_power_state_refused host drivers node_obj new_state w)
    as (Hmissing & Hlocked & Hnodriver).
  destruct (db w !! uuid node_obj) as [r|] eqn:Hrow.
  - destruct (reservation r) as [holder|] eqn:Hfree.
    + rewrite (Hlocked r holder eq_refl Hfree). simpl.
      rewrite new_calls_none. not_called.
    + destruct (drivers !! driver r) as [d|] eqn:Hdrv.
      * pattern (change_node_power_state host drivers node_obj new_state w).
        apply (power_world_cases host drivers node_obj new_state w r d
                 Hrow Hfree Hdrv);
          intros;
          match goal with
          | Hin : _ ∈ _ |- _ =>
              cbv beta iota delta [snd] in Hin; rewrite new_calls_app in Hin;
              repeat (apply elem_of_cons in Hin as [Hin|Hin];
                      [ first [ discriminate Hin
                              | injection Hin as ->;
                                split; [reflexivity|];
                                eexists _, _, _;
                                repeat split; first [reflexivity|eassumption] ]
                      | ]);
              by apply elem_of_nil in Hin
          end.
      * rewrite (Hnodriver r eq_refl Hfree Hdrv). simpl.
        rewrite new_calls_app. not_called.
  - rewrite (Hmissing eq_refl). simpl. rewrite new_calls_none. not_called.
Qed.

(** X5: when the task is acquired on a node in [NOSTATE] that validates and
    the driver's [deploy] raises, [do_node_deploy] re-raises the exception
    and leaves the node stored with [provision_state = ERROR],
    [target_provision_state = NOSTATE] and the failure in [last_error]. *)
Theorem do_node_deploy_driver_failure
    (host : string) (drivers : gmap string Driver)
    (node_obj : Node) (w : world) (r : row) (d : Driver) (e : exn) :
  db w !! uuid node_obj = Some r →
  reservation r = None →
  drivers !! driver r = Some d →
  provision_state r = NOSTATE →
  Deploy.validate (deploy d) (reserved host (uuid node_obj) r) = Return tt →
  Deploy.deploy (deploy d)
    (in_progress host (uuid node_obj) r DEPLOYING DEPLOYDONE) = Raise e →
  do_node_deploy host drivers node_obj w =
    (Raise e,
     {| db := <[uuid node_obj :=
                  errored ("Failed to deploy. Error: " ++ exn_str e) r]>
                (db w);
        calls := calls w ++ [db_reserve_node host (uuid node_obj);
                             deploy_validate (uuid node_obj);
                             db_update_node (uuid node_obj);
                             deploy_deploy (uuid node_obj);
                             db_update_node (uuid node_obj);
                             db_release_node host (uuid node_obj)] |}).
Proof.
  intros Hrow Hfree Hdrv.
  exact (deploy_world_raises host drivers node_obj w r d Hrow Hfree Hdrv e).
Qed.

(** X6: when the task is acquired on a node in [ACTIVE], [DEPLOYFAIL] or
    [ERROR] that validates and the driver's [tear_down] returns a state,
    [do_node_tear_down] returns; on [DELETED] the node is stored with
    [provision_state = NOSTATE] and [target_provision_state = NOSTATE],
    otherwise with the returned state and the target kept at [DELETED];
    [last_error] is null either way. *)
Theorem do_node_tear_down_returned_state
    (host : string) (drivers : gmap string Driver)
    (node_obj : Node) (w : world) (r : row) (d : Driver)
    (new_state : state) :
  db w !! uuid node_obj = Some r →
  reservation r = None →
  drivers !! driver r = Some d →
  provision_state r ∈ [ACTIVE; DEPLOYFAIL; ERROR] →
  Deploy.validate (deploy d) (reserved host (uuid node_obj) r) = Return tt →
  Deploy.tear_down (deploy d)
    (in_progress host (uuid node_obj) r DELETING DELETED)
    = Return new_state →
  (new_state = DELETED →
   do_node_tear_down host drivers node_obj w =
     (Return tt,
      {| db := <[uuid node_obj :=
                   with_provision_state NOSTATE
                    (with_target_provision_state NOSTATE
                       (with_last_error None r))]>
                 (db w);
         calls := calls w ++ [db_reserve_node host (uuid node_obj);
                              deploy_validate (uuid node_obj);
                              db_update_node (uuid node_obj);
                              deploy_tear_down (uuid node_obj);
                              db_update_node (uuid node_obj);
                              db_release_node host (uuid node_obj)] |}))
  ∧ (new_state ≠ DELETED →
     do_node_tear_down host drivers node_obj w =
       (Return tt,
        {| db := <[uuid node_obj :=
                     with_provision_state new_state
                    (with_target_provision_state DELETED
                       (with_last_error None r))]>
                   (db w);
           calls := calls w ++ [db_reserve_node host (uuid node_obj);
                                deploy_validate (uuid node_obj);
                                db_update_node (uuid node_obj);
                                deploy_tear_down (uuid node_obj);
                                db_update_node (uuid node_obj);
                                db_release_node host (uuid node_obj)] |})).
Proof.
  intros Hrow Hfree Hdrv Hp Hv Hm. split.
  - intros ->.
    exact (tear_down_world_done host drivers node_obj w r d Hrow Hfree Hdrv
             Hp Hv Hm).
  - intros Hne.
    exact (tear_down_world_pending host drivers node_obj w r d Hrow Hfree
             Hdrv new_state Hp Hv Hm Hne).
Qed.

(** X7: when the driver's [tear_down] raises, [do_node_tear_down] re-raises
    the exception and leaves the node stored with [provision_state =
    ERROR], [target_provision_state = NOSTATE] and the failure in
    [last_error]. *)
Theorem do_node_tear_down_driver_failure
    (host : string) (drivers : gmap string Driver)
    (node_obj : Node) (w : world) (r : row) (d : Driver) (e : exn) :
  db w !! uuid node_obj = Some r →
  reservation r = None →
  drivers !! driver r = Some d →
  provision_state r ∈ [ACTIVE; DEPLOYFAIL; ERROR] →
  Deploy.validate (deploy d) (reserved host (uuid node_obj) r) = Return tt →
  Deploy.tear_down (deploy d)
    (in_progress host (uuid node_obj) r DELETING DELETED) = Raise e →
  do_node_tear_down host drivers node_obj w =
    (Raise e,
     {| db := <[uuid node_obj :=
                  errored ("Failed to tear down. Error: " ++ exn_str e) r]>
                (db w);
        calls := calls w ++ [db_reserve_node host (uuid node_obj);
                             deploy_validate (uuid node_obj);
                             db_update_node (uuid node_obj);
                             deploy_tear_down (uuid node_obj);
                             db_update_node (uuid node_obj);
                             db_release_node host (uuid node_obj)] |}).
Proof.
  intros Hrow Hfree Hdrv.
  exact (tear_down_world_raises host drivers node_obj w r d Hrow Hfree Hdrv
           e).
Qed.

(** X8: on a node reserved by some conductor, [update_node] (with no
    [power_state] in the delta), [change_node_power_state],
    [do_node_deploy] and [do_node_tear_down] raise [NodeLocked] naming the
    holder, and the world is as before: nothing is written, no driver is
    called. *)
Theorem exclusive_operations_locked
    (host : string) (drivers : gmap string Driver)
    (node_obj : Node) (new_state : state) (w : world) (r : row)
    (holder : string) :
  db w !! uuid node_obj = Some r →
  reservation r = Some holder →
  (F_power_state ∉ obj_what_changed node_obj →
   update_node host drivers node_obj w = (Raise (NodeLocked (uuid node_obj) holder), w))
  ∧ change_node_power_state host drivers node_obj new_state w
    = (Raise (NodeLocked (uuid node_obj) holder), w)
  ∧ do_node_deploy host drivers node_obj w = (Raise (NodeLocked (uuid node_obj) holder), w)
  ∧ do_node_tear_down host drivers node_obj w = (Raise (NodeLocked (uuid node_obj) holder), w).
Proof.
  intros Hrow Hlocked. split; [|split; [|split]].
  - intros Hdelta.
    destruct (update_node_refused host drivers node_obj w Hdelta)
      as (_ & H & _).
    exact (H r holder Hrow Hlocked).
  - destruct (change_node_power_state_refused host drivers node_obj
                new_state w) as (_ & H & _).
    exact (H r holder Hrow Hlocked).
  - destruct (do_node_deploy_refused host drivers node_obj w) as (_ & H & _).
    exact (H r holder Hrow Hlocked).
  - destruct (do_node_tear_down_refused host drivers node_obj w)
      as (_ & H & _).
    exact (H r holder Hrow Hlocked).
Qed.

(** X9: on a node that is not in the database every operation raises
    [NodeNotFound] and leaves the world as it was. *)
Theorem operations_node_not_found
    (host : string) (drivers : gmap string Driver)
    (node_obj : Node) (new_state : state) (w : world)
    (driver_method : string) (info : gmap string string) :
  db w !! uuid node_obj = None →
  get_node_power_state host drivers (uuid node_obj) w = (Raise (NodeNotFound (uuid node_obj)), w)
  ∧ (F_power_state ∉ obj_what_changed node_obj →
     update_node host drivers node_obj w = (Raise (NodeNotFound (uuid node_obj)), w))
  ∧ change_node_power_state host drivers node_obj new_state w
    = (Raise (NodeNotFound (uuid node_obj)), w)
  ∧ validate_vendor_action host drivers (uuid node_obj) driver_method info w
    = (Raise (NodeNotFound (uuid node_obj)), w)
  ∧ do_vendor_action host drivers (uuid node_obj) driver_method info w
    = (Raise (NodeNotFound (uuid node_obj)), w)
  ∧ do_node_deploy host drivers node_obj w = (Raise (NodeNotFound (uuid node_obj)), w)
  ∧ do_node_tear_down host drivers node_obj w = (Raise (NodeNotFound (uuid node_obj)), w).
Proof.
  intros Hmissing.
  split; [apply run_with_acquire_missing, Hmissing|].
  split.
  { intros Hdelta.
    destruct (update_node_refused host drivers node_obj w Hdelta) as (H & _).
    exact (H Hmissing). }
  split.
  { destruct (change_node_power_state_refused host drivers node_obj
                new_state w) as (H & _).
    exact (H Hmissing). }
  split; [apply run_with_acquire_missing, Hmissing|].
  split; [apply run_with_acquire_missing, Hmissing|].
  split.
  - destruct (do_node_deploy_refused host drivers node_obj w) as (H & _).
    exact (H Hmissing).
  - destruct (do_node_tear_down_refused host drivers node_obj w) as (H & _).
    exact (H Hmissing).
Qed.

(** X10: [update_node] with [driver] in the delta has the task resolve the
    new driver name; when no such driver is loaded the call raises
    [DriverNotFound] for that name, the reservation taken is released and
    the node table is as before: the change of driver is not saved. *)
Theorem update_node_unknown_driver
    (host : string) (drivers : gmap string Driver)
    (node_obj : Node) (w : world) (r : row) :
  F_power_state ∉ obj_what_changed node_obj →
  F_driver ∈ obj_what_changed node_obj →
  db w !! uuid node_obj = Some r →
  reservation r = None →
  drivers !! driver (fields node_obj) = None →
  update_node host drivers node_obj w =
    (Raise (DriverNotFound (driver (fields node_obj))),
     {| db := db w;
        calls := calls w ++ [db_reserve_node host (uuid node_obj);
                         db_release_node host (uuid node_obj)] |}).
Proof.
  intros Hdelta Hd Hrow Hfree Hnone.
  destruct (update_node_refused host drivers node_obj w Hdelta)
    as (_ & _ & H).
  specialize (H r Hrow Hfree). unfold requested_driver in H.
  rewrite decide_True in H by exact Hd. exact (H Hnone).
Qed.

(** X11: [get_node_power_state] on a stored node whose driver is loaded
    gives what the driver's [get_power_state] gives, value or exception;
    the task is shared, so this holds whoever holds the node's
    reservation; the node table is unchanged and [get_power_state] is the
    only call made. *)
Theorem get_node_power_state_reads_only
    (host : string) (drivers : gmap string Driver)
    (node_id : string) (w : world) (r : row) (d : Driver) :
  db w !! node_id = Some r →
  drivers !! driver r = Some d →
  get_node_power_state host drivers node_id w =
    (Power.get_power_state (power d)
       {| uuid := node_id; fields := r; changed := ∅ |},
     {| db := db w; calls := calls w ++ [power_get_power_state node_id] |}).
Proof.
  intros Hrow Hdrv.
  exact (get_node_power_state_world host drivers node_id w r d Hrow Hdrv).
Qed.

(** X12: on a stored node whose loaded driver has the vendor extension,
    [validate_vendor_action] gives what the extension's [validate] gives
    and [do_vendor_action] what its [vendor_passthru] gives, value or
    exception; both run in a shared task, write nothing, and make that
    one driver call. *)
Theorem vendor_actions_with_extension
    (host : string) (drivers : gmap string Driver)
    (node_id driver_method : string) (info : gmap string string)
    (w : world) (r : row) (d : Driver) (ext : Vendor.interface) :
  db w !! node_id = Some r →
  drivers !! driver r = Some d →
  vendor d = Some ext →
  validate_vendor_action host drivers node_id driver_method info w =
    (Vendor.validate ext {| uuid := node_id; fields := r; changed := ∅ |}
       driver_method info,
     {| db := db w;
        calls := calls w ++ [vendor_validate node_id driver_method] |})
  ∧ do_vendor_action host drivers node_id driver_method info w =
      (Vendor.vendor_passthru ext
         {| uuid := node_id; fields := r; changed := ∅ |} driver_method info,
       {| db := db w;
          calls := calls w ++ [vendor_vendor_passthru node_id driver_method] |}).
Proof.
  intros Hrow Hdrv Hext.
  exact (vendor_action_worlds host drivers node_id w r d Hrow Hdrv ext
           driver_method info Hext).
Qed.



(** X15: whatever the world, the node and the driver do,
    [change_node_power_state], [do_node_deploy] and [do_node_tear_down]
    write to no row but the one of their node, and leave that node's
    reservation as they found it: released if they took it, untouched if
    another conductor holds it. *)
Theorem exclusive_operations_footprint
    (host : string) (drivers : gmap string Driver)
    (node_obj : Node) (new_state : state) (w : world) :
  footprint (uuid node_obj) w
    (change_node_power_state host drivers node_obj new_state w).2
  ∧ footprint (uuid node_obj) w (do_node_deploy host drivers node_obj w).2
  ∧ footprint (uuid node_obj) w (do_node_tear_down host drivers node_obj w).2.
Proof.
  destruct (change_node_power_state_refused host drivers node_obj new_state w)
    as (Hp1 & Hp2 & Hp3).
  destruct (do_node_deploy_refused host drivers node_obj w)
    as (Hd1 & Hd2 & Hd3).
  destruct (do_node_tear_down_refused host drivers node_obj w)
    as (Ht1 & Ht2 & Ht3).
  assert (∃ o, db w !! uuid node_obj = o) as [[r|] Hrow] by eauto.
  - assert (∃ o, reservation r = o) as [[holder|] Hfree] by eauto.
    + rewrite (Hp2 r holder Hrow Hfree), (Hd2 r holder Hrow Hfree),
        (Ht2 r holder Hrow Hfree).
      repeat split; reflexivity.
    + assert (∃ o, drivers !! driver r = o) as [[d|] Hdrv] by eauto.
      * split; [|split].
        -- apply (power_world_cases host drivers node_obj new_state w r d
                    Hrow Hfree Hdrv);
             intros; apply (footprint_insert _ _ r); done.
        -- destruct (decide (provision_state r = NOSTATE)) as [Hp|Hp].
           ++ apply (deploy_world_cases host drivers node_obj w r d
                       Hrow Hfree Hdrv); [exact Hp|..];
                intros; apply (footprint_insert _ _ r); done.
           ++ destruct (deploy_path_rejected host drivers node_obj w r d
                          Hrow Hfree Hdrv Hp) as [message ->].
              apply footprint_same_db.
        -- destruct (decide (provision_state r ∈ [ACTIVE; DEPLOYFAIL; ERROR]))
             as [Hp|Hp].
           ++ apply (tear_down_world_cases host drivers node_obj w r d
                       Hrow Hfree Hdrv); [exact Hp|..];
                intros; apply (footprint_insert _ _ r); done.
           ++ destruct (tear_down_path_rejected host drivers node_obj w r d
                          Hrow Hfree Hdrv Hp) as [message ->].
              apply footprint_same_db.
      * rewrite (Hp3 r Hrow Hfree Hdrv), (Hd3 r Hrow Hfree Hdrv),
          (Ht3 r Hrow Hfree Hdrv).
        repeat split; reflexivity.
  - rewrite (Hp1 Hrow), (Hd1 Hrow), (Ht1 Hrow).
    repeat split; reflexivity.
Qed.

(** X16: a deployment that completes followed by a tear down that completes
    brings the node back: [do_node_deploy] admits a node in [NOSTATE] and
    leaves it [ACTIVE], which [do_node_tear_down] admits and leaves in
    [NOSTATE], with no target and no error; twelve calls are made, each
    operation reserving and releasing the node. *)
Theorem deploy_then_tear_down
    (host : string) (drivers : gmap string Driver)
    (node_obj : Node) (w : world) (r : row) (d : Driver) :
  db w !! uuid node_obj = Some r →
  reservation r = None →
  drivers !! driver r = Some d →
  provision_state r = NOSTATE →
  Deploy.validate (deploy d) (reserved host (uuid node_obj) r) = Return tt →
  Deploy.deploy (deploy d)
    (in_progress host (uuid node_obj) r DEPLOYING DEPLOYDONE)
    = Return DEPLOYDONE →
  Deploy.validate (deploy d) (reserved host (uuid node_obj) (deployed r))
    = Return tt →
  Deploy.tear_down (deploy d)
    (in_progress host (uuid node_obj) (deployed r) DELETING DELETED)
    = Return DELETED →
  (do_node_deploy host drivers node_obj;;
   do_node_tear_down host drivers node_obj) w =
    (Return tt,
     {| db := <[uuid node_obj :=
                  with_provision_state NOSTATE
                    (with_target_provision_state NOSTATE
                       (with_last_error None r))]>
                (db w);
        calls := calls w ++ [db_reserve_node host (uuid node_obj);
                             deploy_validate (uuid node_obj);
                             db_update_node (uuid node_obj);
                             deploy_deploy (uuid node_obj);
                             db_update_node (uuid node_obj);
                             db_release_node host (uuid node_obj);
                             db_reserve_node host (uuid node_obj);
                             deploy_validate (uuid node_obj);
                             db_update_node (uuid node_obj);
                             deploy_tear_down (uuid node_obj);
                             db_update_node (uuid node_obj);
                             db_release_node host (uuid node_obj)] |}).
Proof.
  intros Hrow Hfree Hdrv Hp Hv Hm Hv' Hm'.
  rewrite run_bind,
    (deploy_world_done host drivers node_obj w r d Hrow Hfree Hdrv Hp Hv Hm).
  fold (deployed r).
  erewrite (tear_down_world_done host drivers node_obj _ (deployed r) d);
    [ | row_there | exact Hfree | exact Hdrv | by_evaluation
      | exact Hv' | exact Hm' ].
  apply run_ext.
  - simpl. rewrite insert_insert_eq. apply insert_row_eq, row_ext; done.
  - simpl. rewrite <- app_assoc. reflexivity.
Qed.

(** X17: after a deployment that failed in the driver the node is in
    [ERROR], and a second [do_node_deploy] is rejected with
    [InstanceDeployFailure] without any driver call or write. *)
Theorem failed_deploy_blocks_redeploy
    (host : string) (drivers : gmap string Driver)
    (node_obj : Node) (w : world) (r : row) (d : Driver) (e : exn) :
  db w !! uuid node_obj = Some r →
  reservation r = None →
  drivers !! driver r = Some d →
  provision_state r = NOSTATE →
  Deploy.validate (deploy d) (reserved host (uuid node_obj) r) = Return tt →
  Deploy.deploy (deploy d)
    (in_progress host (uuid node_obj) r DEPLOYING DEPLOYDONE) = Raise e →
  ∃ w1 message,
    do_node_deploy host drivers node_obj w = (Raise e, w1)
    ∧ do_node_deploy host drivers node_obj w1 =
        (Raise (InstanceDeployFailure message),
         {| db := db w1;
            calls := calls w1 ++ [db_reserve_node host (uuid node_obj);
                                  db_release_node host (uuid node_obj)] |}).
Proof.
  intros Hrow Hfree Hdrv Hp Hv Hm.
  pose proof (deploy_world_raises host drivers node_obj w r d Hrow Hfree Hdrv
                e Hp Hv Hm) as H1.
  match type of H1 with
  | _ = (_, ?w1) =>
      destruct (deploy_path_rejected host drivers node_obj w1
                  (errored ("Failed to deploy. Error: " ++ exn_str e) r) d)
        as [message H2];
        [ row_there | exact Hfree | exact Hdrv | discriminate | ];
      exists w1, message
  end.
  split; [exact H1 | exact H2].
Qed.

(** X18: after a deployment whose driver returned a state other than
    [DEPLOYDONE] and other than [NOSTATE], that state is the node's
    [provision_state], and a second [do_node_deploy] is rejected with
    [InstanceDeployFailure] without any driver call or write. *)
Theorem pending_deploy_blocks_redeploy
    (host : string) (drivers : gmap string Driver)
    (node_obj : Node) (w : world) (r : row) (d : Driver)
    (new_state : state) :
  db w !! uuid node_obj = Some r →
  reservation r = None →
  drivers !! driver r = Some d →
  provision_state r = NOSTATE →
  Deploy.validate (deploy d) (reserved host (uuid node_obj) r) = Return tt →
  Deploy.deploy (deploy d)
    (in_progress host (uuid node_obj) r DEPLOYING DEPLOYDONE)
    = Return new_state →
  new_state ≠ DEPLOYDONE →
  new_state ≠ NOSTATE →
  ∃ w1 message,
    do_node_deploy host drivers node_obj w = (Return tt, w1)
    ∧ stored provision_state (uuid node_obj) w1 = Some new_state
    ∧ do_node_deploy host drivers node_obj w1 =
        (Raise (InstanceDeployFailure message),
         {| db := db w1;
            calls := calls w1 ++ [db_reserve_node host (uuid node_obj);
                                  db_release_node host (uuid node_obj)] |}).
Proof.
  intros Hrow Hfree Hdrv Hp Hv Hm Hne Hne'.
  pose proof (deploy_world_pending host drivers node_obj w r d Hrow Hfree
                Hdrv new_state Hp Hv Hm Hne) as H1.
  match type of H1 with
  | _ = (_, ?w1) =>
      match w1 with
      | World (<[_ := ?r1]> _) _ =>
          destruct (deploy_path_rejected host drivers node_obj w1 r1 d)
            as [message H2];
            [ row_there | exact Hfree | exact Hdrv | exact Hne' | ];
          exists w1, message
      end
  end.
  split; [exact H1|]. split; [|exact H2].
  unfold stored. simpl. rewrite lookup_insert_eq. reflexivity.
Qed.

(** X19: a node left in [ERROR] by a failed deployment is admitted by
    [do_node_tear_down]; when the tear down completes the node is back in
    [NOSTATE] with no target and no error. *)
Theorem failed_deploy_can_be_torn_down
    (host : string) (drivers : gmap string Driver)
    (node_obj : Node) (w : world) (r : row) (d : Driver) (e : exn) :
  db w !! uuid node_obj = Some r →
  reservation r = None →
  drivers !! driver r = Some d →
  provision_state r = NOSTATE →
  Deploy.validate (deploy d) (reserved host (uuid node_obj) r) = Return tt →
  Deploy.deploy (deploy d)
    (in_progress host (uuid node_obj) r DEPLOYING DEPLOYDONE) = Raise e →
  Deploy.validate (deploy d)
    (reserved host (uuid node_obj)
       (errored ("Failed to deploy. Error: " ++ exn_str e) r))
    = Return tt →
  Deploy.tear_down (deploy d)
    (in_progress host (uuid node_obj)
       (errored ("Failed to deploy. Error: " ++ exn_str e) r) DELETING DELETED)
    = Return DELETED →
  ∃ w1 w2,
    do_node_deploy host drivers node_obj w = (Raise e, w1)
    ∧ do_node_tear_down host drivers node_obj w1 = (Return tt, w2)
    ∧ db w2 =
        <[uuid node_obj :=
            with_provision_state NOSTATE
              (with_target_provision_state NOSTATE
                 (with_last_error None r))]> (db w).
Proof.
  intros Hrow Hfree Hdrv Hp Hv Hm Hv' Hm'. eexists _, _. split.
  - exact (deploy_world_raises host drivers node_obj w r d Hrow Hfree Hdrv
             e Hp Hv Hm).
  - split.
    + eapply (tear_down_world_done host drivers node_obj _
                (errored ("Failed to deploy. Error: " ++ exn_str e) r) d);
        [ row_there | exact Hfree | exact Hdrv | by_evaluation
        | exact Hv' | exact Hm' ].
    + simpl. rewrite insert_insert_eq. apply insert_row_eq, row_ext; done.
Qed.

(** X20: the two synchronous client methods reach the manager: the message
    of [get_node_power_state] and of [update_node] is bound by the
    dispatcher to the method of [ConductorManager] of the same name, with
    the client's argument for its parameter, and the client gets the
    method's reply or exception. *)
Theorem rpc_calls_reach_manager
    (host : string) (drivers : gmap string Driver)
    (node_id : string) (node_obj : Node) (w : world) :
  rpc.get_node_power_state host drivers node_id w
  = rpc.replying rpc.VState (get_node_power_state host drivers node_id) w
  ∧ rpc.update_node host drivers node_obj w
    = rpc.replying rpc.VNode (update_node host drivers node_obj) w.
Proof.
  split; reflexivity.
Qed.

(** X21: the three asynchronous client methods give nothing back: whatever
    [change_node_power_state], [do_node_deploy] or [do_node_tear_down] does
    in the conductor, an exception included, the client method returns;
    the world is the one the manager method of the same name leaves on
    the client's arguments. *)
Theorem rpc_casts_return
    (host : string) (drivers : gmap string Driver)
    (node_obj : Node) (new_state : state) (w : world) :
  rpc.change_node_power_state host drivers node_obj new_state w
  = (Return tt, (change_node_power_state host drivers node_obj new_state w).2)
  ∧ rpc.do_node_deploy host drivers node_obj w
    = (Return tt, (do_node_deploy host drivers node_obj w).2)
  ∧ rpc.do_node_tear_down host drivers node_obj w
    = (Return tt, (do_node_tear_down host drivers node_obj w).2).
Proof.
  unfold rpc.change_node_power_state, rpc.do_node_deploy,
    rpc.do_node_tear_down.
  rewrite !run_cast. unfold rpc.call, rpc.make_msg. simpl.
  rewrite !run_replying. repeat split; reflexivity.
Qed.

(** X22: [ConductorAPI.vendor_passthru] first calls
    [validate_vendor_action]; when that raises, the client raises the same
    exception and [do_vendor_action] is not sent; when it returns, the
    client casts [do_vendor_action] and returns the validation's data,
    whatever [do_vendor_action] does. *)
Theorem vendor_passthru_two_phases
    (host : string) (drivers : gmap string Driver)
    (node_id driver_method : string) (info : gmap string string)
    (w : world) :
  rpc.vendor_passthru host drivers node_id driver_method info w =
    match validate_vendor_action host drivers node_id driver_method info w
    with
    | (Return driver_data, w1) =>
        (Return (rpc.VStr driver_data),
         (do_vendor_action host drivers node_id driver_method info w1).2)
    | (Raise e, w1) => (Raise e, w1)
    end.
Proof.
  unfold rpc.vendor_passthru. rewrite run_bind.
  unfold rpc.call at 1. unfold rpc.make_msg. simpl. rewrite run_replying.
  destruct (validate_vendor_action host drivers node_id driver_method info w)
    as [[driver_data|e] w1]; simpl; [|reflexivity].
  rewrite run_bind, run_cast. unfold rpc.call. simpl.
  rewrite run_replying. reflexivity.
Qed.

(** X23: through [ConductorAPI.vendor_passthru], a node whose loaded driver
    lacks the vendor extension gives [UnsupportedDriverExtension], raised
    by the validation; [do_vendor_action] is not sent, and the world is
    unchanged. *)
Theorem vendor_passthru_unsupported_driver
    (host : string) (drivers : gmap string Driver)
    (node_id driver_method : string) (info : gmap string string)
    (w : world) (r : row) (d : Driver) :
  db w !! node_id = Some r →
  drivers !! driver r = Some d →
  vendor d = None →
  rpc.vendor_passthru host drivers node_id driver_method info w =
    (Raise (UnsupportedDriverExtension (driver r) node_id "vendor passthru"),
     w).
Proof.
  intros Hrow Hdrv Hext.
  destruct (vendor_without_extension host drivers node_id driver_method info
              w r d Hrow Hdrv Hext) as [Hvalidate _].
  unfold rpc.vendor_passthru. rewrite run_bind.
  unfold rpc.call, rpc.make_msg. simpl.
  rewrite run_replying, Hvalidate. reflexivity.
Qed.

(** X24: on a chassis that has the fields of [defaults], the loop of
    [ChassisController.patch] ends, and the object handed to [save] holds,
    for each key of [defaults] that is not internal, the value of the
    patched document for the key, or the default of the key when the
    document has lost it; every other field is as it was. *)
Theorem patch_fields_values
    (defaults : list (string * chassis.json))
    (rpc_chassis : chassis.Chassis)
    (patched_chassis : gmap string chassis.json) :
  chassis.fields_set defaults rpc_chassis →
  ∃ saved,
    chassis.patch_fields defaults rpc_chassis patched_chassis = Some saved
    ∧ ∀ key,
        chassis.attrs saved !! key =
          match chassis.default_of defaults key with
          | Some dflt => Some (default dflt (patched_chassis !! key))
          | None => chassis.attrs rpc_chassis !! key
          end.
Proof.
  intros Hset.
  destruct (patch_fields_set defaults rpc_chassis patched_chassis Hset)
    as (saved & Hrun & Hval & _).
  by exists saved.
Qed.

(** X25: the loop assigns only the fields that have changed: a field is
    marked as changed on the object handed to [save] exactly when it was
    marked before or its value is not the one the chassis held. *)
Theorem patch_fields_marks
    (defaults : list (string * chassis.json))
    (rpc_chassis : chassis.Chassis)
    (patched_chassis : gmap string chassis.json) :
  chassis.fields_set defaults rpc_chassis →
  ∃ saved,
    chassis.patch_fields defaults rpc_chassis patched_chassis = Some saved
    ∧ ∀ key,
        key ∈ chassis.changes saved
        ↔ key ∈ chassis.changes rpc_chassis
          ∨ chassis.attrs saved !! key ≠ chassis.attrs rpc_chassis !! key.
Proof.
  intros Hset.
  destruct (patch_fields_set defaults rpc_chassis patched_chassis Hset)
    as (saved & Hrun & _ & Hch).
  by exists saved.
Qed.

(** X26: whenever the loop ends, the internal keys [id], [updated_at] and
    [created_at], and the keys that [defaults] does not have, are not
    assigned, whatever the patched document holds for them. *)
Theorem patch_fields_other_keys
    (defaults : list (string * chassis.json))
    (rpc_chassis saved : chassis.Chassis)
    (patched_chassis : gmap string chassis.json) (key : string) :
  chassis.patch_fields defaults rpc_chassis patched_chassis = Some saved →
  (key ∈ chassis.internal ∨ key ∉ defaults.*1) →
  chassis.attrs saved !! key = chassis.attrs rpc_chassis !! key
  ∧ (key ∈ chassis.changes saved ↔ key ∈ chassis.changes rpc_chassis).
Proof.
  unfold chassis.patch_fields. intros Hrun Hkey.
  destruct (chassis.merge _ _ _) as [[p' c']|] eqn:Hmerge; [|done].
  simpl in Hrun. simplify_eq.
  exact (merge_other _ defaults key Hkey _ _ _ _ Hmerge).
Qed.

(** X27: when the patched document agrees with the chassis on every key of
    [defaults] that is not internal, the object handed to [save] is the
    chassis as it was loaded, with no further field marked. *)
Theorem patch_fields_same_document
    (defaults : list (string * chassis.json))
    (rpc_chassis : chassis.Chassis)
    (patched_chassis : gmap string chassis.json) :
  chassis.fields_set defaults rpc_chassis →
  Forall (λ item, item.1 ∈ chassis.internal
                  ∨ patched_chassis !! item.1
                    = chassis.as_dict rpc_chassis !! item.1) defaults →
  chassis.patch_fields defaults rpc_chassis patched_chassis
  = Some rpc_chassis.
Proof.
  intros Hset Hsame.
  destruct (patch_fields_set defaults rpc_chassis patched_chassis Hset)
    as (saved & Hrun & Hval & Hch).
  rewrite Hrun. f_equal.
  assert (chassis.attrs saved = chassis.attrs rpc_chassis) as Hattrs.
  { apply map_eq. intros k. rewrite Hval.
    destruct (chassis.default_of defaults k) as [dflt|] eqn:Hd; [|done].
    destruct (default_of_set defaults rpc_chassis k dflt Hset Hd) as [v Hv].
    clear Hval Hch Hrun Hset.
    induction defaults as [|[key d] defaults IH]; [done|].
    apply Forall_cons in Hsame as [Hkey Hsame]. simpl in Hkey.
    rewrite default_of_cons in Hd.
    destruct (decide (key = k ∧ k ∉ chassis.internal)) as [[-> Hint]|];
      [|by apply IH].
    destruct Hkey as [?|Hkey]; [done|].
    unfold chassis.as_dict in Hkey. rewrite Hkey, Hv. done. }
  assert (chassis.changes saved = chassis.changes rpc_chassis) as Hchanges.
  { apply set_eq. intros k. rewrite Hch, Hattrs. split; [|by left].
    by intros [?|?]. }
  destruct saved, rpc_chassis. simpl in *. by subst.
Qed.

(** X28: [ChassisController.detail] looks at the segment before the last of
    the request path: on a path [prefix/name/leaf] it goes on to the
    listing when [name] is [chassis] and raises [HTTPNotFound]
    otherwise, whatever [prefix] and [leaf] are. *)
Theorem detail_parent_segment
    {A : Type} (prefix name leaf : string) (listing : A) :
  chassis.free_of chassis.slash name = true →
  chassis.free_of chassis.slash leaf = true →
  chassis.detail (prefix +:+ "/" +:+ name +:+ "/" +:+ leaf) listing =
    if decide (name = "chassis") then inr listing
    else inl chassis.HTTPNotFound.
Proof.
  intros Hname Hleaf. unfold chassis.detail.
  rewrite (parent_path prefix name leaf Hname Hleaf).
  destruct (decide (name = "chassis")) as [->|Hne].
  - by rewrite decide_False by (intros ?; done).
  - by rewrite decide_True.
Qed.

(** X29: on a request path without a slash, [split('/')[:-1]] is empty
    and [ChassisController.detail] fails with [IndexError], not with
    [HTTPNotFound]. *)
Theorem detail_without_slash
    {A : Type} (path : string) (listing : A) :
  chassis.free_of chassis.slash path = true →
  chassis.detail path listing = inl chassis.IndexError.
Proof.
  intros Hfree. unfold chassis.detail, chassis.parent.
  by rewrite (split_free_of _ _ Hfree).
Qed.

(** X30: [ConductorManager.start] does not fail, on any conductor table:
    afterwards the row of [host] holds the driver names of this start,
    also when an earlier start had registered the hostname with other
    names, and the rows of the other conductors are as they were. *)
Theorem start_registers_conductor
    (host : string) (drivers : list string) (t : membership.table) :
  membership.start host drivers t = inr (<[host := drivers]> t).
Proof.
  unfold membership.start, membership.register_conductor,
    membership.unregister_conductor.
  destruct (t !! host) as [registered|] eqn:Hrow; [|reflexivity].
  unfold membership.table in *. rewrite lookup_delete_eq. f_equal. apply insert_delete_eq.
Qed.

(** ** The further properties at concrete inputs *)

Lemma power_transition_succeeds_witness :
  (db (create_node (unassociated POWER_OFF)) !! uuid (get_by_uuid
        (unassociated POWER_OFF)) = Some (unassociated POWER_OFF))
  ∧ (reservation (unassociated POWER_OFF) = None)
  ∧ ((loaded (fake POWER_OFF)) !! driver (unassociated POWER_OFF) = Some (fake
        POWER_OFF))
  ∧ (Power.validate (power (fake POWER_OFF)) (reserved test_host (uuid
          (get_by_uuid (unassociated POWER_OFF))) (unassociated POWER_OFF)) =
      Return tt)
  ∧ (Power.get_power_state (power (fake POWER_OFF)) (reserved test_host (uuid
          (get_by_uuid (unassociated POWER_OFF))) (unassociated POWER_OFF))
    = Return POWER_OFF)
  ∧ (POWER_OFF ≠ POWER_ON)
  ∧ (Power.set_power_state (power (fake POWER_OFF))
    (power_pending test_host (uuid (get_by_uuid (unassociated POWER_OFF)))
        (unassociated POWER_OFF) POWER_ON) POWER_ON = Return tt)
  ∧ (change_node_power_state test_host (loaded (fake POWER_OFF)) (get_by_uuid
        (unassociated POWER_OFF)) POWER_ON (create_node (unassociated
          POWER_OFF)) =
    (Return tt,
     {| db := <[uuid (get_by_uuid (unassociated POWER_OFF)) :=
                  with_power_state POWER_ON
                    (with_target_power_state NOSTATE
                       (with_last_error None (unassociated POWER_OFF)))]>
                (db (create_node (unassociated POWER_OFF)));
        calls := calls (create_node (unassociated POWER_OFF)) ++
          [db_reserve_node test_host (uuid (get_by_uuid (unassociated
                POWER_OFF)));
                             power_validate (uuid (get_by_uuid (unassociated
                                     POWER_OFF)));
                             power_get_power_state (uuid (get_by_uuid
                                   (unassociated POWER_OFF)));
                             db_update_node (uuid (get_by_uuid (unassociated
                                     POWER_OFF)));
                             power_set_power_state (uuid (get_by_uuid
                                   (unassociated POWER_OFF))) POWER_ON;
                             db_update_node (uuid (get_by_uuid (unassociated
                                     POWER_OFF)));
                             db_release_node test_host (uuid (get_by_uuid
                                   (unassociated POWER_OFF)))] |})).
Proof.
  do 7 (split; [by_evaluation|]).
  apply (power_transition_succeeds test_host (loaded (fake POWER_OFF))
      (get_by_uuid (unassociated POWER_OFF)) POWER_ON (create_node
        (unassociated POWER_OFF)) (unassociated POWER_OFF) (fake POWER_OFF)
      POWER_OFF); by_evaluation.
Defined.

Lemma power_action_failure_witness :
  (db (create_node (unassociated POWER_OFF)) !! uuid (get_by_uuid
        (unassociated POWER_OFF)) = Some (unassociated POWER_OFF))
  ∧ (reservation (unassociated POWER_OFF) = None)
  ∧ ((loaded (fake_set_power_failure POWER_OFF)) !! driver (unassociated
        POWER_OFF) = Some (fake_set_power_failure POWER_OFF))
  ∧ (Power.validate (power (fake_set_power_failure POWER_OFF)) (reserved
        test_host (uuid (get_by_uuid (unassociated POWER_OFF))) (unassociated
          POWER_OFF)) = Return tt)
  ∧ (Power.get_power_state (power (fake_set_power_failure POWER_OFF))
      (reserved test_host (uuid (get_by_uuid (unassociated POWER_OFF)))
        (unassociated POWER_OFF))
    = Return POWER_OFF)
  ∧ (POWER_OFF ≠ POWER_ON)
  ∧ (Power.set_power_state (power (fake_set_power_failure POWER_OFF))
    (power_pending test_host (uuid (get_by_uuid (unassociated POWER_OFF)))
        (unassociated POWER_OFF) POWER_ON) POWER_ON = Raise (IronicException
        "An unknown exception occurred."))
  ∧ (change_node_power_state test_host (loaded (fake_set_power_failure
          POWER_OFF)) (get_by_uuid (unassociated POWER_OFF)) POWER_ON
      (create_node (unassociated POWER_OFF)) =
    (Raise (IronicException "An unknown exception occurred."),
     {| db := <[uuid (get_by_uuid (unassociated POWER_OFF)) :=
                  with_target_power_state NOSTATE
                    (with_last_error (Some (power_failure POWER_ON
                            (IronicException
                              "An unknown exception occurred.")))
                        (unassociated POWER_OFF))]>
                (db (create_node (unassociated POWER_OFF)));
        calls := calls (create_node (unassociated POWER_OFF)) ++
          [db_reserve_node test_host (uuid (get_by_uuid (unassociated
                POWER_OFF)));
                             power_validate (uuid (get_by_uuid (unassociated
                                     POWER_OFF)));
                             power_get_power_state (uuid (get_by_uuid
                                   (unassociated POWER_OFF)));
                             db_update_node (uuid (get_by_uuid (unassociated
                                     POWER_OFF)));
                             power_set_power_state (uuid (get_by_uuid
                                   (unassociated POWER_OFF))) POWER_ON;
                             db_update_node (uuid (get_by_uuid (unassociated
                                     POWER_OFF)));
                             db_release_node test_host (uuid (get_by_uuid
                                   (unassociated POWER_OFF)))] |})).
Proof.
  do 7 (split; [by_evaluation|]).
  apply (power_action_failure test_host (loaded (fake_set_power_failure
          POWER_OFF)) (get_by_uuid (unassociated POWER_OFF)) POWER_ON
      (create_node (unassociated POWER_OFF)) (unassociated POWER_OFF)
      (fake_set_power_failure POWER_OFF) POWER_OFF (IronicException
        "An unknown exception occurred.")); by_evaluation.
Defined.

Lemma power_probe_failure_witness :
  (db (create_node (unassociated POWER_ON)) !! uuid (get_by_uuid (unassociated
          POWER_ON)) = Some (unassociated POWER_ON))
  ∧ (reservation (unassociated POWER_ON) = None)
  ∧ ((loaded scenarios.fake_invalid_power) !! driver (unassociated POWER_ON) =
      Some scenarios.fake_invalid_power)
  ∧ ((Power.validate (power scenarios.fake_invalid_power) (reserved test_host
          (uuid (get_by_uuid (unassociated POWER_ON))) (unassociated
            POWER_ON)) = Raise (InvalidParameterValue
          "wrong power driver info")
   ∨ Power.validate (power scenarios.fake_invalid_power) (reserved test_host
       (uuid (get_by_uuid (unassociated POWER_ON))) (unassociated POWER_ON)) =
     Return tt
     ∧ Power.get_power_state (power scenarios.fake_invalid_power) (reserved
         test_host (uuid (get_by_uuid (unassociated POWER_ON))) (unassociated
           POWER_ON)) = Raise (InvalidParameterValue
         "wrong power driver info")))
  ∧ (∃ w',
    change_node_power_state test_host (loaded scenarios.fake_invalid_power)
      (get_by_uuid (unassociated POWER_ON)) POWER_ON (create_node
        (unassociated POWER_ON)) = (Raise (InvalidParameterValue
          "wrong power driver info"), w')
    ∧ db w' =
        <[uuid (get_by_uuid (unassociated POWER_ON)) :=
            with_last_error (Some (power_failure POWER_ON
                  (InvalidParameterValue "wrong power driver info")))
              (unassociated POWER_ON)]> (db (create_node (unassociated
                    POWER_ON)))
    ∧ (∀ pstate,
         power_set_power_state (uuid (get_by_uuid (unassociated POWER_ON)))
           pstate ∉ new_calls (create_node (unassociated POWER_ON)) w')).
Proof.
  do 4 (split; [by_evaluation|]).
  apply (power_probe_failure test_host (loaded scenarios.fake_invalid_power)
      (get_by_uuid (unassociated POWER_ON)) POWER_ON (create_node
        (unassociated POWER_ON)) (unassociated POWER_ON)
      scenarios.fake_invalid_power (InvalidParameterValue
        "wrong power driver info")); by_evaluation.
Defined.

Lemma set_power_state_discipline_witness :
  (power_set_power_state (uuid (get_by_uuid (unassociated POWER_OFF)))
      POWER_ON
    ∈ new_calls (create_node (unassociated POWER_OFF))
        (change_node_power_state test_host (loaded (fake POWER_OFF))
            (get_by_uuid (unassociated POWER_OFF)) POWER_ON (create_node
              (unassociated POWER_OFF))).2)
  ∧ (POWER_ON = POWER_ON
  ∧ ∃ r d curr_state,
      db (create_node (unassociated POWER_OFF)) !! uuid (get_by_uuid
          (unassociated POWER_OFF)) = Some r
      ∧ reservation r = None
      ∧ (loaded (fake POWER_OFF)) !! driver r = Some d
      ∧ Power.validate (power d) (reserved test_host (uuid (get_by_uuid
              (unassociated POWER_OFF))) r) = Return tt
      ∧ Power.get_power_state (power d) (reserved test_host (uuid (get_by_uuid
              (unassociated POWER_OFF))) r)
        = Return curr_state
      ∧ curr_state ≠ POWER_ON).
Proof.
  do 1 (split; [by_evaluation|]).
  apply (set_power_state_discipline test_host (loaded (fake POWER_OFF))
      (get_by_uuid (unassociated POWER_OFF)) POWER_ON (create_node
        (unassociated POWER_OFF)) POWER_ON); by_evaluation.
Defined.

Lemma do_node_deploy_driver_failure_witness :
  (db (create_node (unassociated NOSTATE)) !! uuid (get_by_uuid (unassociated
          NOSTATE)) = Some (unassociated NOSTATE))
  ∧ (reservation (unassociated NOSTATE) = None)
  ∧ ((loaded scenarios.fake_deploy_failure) !! driver (unassociated NOSTATE) =
      Some scenarios.fake_deploy_failure)
  ∧ (provision_state (unassociated NOSTATE) = NOSTATE)
  ∧ (Deploy.validate (deploy scenarios.fake_deploy_failure) (reserved
        test_host (uuid (get_by_uuid (unassociated NOSTATE))) (unassociated
          NOSTATE)) = Return tt)
  ∧ (Deploy.deploy (deploy scenarios.fake_deploy_failure)
    (in_progress test_host (uuid (get_by_uuid (unassociated NOSTATE)))
        (unassociated NOSTATE) DEPLOYING DEPLOYDONE) = Raise
      (InstanceDeployFailure "test"))
  ∧ (do_node_deploy test_host (loaded scenarios.fake_deploy_failure)
      (get_by_uuid (unassociated NOSTATE)) (create_node (unassociated
          NOSTATE)) =
    (Raise (InstanceDeployFailure "test"),
     {| db := <[uuid (get_by_uuid (unassociated NOSTATE)) :=
                  errored ("Failed to deploy. Error: " ++ exn_str
                      (InstanceDeployFailure "test")) (unassociated NOSTATE)]>
                (db (create_node (unassociated NOSTATE)));
        calls := calls (create_node (unassociated NOSTATE)) ++
          [db_reserve_node test_host (uuid (get_by_uuid (unassociated
                NOSTATE)));
                             deploy_validate (uuid (get_by_uuid (unassociated
                                     NOSTATE)));
                             db_update_node (uuid (get_by_uuid (unassociated
                                     NOSTATE)));
                             deploy_deploy (uuid (get_by_uuid (unassociated
                                     NOSTATE)));
                             db_update_node (uuid (get_by_uuid (unassociated
                                     NOSTATE)));
                             db_release_node test_host (uuid (get_by_uuid
                                   (unassociated NOSTATE)))] |})).
Proof.
  do 6 (split; [by_evaluation|]).
  apply (do_node_deploy_driver_failure test_host (loaded
        scenarios.fake_deploy_failure) (get_by_uuid (unassociated NOSTATE))
      (create_node (unassociated NOSTATE)) (unassociated NOSTATE)
      scenarios.fake_deploy_failure (InstanceDeployFailure "test"));
    by_evaluation.
Defined.

Lemma do_node_tear_down_returned_state_witness :
  (db (create_node scenarios.active) !! uuid (get_by_uuid scenarios.active) =
      Some scenarios.active)
  ∧ (reservation scenarios.active = None)
  ∧ ((loaded (scenarios.fake_tear_down DELETING)) !! driver scenarios.active =
      Some (scenarios.fake_tear_down DELETING))
  ∧ (provision_state scenarios.active ∈ [ACTIVE; DEPLOYFAIL; ERROR])
  ∧ (Deploy.validate (deploy (scenarios.fake_tear_down DELETING)) (reserved
        test_host (uuid (get_by_uuid scenarios.active)) scenarios.active) =
      Return tt)
  ∧ (Deploy.tear_down (deploy (scenarios.fake_tear_down DELETING))
    (in_progress test_host (uuid (get_by_uuid scenarios.active))
        scenarios.active DELETING DELETED)
    = Return DELETING)
  ∧ ((DELETING = DELETED →
   do_node_tear_down test_host (loaded (scenarios.fake_tear_down DELETING))
     (get_by_uuid scenarios.active) (create_node scenarios.active) =
     (Return tt,
      {| db := <[uuid (get_by_uuid scenarios.active) :=
                   with_provision_state NOSTATE
                    (with_target_provision_state NOSTATE
                       (with_last_error None scenarios.active))]>
                 (db (create_node scenarios.active));
         calls := calls (create_node scenarios.active) ++ [db_reserve_node
           test_host (uuid (get_by_uuid scenarios.active));
                              deploy_validate (uuid (get_by_uuid
                                    scenarios.active));
                              db_update_node (uuid (get_by_uuid
                                    scenarios.active));
                              deploy_tear_down (uuid (get_by_uuid
                                    scenarios.active));
                              db_update_node (uuid (get_by_uuid
                                    scenarios.active));
                              db_release_node test_host (uuid (get_by_uuid
                                    scenarios.active))] |}))
  ∧ (DELETING ≠ DELETED →
     do_node_tear_down test_host (loaded (scenarios.fake_tear_down DELETING))
       (get_by_uuid scenarios.active) (create_node scenarios.active) =
       (Return tt,
        {| db := <[uuid (get_by_uuid scenarios.active) :=
                     with_provision_state DELETING
                    (with_target_provision_state DELETED
                       (with_last_error None scenarios.active))]>
                   (db (create_node scenarios.active));
           calls := calls (create_node scenarios.active) ++ [db_reserve_node
             test_host (uuid (get_by_uuid scenarios.active));
                                deploy_validate (uuid (get_by_uuid
                                      scenarios.active));
                                db_update_node (uuid (get_by_uuid
                                      scenarios.active));
                                deploy_tear_down (uuid (get_by_uuid
                                      scenarios.active));
                                db_update_node (uuid (get_by_uuid
                                      scenarios.active));
                                db_release_node test_host (uuid (get_by_uuid
                                      scenarios.active))] |}))).
Proof.
  do 6 (split; [by_evaluation|]).
  apply (do_node_tear_down_returned_state test_host (loaded
        (scenarios.fake_tear_down DELETING)) (get_by_uuid scenarios.active)
      (create_node scenarios.active) scenarios.active
      (scenarios.fake_tear_down DELETING) DELETING); by_evaluation.
Defined.

Lemma do_node_tear_down_driver_failure_witness :
  (db (create_node scenarios.active) !! uuid (get_by_uuid scenarios.active) =
      Some scenarios.active)
  ∧ (reservation scenarios.active = None)
  ∧ ((loaded scenarios.fake_deploy_failure) !! driver scenarios.active = Some
      scenarios.fake_deploy_failure)
  ∧ (provision_state scenarios.active ∈ [ACTIVE; DEPLOYFAIL; ERROR])
  ∧ (Deploy.validate (deploy scenarios.fake_deploy_failure) (reserved
        test_host (uuid (get_by_uuid scenarios.active)) scenarios.active) =
      Return tt)
  ∧ (Deploy.tear_down (deploy scenarios.fake_deploy_failure)
    (in_progress test_host (uuid (get_by_uuid scenarios.active))
        scenarios.active DELETING DELETED) = Raise (InstanceDeployFailure
        "test"))
  ∧ (do_node_tear_down test_host (loaded scenarios.fake_deploy_failure)
      (get_by_uuid scenarios.active) (create_node scenarios.active) =
    (Raise (InstanceDeployFailure "test"),
     {| db := <[uuid (get_by_uuid scenarios.active) :=
                  errored ("Failed to tear down. Error: " ++ exn_str
                      (InstanceDeployFailure "test")) scenarios.active]>
                (db (create_node scenarios.active));
        calls := calls (create_node scenarios.active) ++ [db_reserve_node
          test_host (uuid (get_by_uuid scenarios.active));
                             deploy_validate (uuid (get_by_uuid
                                   scenarios.active));
                             db_update_node (uuid (get_by_uuid
                                   scenarios.active));
                             deploy_tear_down (uuid (get_by_uuid
                                   scenarios.active));
                             db_update_node (uuid (get_by_uuid
                                   scenarios.active));
                             db_release_node test_host (uuid (get_by_uuid
                                   scenarios.active))] |})).
Proof.
  do 6 (split; [by_evaluation|]).
  apply (do_node_tear_down_driver_failure test_host (loaded
        scenarios.fake_deploy_failure) (get_by_uuid scenarios.active)
      (create_node scenarios.active) scenarios.active
      scenarios.fake_deploy_failure (InstanceDeployFailure "test"));
    by_evaluation.
Defined.

Lemma exclusive_operations_locked_witness :
  (db (create_node locked_elsewhere) !! uuid (get_by_uuid locked_elsewhere) =
      Some locked_elsewhere)
  ∧ (reservation locked_elsewhere = Some ("other-host"))
  ∧ ((F_power_state ∉ obj_what_changed (get_by_uuid locked_elsewhere) →
   update_node test_host (loaded (fake POWER_ON)) (get_by_uuid
       locked_elsewhere) (create_node locked_elsewhere) = (Raise (NodeLocked
         (uuid (get_by_uuid locked_elsewhere)) ("other-host")), (create_node
         locked_elsewhere)))
  ∧ change_node_power_state test_host (loaded (fake POWER_ON)) (get_by_uuid
      locked_elsewhere) POWER_ON (create_node locked_elsewhere)
    = (Raise (NodeLocked (uuid (get_by_uuid locked_elsewhere))
          ("other-host")), (create_node locked_elsewhere))
  ∧ do_node_deploy test_host (loaded (fake POWER_ON)) (get_by_uuid
      locked_elsewhere) (create_node locked_elsewhere) = (Raise (NodeLocked
        (uuid (get_by_uuid locked_elsewhere)) ("other-host")), (create_node
        locked_elsewhere))
  ∧ do_node_tear_down test_host (loaded (fake POWER_ON)) (get_by_uuid
      locked_elsewhere) (create_node locked_elsewhere) = (Raise (NodeLocked
        (uuid (get_by_uuid locked_elsewhere)) ("other-host")), (create_node
        locked_elsewhere))).
Proof.
  do 2 (split; [by_evaluation|]).
  apply (exclusive_operations_locked test_host (loaded (fake POWER_ON))
      (get_by_uuid locked_elsewhere) POWER_ON (create_node locked_elsewhere)
      locked_elsewhere ("other-host")); by_evaluation.
Defined.

Lemma operations_node_not_found_witness :
  (db scenarios.no_node !! uuid (get_by_uuid (unassociated NOSTATE)) = None)
  ∧ (get_node_power_state test_host (loaded (fake NOSTATE)) (uuid (get_by_uuid
          (unassociated NOSTATE))) scenarios.no_node = (Raise (NodeNotFound
          (uuid (get_by_uuid (unassociated NOSTATE)))), scenarios.no_node)
  ∧ (F_power_state ∉ obj_what_changed (get_by_uuid (unassociated NOSTATE)) →
     update_node test_host (loaded (fake NOSTATE)) (get_by_uuid (unassociated
           NOSTATE)) scenarios.no_node = (Raise (NodeNotFound (uuid
             (get_by_uuid (unassociated NOSTATE)))), scenarios.no_node))
  ∧ change_node_power_state test_host (loaded (fake NOSTATE)) (get_by_uuid
      (unassociated NOSTATE)) POWER_ON scenarios.no_node
    = (Raise (NodeNotFound (uuid (get_by_uuid (unassociated NOSTATE)))),
        scenarios.no_node)
  ∧ validate_vendor_action test_host (loaded (fake NOSTATE)) (uuid
      (get_by_uuid (unassociated NOSTATE))) ("foo") ({["bar" := "baz"]})
    scenarios.no_node
    = (Raise (NodeNotFound (uuid (get_by_uuid (unassociated NOSTATE)))),
        scenarios.no_node)
  ∧ do_vendor_action test_host (loaded (fake NOSTATE)) (uuid (get_by_uuid
        (unassociated NOSTATE))) ("foo") ({["bar" := "baz"]})
    scenarios.no_node
    = (Raise (NodeNotFound (uuid (get_by_uuid (unassociated NOSTATE)))),
        scenarios.no_node)
  ∧ do_node_deploy test_host (loaded (fake NOSTATE)) (get_by_uuid
      (unassociated NOSTATE)) scenarios.no_node = (Raise (NodeNotFound (uuid
          (get_by_uuid (unassociated NOSTATE)))), scenarios.no_node)
  ∧ do_node_tear_down test_host (loaded (fake NOSTATE)) (get_by_uuid
      (unassociated NOSTATE)) scenarios.no_node = (Raise (NodeNotFound (uuid
          (get_by_uuid (unassociated NOSTATE)))), scenarios.no_node)).
Proof.
  do 1 (split; [by_evaluation|]).
  apply (operations_node_not_found test_host (loaded (fake NOSTATE))
      (get_by_uuid (unassociated NOSTATE)) POWER_ON scenarios.no_node ("foo")
      ({["bar" := "baz"]})); by_evaluation.
Defined.

Lemma update_node_unknown_driver_witness :
  (F_power_state ∉ obj_what_changed scenarios.redriven)
  ∧ (F_driver ∈ obj_what_changed scenarios.redriven)
  ∧ (db (create_node (unassociated NOSTATE)) !! uuid scenarios.redriven = Some
      (unassociated NOSTATE))
  ∧ (reservation (unassociated NOSTATE) = None)
  ∧ ((loaded (fake NOSTATE)) !! driver (fields scenarios.redriven) = None)
  ∧ (update_node test_host (loaded (fake NOSTATE)) scenarios.redriven
      (create_node (unassociated NOSTATE)) =
    (Raise (DriverNotFound (driver (fields scenarios.redriven))),
     {| db := db (create_node (unassociated NOSTATE));
        calls := calls (create_node (unassociated NOSTATE)) ++
          [db_reserve_node test_host (uuid scenarios.redriven);
                         db_release_node test_host (uuid scenarios.redriven)]
                           |})).
Proof.
  do 5 (split; [by_evaluation|]).
  apply (update_node_unknown_driver test_host (loaded (fake NOSTATE))
      scenarios.redriven (create_node (unassociated NOSTATE)) (unassociated
        NOSTATE)); by_evaluation.
Defined.

Lemma get_node_power_state_reads_only_witness :
  (db (create_node locked_elsewhere) !! fixtures.node_id = Some
      locked_elsewhere)
  ∧ ((loaded (fake POWER_ON)) !! driver locked_elsewhere = Some (fake
        POWER_ON))
  ∧ (get_node_power_state test_host (loaded (fake POWER_ON)) fixtures.node_id
      (create_node locked_elsewhere) =
    (Power.get_power_state (power (fake POWER_ON))
       {| uuid := fixtures.node_id; fields := locked_elsewhere; changed := ∅
         |},
     {| db := db (create_node locked_elsewhere); calls := calls (create_node
         locked_elsewhere) ++ [power_get_power_state fixtures.node_id] |})).
Proof.
  do 2 (split; [by_evaluation|]).
  apply (get_node_power_state_reads_only test_host (loaded (fake POWER_ON))
      fixtures.node_id (create_node locked_elsewhere) locked_elsewhere (fake
        POWER_ON)); by_evaluation.
Defined.

Lemma vendor_actions_with_extension_witness :
  (db (create_node (unassociated NOSTATE)) !! fixtures.node_id = Some
      (unassociated NOSTATE))
  ∧ ((loaded (fake NOSTATE)) !! driver (unassociated NOSTATE) = Some (fake
        NOSTATE))
  ∧ (vendor (fake NOSTATE) = Some FakeVendor)
  ∧ (validate_vendor_action test_host (loaded (fake NOSTATE)) fixtures.node_id
      ("foo") ({["bar" := "baz"]}) (create_node (unassociated NOSTATE)) =
    (Vendor.validate FakeVendor {| uuid := fixtures.node_id; fields :=
        (unassociated NOSTATE); changed := ∅ |}
       ("foo") ({["bar" := "baz"]}),
     {| db := db (create_node (unassociated NOSTATE));
        calls := calls (create_node (unassociated NOSTATE)) ++
          [vendor_validate fixtures.node_id ("foo")] |})
  ∧ do_vendor_action test_host (loaded (fake NOSTATE)) fixtures.node_id
    ("foo") ({["bar" := "baz"]}) (create_node (unassociated NOSTATE)) =
      (Vendor.vendor_passthru FakeVendor
         {| uuid := fixtures.node_id; fields := (unassociated NOSTATE);
           changed := ∅ |} ("foo") ({["bar" := "baz"]}),
       {| db := db (create_node (unassociated NOSTATE));
          calls := calls (create_node (unassociated NOSTATE)) ++
            [vendor_vendor_passthru fixtures.node_id ("foo")] |})).
Proof.
  do 3 (split; [by_evaluation|]).
  apply (vendor_actions_with_extension test_host (loaded (fake NOSTATE))
      fixtures.node_id ("foo") ({["bar" := "baz"]}) (create_node (unassociated
          NOSTATE)) (unassociated NOSTATE) (fake NOSTATE) FakeVendor);
    by_evaluation.
Defined.



Lemma deploy_then_tear_down_witness :
  (db (create_node (unassociated NOSTATE)) !! uuid (get_by_uuid (unassociated
          NOSTATE)) = Some (unassociated NOSTATE))
  ∧ (reservation (unassociated NOSTATE) = None)
  ∧ ((loaded scenarios.fake_provisioning) !! driver (unassociated NOSTATE) =
      Some scenarios.fake_provisioning)
  ∧ (provision_state (unassociated NOSTATE) = NOSTATE)
  ∧ (Deploy.validate (deploy scenarios.fake_provisioning) (reserved test_host
        (uuid (get_by_uuid (unassociated NOSTATE))) (unassociated NOSTATE)) =
      Return tt)
  ∧ (Deploy.deploy (deploy scenarios.fake_provisioning)
    (in_progress test_host (uuid (get_by_uuid (unassociated NOSTATE)))
        (unassociated NOSTATE) DEPLOYING DEPLOYDONE)
    = Return DEPLOYDONE)
  ∧ (Deploy.validate (deploy scenarios.fake_provisioning) (reserved test_host
        (uuid (get_by_uuid (unassociated NOSTATE))) (deployed (unassociated
            NOSTATE)))
    = Return tt)
  ∧ (Deploy.tear_down (deploy scenarios.fake_provisioning)
    (in_progress test_host (uuid (get_by_uuid (unassociated NOSTATE)))
        (deployed (unassociated NOSTATE)) DELETING DELETED)
    = Return DELETED)
  ∧ ((do_node_deploy test_host (loaded scenarios.fake_provisioning)
        (get_by_uuid (unassociated NOSTATE));;
   do_node_tear_down test_host (loaded scenarios.fake_provisioning)
     (get_by_uuid (unassociated NOSTATE))) (create_node (unassociated
       NOSTATE)) =
    (Return tt,
     {| db := <[uuid (get_by_uuid (unassociated NOSTATE)) :=
                  with_provision_state NOSTATE
                    (with_target_provision_state NOSTATE
                       (with_last_error None (unassociated NOSTATE)))]>
                (db (create_node (unassociated NOSTATE)));
        calls := calls (create_node (unassociated NOSTATE)) ++
          [db_reserve_node test_host (uuid (get_by_uuid (unassociated
                NOSTATE)));
                             deploy_validate (uuid (get_by_uuid (unassociated
                                     NOSTATE)));
                             db_update_node (uuid (get_by_uuid (unassociated
                                     NOSTATE)));
                             deploy_deploy (uuid (get_by_uuid (unassociated
                                     NOSTATE)));
                             db_update_node (uuid (get_by_uuid (unassociated
                                     NOSTATE)));
                             db_release_node test_host (uuid (get_by_uuid
                                   (unassociated NOSTATE)));
                             db_reserve_node test_host (uuid (get_by_uuid
                                   (unassociated NOSTATE)));
                             deploy_validate (uuid (get_by_uuid (unassociated
                                     NOSTATE)));
                             db_update_node (uuid (get_by_uuid (unassociated
                                     NOSTATE)));
                             deploy_tear_down (uuid (get_by_uuid (unassociated
                                     NOSTATE)));
                             db_update_node (uuid (get_by_uuid (unassociated
                                     NOSTATE)));
                             db_release_node test_host (uuid (get_by_uuid
                                   (unassociated NOSTATE)))] |})).
Proof.
  do 8 (split; [by_evaluation|]).
  apply (deploy_then_tear_down test_host (loaded scenarios.fake_provisioning)
      (get_by_uuid (unassociated NOSTATE)) (create_node (unassociated
          NOSTATE)) (unassociated NOSTATE) scenarios.fake_provisioning);
    by_evaluation.
Defined.

Lemma failed_deploy_blocks_redeploy_witness :
  (db (create_node (unassociated NOSTATE)) !! uuid (get_by_uuid (unassociated
          NOSTATE)) = Some (unassociated NOSTATE))
  ∧ (reservation (unassociated NOSTATE) = None)
  ∧ ((loaded scenarios.fake_deploy_failure) !! driver (unassociated NOSTATE) =
      Some scenarios.fake_deploy_failure)
  ∧ (provision_state (unassociated NOSTATE) = NOSTATE)
  ∧ (Deploy.validate (deploy scenarios.fake_deploy_failure) (reserved
        test_host (uuid (get_by_uuid (unassociated NOSTATE))) (unassociated
          NOSTATE)) = Return tt)
  ∧ (Deploy.deploy (deploy scenarios.fake_deploy_failure)
    (in_progress test_host (uuid (get_by_uuid (unassociated NOSTATE)))
        (unassociated NOSTATE) DEPLOYING DEPLOYDONE) = Raise
      (InstanceDeployFailure "test"))
  ∧ (∃ w1 message,
    do_node_deploy test_host (loaded scenarios.fake_deploy_failure)
      (get_by_uuid (unassociated NOSTATE)) (create_node (unassociated
          NOSTATE)) = (Raise (InstanceDeployFailure "test"), w1)
    ∧ do_node_deploy test_host (loaded scenarios.fake_deploy_failure)
      (get_by_uuid (unassociated NOSTATE)) w1 =
        (Raise (InstanceDeployFailure message),
         {| db := db w1;
            calls := calls w1 ++ [db_reserve_node test_host (uuid (get_by_uuid
                  (unassociated NOSTATE)));
                                  db_release_node test_host (uuid (get_by_uuid
                                        (unassociated NOSTATE)))] |})).
Proof.
  do 6 (split; [by_evaluation|]).
  apply (failed_deploy_blocks_redeploy test_host (loaded
        scenarios.fake_deploy_failure) (get_by_uuid (unassociated NOSTATE))
      (create_node (unassociated NOSTATE)) (unassociated NOSTATE)
      scenarios.fake_deploy_failure (InstanceDeployFailure "test"));
    by_evaluation.
Defined.

Lemma pending_deploy_blocks_redeploy_witness :
  (db (create_node (unassociated NOSTATE)) !! uuid (get_by_uuid (unassociated
          NOSTATE)) = Some (unassociated NOSTATE))
  ∧ (reservation (unassociated NOSTATE) = None)
  ∧ ((loaded fake_partial_deploy) !! driver (unassociated NOSTATE) = Some
      fake_partial_deploy)
  ∧ (provision_state (unassociated NOSTATE) = NOSTATE)
  ∧ (Deploy.validate (deploy fake_partial_deploy) (reserved test_host (uuid
          (get_by_uuid (unassociated NOSTATE))) (unassociated NOSTATE)) =
      Return tt)
  ∧ (Deploy.deploy (deploy fake_partial_deploy)
    (in_progress test_host (uuid (get_by_uuid (unassociated NOSTATE)))
        (unassociated NOSTATE) DEPLOYING DEPLOYDONE)
    = Return DEPLOYING)
  ∧ (DEPLOYING ≠ DEPLOYDONE)
  ∧ (DEPLOYING ≠ NOSTATE)
  ∧ (∃ w1 message,
    do_node_deploy test_host (loaded fake_partial_deploy) (get_by_uuid
        (unassociated NOSTATE)) (create_node (unassociated NOSTATE)) = (Return
        tt, w1)
    ∧ stored provision_state (uuid (get_by_uuid (unassociated NOSTATE))) w1 =
      Some DEPLOYING
    ∧ do_node_deploy test_host (loaded fake_partial_deploy) (get_by_uuid
        (unassociated NOSTATE)) w1 =
        (Raise (InstanceDeployFailure message),
         {| db := db w1;
            calls := calls w1 ++ [db_reserve_node test_host (uuid (get_by_uuid
                  (unassociated NOSTATE)));
                                  db_release_node test_host (uuid (get_by_uuid
                                        (unassociated NOSTATE)))] |})).
Proof.
  do 8 (split; [by_evaluation|]).
  apply (pending_deploy_blocks_redeploy test_host (loaded fake_partial_deploy)
      (get_by_uuid (unassociated NOSTATE)) (create_node (unassociated
          NOSTATE)) (unassociated NOSTATE) fake_partial_deploy DEPLOYING);
    by_evaluation.
Defined.

Lemma failed_deploy_can_be_torn_down_witness :
  (db (create_node (unassociated NOSTATE)) !! uuid (get_by_uuid (unassociated
          NOSTATE)) = Some (unassociated NOSTATE))
  ∧ (reservation (unassociated NOSTATE) = None)
  ∧ ((loaded scenarios.fake_recovering) !! driver (unassociated NOSTATE) =
      Some scenarios.fake_recovering)
  ∧ (provision_state (unassociated NOSTATE) = NOSTATE)
  ∧ (Deploy.validate (deploy scenarios.fake_recovering) (reserved test_host
        (uuid (get_by_uuid (unassociated NOSTATE))) (unassociated NOSTATE)) =
      Return tt)
  ∧ (Deploy.deploy (deploy scenarios.fake_recovering)
    (in_progress test_host (uuid (get_by_uuid (unassociated NOSTATE)))
        (unassociated NOSTATE) DEPLOYING DEPLOYDONE) = Raise
      (InstanceDeployFailure "test"))
  ∧ (Deploy.validate (deploy scenarios.fake_recovering)
    (reserved test_host (uuid (get_by_uuid (unassociated NOSTATE)))
       (errored ("Failed to deploy. Error: " ++ exn_str (InstanceDeployFailure
               "test")) (unassociated NOSTATE)))
    = Return tt)
  ∧ (Deploy.tear_down (deploy scenarios.fake_recovering)
    (in_progress test_host (uuid (get_by_uuid (unassociated NOSTATE)))
       (errored ("Failed to deploy. Error: " ++ exn_str (InstanceDeployFailure
               "test")) (unassociated NOSTATE)) DELETING DELETED)
    = Return DELETED)
  ∧ (∃ w1 w2,
    do_node_deploy test_host (loaded scenarios.fake_recovering) (get_by_uuid
        (unassociated NOSTATE)) (create_node (unassociated NOSTATE)) = (Raise
        (InstanceDeployFailure "test"), w1)
    ∧ do_node_tear_down test_host (loaded scenarios.fake_recovering)
      (get_by_uuid (unassociated NOSTATE)) w1 = (Return tt, w2)
    ∧ db w2 =
        <[uuid (get_by_uuid (unassociated NOSTATE)) :=
            with_provision_state NOSTATE
              (with_target_provision_state NOSTATE
                 (with_last_error None (unassociated NOSTATE)))]> (db
                   (create_node (unassociated NOSTATE)))).
Proof.
  do 8 (split; [by_evaluation|]).
  apply (failed_deploy_can_be_torn_down test_host (loaded
        scenarios.fake_recovering) (get_by_uuid (unassociated NOSTATE))
      (create_node (unassociated NOSTATE)) (unassociated NOSTATE)
      scenarios.fake_recovering (InstanceDeployFailure "test"));
    by_evaluation.
Defined.

Lemma vendor_passthru_unsupported_driver_witness :
  (db (create_node (unassociated NOSTATE)) !! fixtures.node_id = Some
      (unassociated NOSTATE))
  ∧ ((loaded fake_without_vendor) !! driver (unassociated NOSTATE) = Some
      fake_without_vendor)
  ∧ (vendor fake_without_vendor = None)
  ∧ (rpc.vendor_passthru test_host (loaded fake_without_vendor)
      fixtures.node_id ("foo") ({["bar" := "baz"]}) (create_node (unassociated
          NOSTATE)) =
    (Raise (UnsupportedDriverExtension (driver (unassociated NOSTATE))
          fixtures.node_id "vendor passthru"),
     (create_node (unassociated NOSTATE)))).
Proof.
  do 3 (split; [by_evaluation|]).
  apply (vendor_passthru_unsupported_driver test_host (loaded
        fake_without_vendor) fixtures.node_id ("foo") ({["bar" := "baz"]})
      (create_node (unassociated NOSTATE)) (unassociated NOSTATE)
      fake_without_vendor); by_evaluation.
Defined.

Lemma patch_fields_values_witness :
  (chassis.fields_set chassis_samples.defaults chassis_samples.loaded)
  ∧ (∃ saved,
    chassis.patch_fields chassis_samples.defaults chassis_samples.loaded
      chassis_samples.patched = Some saved
    ∧ ∀ key,
        chassis.attrs saved !! key =
          match chassis.default_of chassis_samples.defaults key with
          | Some dflt => Some (default dflt (chassis_samples.patched !! key))
          | None => chassis.attrs chassis_samples.loaded !! key
          end).
Proof.
  do 1 (split; [by_evaluation|]).
  apply (patch_fields_values chassis_samples.defaults chassis_samples.loaded
      chassis_samples.patched); by_evaluation.
Defined.

Lemma patch_fields_marks_witness :
  (chassis.fields_set chassis_samples.defaults chassis_samples.loaded)
  ∧ (∃ saved,
    chassis.patch_fields chassis_samples.defaults chassis_samples.loaded
      chassis_samples.patched = Some saved
    ∧ ∀ key,
        key ∈ chassis.changes saved
        ↔ key ∈ chassis.changes chassis_samples.loaded
          ∨ chassis.attrs saved !! key ≠ chassis.attrs chassis_samples.loaded
            !! key).
Proof.
  do 1 (split; [by_evaluation|]).
  apply (patch_fields_marks chassis_samples.defaults chassis_samples.loaded
      chassis_samples.patched); by_evaluation.
Defined.

Lemma patch_fields_other_keys_witness :
  (chassis.patch_fields chassis_samples.defaults chassis_samples.loaded
      chassis_samples.patched = Some (chassis.setitem (chassis.setitem
          chassis_samples.loaded "extra" chassis.JNull) "description"
        (chassis.JText "new-description")))
  ∧ ((("id") ∈ chassis.internal ∨ ("id") ∉ chassis_samples.defaults.*1))
  ∧ (chassis.attrs (chassis.setitem (chassis.setitem chassis_samples.loaded
          "extra" chassis.JNull) "description" (chassis.JText
          "new-description")) !! ("id") = chassis.attrs chassis_samples.loaded
      !! ("id")
  ∧ (("id") ∈ chassis.changes (chassis.setitem (chassis.setitem
          chassis_samples.loaded "extra" chassis.JNull) "description"
        (chassis.JText "new-description")) ↔ ("id") ∈ chassis.changes
      chassis_samples.loaded)).
Proof.
  do 2 (split; [by_evaluation|]).
  apply (patch_fields_other_keys chassis_samples.defaults
      chassis_samples.loaded (chassis.setitem (chassis.setitem
          chassis_samples.loaded "extra" chassis.JNull) "description"
        (chassis.JText "new-description")) chassis_samples.patched ("id"));
    by_evaluation.
Defined.

Lemma patch_fields_same_document_witness :
  (chassis.fields_set chassis_samples.defaults chassis_samples.loaded)
  ∧ (Forall (λ item, item.1 ∈ chassis.internal
                  ∨ chassis_samples.renumbered !! item.1
                    = chassis.as_dict chassis_samples.loaded !! item.1)
                    chassis_samples.defaults)
  ∧ (chassis.patch_fields chassis_samples.defaults chassis_samples.loaded
      chassis_samples.renumbered
  = Some chassis_samples.loaded).
Proof.
  do 2 (split; [by_evaluation|]).
  apply (patch_fields_same_document chassis_samples.defaults
      chassis_samples.loaded chassis_samples.renumbered); by_evaluation.
Defined.

Lemma detail_parent_segment_witness :
  (chassis.free_of chassis.slash ("chassis") = true)
  ∧ (chassis.free_of chassis.slash ("detail") = true)
  ∧ (chassis.detail (("/v1") +:+ "/" +:+ ("chassis") +:+ "/" +:+ ("detail"))
      tt =
    if decide (("chassis") = "chassis") then inr tt
    else inl chassis.HTTPNotFound).
Proof.
  do 2 (split; [by_evaluation|]).
  apply (detail_parent_segment ("/v1") ("chassis") ("detail") tt);
    by_evaluation.
Defined.

Lemma detail_without_slash_witness :
  (chassis.free_of chassis.slash ("detail") = true)
  ∧ (chassis.detail ("detail") tt = inl chassis.IndexError).
Proof.
  do 1 (split; [by_evaluation|]).
  apply (detail_without_slash ("detail") tt); by_evaluation.
Defined.

